(** * ImgConvNets

    A shallow embedding of [misc/imgconvnets.py]: the [ImgConvNets] class that
    builds one of three fixed convolutional networks, trains it with a
    hand-tuned learning-rate schedule and writes checkpoints, and the static
    [predict] that restores a checkpoint and ranks the classes.

    Python [int]s are [Z], Python [float]s are binary64 primitive floats, a
    two-dimensional array is the list of its rows, exceptions are the [Raise]
    branch of [result].  The tensor framework is an opaque dependency of the
    source: the graphs the code builds are kept as syntax trees ([tensor]),
    and what a session computes is taken from an [Engine] instance. *)

From Stdlib Require Import ZArith Floats Lia Ascii.
From stdpp Require Import gmap strings list.

Set Warnings "-inexact-float".

Local Open Scope Z_scope.

(** ** Exceptions *)

Inductive exn : Set :=
| AssertionError
| ValueError
| ZeroDivisionError
| IndexError
| IOError.

Inductive result (A : Type) : Type :=
| Ok (a : A)
| Raise (e : exn).

Arguments Ok {A} a.
Arguments Raise {A} e.

#[global] Instance result_ret : MRet result := fun _ a => Ok a.

#[global] Instance result_bind : MBind result := fun _ _ f r =>
  match r with
  | Ok a => f a
  | Raise e => Raise e
  end.

(** ** Python integers, ranges and slices *)

(** [a % b] on ints: the sign of the result follows the divisor, as
    [Z.modulo] does; a zero divisor raises. *)
Definition py_mod (a b : Z) : result Z :=
  if b =? 0 then Raise ZeroDivisionError else Ok (a mod b).

(** [math.ceil(a / b)] on ints.  The true division of the source goes through
    a binary64 quotient; below 2^53 the ceiling of that quotient is the
    ceiling of the exact one, which is what is computed here. *)
Definition py_ceil_div (a b : Z) : result Z :=
  if b =? 0 then Raise ZeroDivisionError else Ok (- ((- a) / b)).

(** [range(lo, hi)]: empty when [hi <= lo]. *)
Definition py_range (lo hi : Z) : list Z :=
  (fun i : nat => lo + Z.of_nat i) <$> seq 0 (Z.to_nat (hi - lo)).

(** How a slice bound is clipped against the length. *)
Definition slice_bound (len i : Z) : Z :=
  if i <? 0 then Z.max (i + len) 0 else Z.min i len.

(** [l[lo:hi]], with [None] for an omitted bound. *)
Definition py_slice {A} (l : list A) (lo hi : option Z) : list A :=
  let len := Z.of_nat (length l) in
  let lo' := from_option (slice_bound len) 0 lo in
  let hi' := from_option (slice_bound len) len hi in
  take (Z.to_nat (hi' - lo')) (drop (Z.to_nat lo') l).

(** [l[0]] *)
Definition py_first {A} (l : list A) : result A :=
  match l with
  | x :: _ => Ok x
  | [] => Raise IndexError
  end.

(** ** Arrays *)

(** The arrays the code handles have one or two axes.  [Mat c rows] is a
    matrix with [c] columns, kept as the list of its rows. *)
Inductive ndarray : Type :=
| Vec (v : list float)
| Mat (ncols : nat) (rows : list (list float)).

Definition shape (a : ndarray) : list Z :=
  match a with
  | Vec v => [Z.of_nat (length v)]
  | Mat c rows => [Z.of_nat (length rows); Z.of_nat c]
  end.

(** [x, y = t]: unpacking a tuple that does not have two items is a
    [ValueError]. *)
Definition unpack2 (t : list Z) : result (Z * Z) :=
  match t with
  | [x; y] => Ok (x, y)
  | _ => Raise ValueError
  end.

(** [np.append(a, b, axis=1)] of a matrix [a]: [b] must be a matrix with as
    many rows, otherwise numpy raises [ValueError]. *)
Definition np_append_axis1 (a b : ndarray) : result (nat * list (list float)) :=
  match a, b with
  | Mat ca ra, Mat cb rb =>
      if decide (length ra = length rb)
      then Ok ((ca + cb)%nat, zip_with app ra rb)
      else Raise ValueError
  | _, _ => Raise ValueError
  end.

(** [np.random.permutation(m)] reorders the rows of [m]; [sigma] is the order
    the generator drew, a permutation of [0 .. len-1]. *)
Definition np_random_permutation {A} (sigma : list nat) (rows : list A) : list A :=
  omap (fun i => rows !! i) sigma.

(** ** The object *)

Record ImgConvNets : Type := {
  model : string;
  model_scope : string;
  img_height : Z;
  img_width : Z;
  class_count : Z;
  keep_prob : float;
  learning_rate : float;
  lr_adaptive : bool;
  batch_size : Z;
  num_epoches : Z
}.

Definition model_names : list string := ["BASIC"; "DCNN"; "STCNN"]%string.

(** The constructor, with its [assert] in force (the interpreter not run
    with [-O]). *)
Definition __init__ (model model_scope : string) (img_height img_width class_count : Z)
    (keep_prob learning_rate : float) (lr_adaptive : bool)
    (batch_size num_epoches : Z) : result ImgConvNets :=
  if bool_decide (model = "BASIC"%string) || bool_decide (model = "DCNN"%string)
     || bool_decide (model = "STCNN"%string)
  then Ok {| model := model; model_scope := model_scope;
             img_height := img_height; img_width := img_width;
             class_count := class_count; keep_prob := keep_prob;
             learning_rate := learning_rate; lr_adaptive := lr_adaptive;
             batch_size := batch_size; num_epoches := num_epoches |}
  else Raise AssertionError.

(** ** Batches *)

Definition _get_next_batch {A} (self : ImgConvNets) (data_set : list A)
    (start_index : Z) : result (list A) :=
  let cnt := Z.of_nat (length data_set) in
  start ← (if cnt <=? start_index then py_mod start_index cnt else Ok start_index);
  let end_ := start + batch_size self in
  if end_ <? cnt then Ok (py_slice data_set (Some start) (Some end_))
  else
    end_ ← py_mod end_ cnt;
    Ok (py_slice data_set (Some start) None ++ py_slice data_set None (Some end_)).

(** ** The learning-rate schedule *)

(** [x >= y] and [x > y] on floats: false as soon as one side is a NaN.  A
    single-precision value fetched from a session is compared after its
    exact widening to binary64. *)
Definition fge (x y : float) : bool := PrimFloat.leb y x.
Definition fgt (x y : float) : bool := PrimFloat.ltb y x.

Definition _get_learning_rate (self : ImgConvNets) (last_accu : float) : float :=
  if negb (lr_adaptive self) then learning_rate self
  else if fge last_accu 99.92 then 9.2e-5
  else if fge last_accu 99.84 then 1e-4
  else if fge last_accu 99.76 then 1.2e-4
  else if fge last_accu 99.68 then 1.6e-4
  else if fge last_accu 99.60 then 2e-4
  else if fge last_accu 99.50 then 2.4e-4
  else if fge last_accu 99.00 then 3.2e-4
  else 4e-4.

(** The reference schedule, as a table of (threshold, rate) rows read from
    the top: the first row whose threshold the accuracy reaches gives the
    rate. *)
Definition lr_table : list (float * float) :=
  [ (99.92, 9.2e-5); (99.84, 1e-4); (99.76, 1.2e-4); (99.68, 1.6e-4);
    (99.60, 2e-4); (99.50, 2.4e-4); (99.00, 3.2e-4) ]%float.

Fixpoint first_match (table : list (float * float)) (otherwise x : float) : float :=
  match table with
  | [] => otherwise
  | (threshold, rate) :: rest =>
      if fge x threshold then rate else first_match rest otherwise x
  end.

Definition lr_reference (adaptive : bool) (fixed_rate last_accu : float) : float :=
  if adaptive then first_match lr_table 4e-4%float last_accu else fixed_rate.

(** ** Graphs

    What the code hands to the tensor framework, as syntax: one constructor
    per framework call the source makes.  Name scopes only prefix the names
    of the operations and are left out. *)

Inductive dtype : Set := tf_float32 | tf_int32.

Inductive initializer : Type :=
| tf_zeros (dims : list Z)
| tf_random_normal (dims : list Z) (mean stddev : float)
| tf_truncated_normal (dims : list Z) (stddev : float)
| tf_constant (value : float) (dims : list Z)
| np_array (values : list float).

Inductive tensor : Type :=
| tf_placeholder (dt : dtype) (dims : option (list Z)) (name : option string)
| tf_Variable (initial_value : initializer) (name : option string)
| tf_reshape (t : tensor) (dims : list Z)
| tf_matmul (a b : tensor)
| tf_add (a b : tensor) (name : option string)
| tf_tanh (t : tensor)
| tf_relu (t : tensor)
| tf_dropout (t keep : tensor)
| transformer (U theta : tensor) (out_size : Z * Z)
| tf_conv2d (X W : tensor) (strides : list Z) (padding : string)
| tf_max_pool (X : tensor) (ksize strides : list Z) (padding : string)
| tf_to_int64 (t : tensor)
| tf_sparse_softmax_cross_entropy_with_logits (logits labels : tensor) (name : string)
| tf_reduce_mean (t : tensor) (name : option string)
| tf_AdamOptimizer_minimize (rate loss : tensor)
| tf_in_top_k (predictions targets : tensor) (k : Z)
| tf_cast (t : tensor) (dt : dtype)
| tf_softmax (t : tensor)
| tf_top_k (t : tensor) (k : Z).

(** [a + b] on tensors. *)
Definition tplus (a b : tensor) : tensor := tf_add a b None.

Definition _conv2d (X W : tensor) : tensor :=
  tf_conv2d X W [1; 1; 1; 1] "SAME".

Definition _max_pool_2x2 (X : tensor) : tensor :=
  tf_max_pool X [1; 2; 2; 1] [1; 2; 2; 1] "SAME".

(** [int((h/4)*(w/4)*64)]: dividing by 4 and multiplying by 64 are exact in
    binary64, so this is [4*h*w] as long as the product stays below 2^53. *)
Definition para_cnt (self : ImgConvNets) : Z :=
  4 * (img_height self * img_width self).

(** A weight with truncated-normal start and its bias at 0.1, as every
    convolutional and dense layer of the three builders declares them. *)
Definition weight (dims : list Z) (name : string) : tensor :=
  tf_Variable (tf_truncated_normal dims 0.1) (Some name).

Definition bias (n : Z) (name : string) : tensor :=
  tf_Variable (tf_constant 0.1 [n]) (Some name).

Definition conv_relu (X : tensor) (dims : list Z) (n : Z) (wname bname : string) : tensor :=
  tf_relu (tplus (_conv2d X (weight dims wname)) (bias n bname)).

Definition dense_relu (X : tensor) (dims : list Z) (n : Z) (wname bname : string) : tensor :=
  tf_relu (tplus (tf_matmul X (weight dims wname)) (bias n bname)).

(** The flattened 2x3 identity transform [[1,0,0],[0,1,0]]. *)
Definition identity_transform : list float := [1; 0; 0; 0; 1; 0]%float.

Definition _build_inference_graph_stcnn (self : ImgConvNets) (images keep_prob : tensor) : tensor :=
  let h := img_height self in
  let w := img_width self in
  (* transformer *)
  let shaped_images := tf_reshape images [-1; h; w; 1] in
  let num_batch := 64 in
  let W_fc_loc1 := tf_Variable (tf_zeros [h * w; num_batch]) None in
  let b_fc_loc1 := tf_Variable (tf_random_normal [num_batch] 0.0 0.01) None in
  let h_fc_loc1 := tf_tanh (tplus (tf_matmul images W_fc_loc1) b_fc_loc1) in
  let h_fc_loc1_drop := tf_dropout h_fc_loc1 keep_prob in
  let initial := identity_transform in
  let W_fc_loc2 := tf_Variable (tf_zeros [num_batch; 6]) None in
  let b_fc_loc2 := tf_Variable (np_array initial) (Some "b_fc_loc2"%string) in
  let h_fc_loc2 := tf_tanh (tplus (tf_matmul h_fc_loc1_drop W_fc_loc2) b_fc_loc2) in
  let out_size := (h, w) in
  let h_trans := transformer shaped_images h_fc_loc2 out_size in
  (* conv1 *)
  let h_conv11 := conv_relu h_trans [3; 3; 1; 32] 32 "W_conv11" "b_conv11" in
  let h_conv12 := conv_relu h_conv11 [3; 3; 32; 32] 32 "W_conv12" "b_conv12" in
  let h_pool1 := _max_pool_2x2 h_conv12 in
  (* conv2 *)
  let h_conv21 := conv_relu h_pool1 [3; 3; 32; 64] 64 "W_conv21" "b_conv21" in
  let h_conv22 := conv_relu h_conv21 [3; 3; 64; 64] 64 "W_conv22" "b_conv22" in
  let h_pool2 := _max_pool_2x2 h_conv22 in
  (* fully_connected *)
  let h_pool2_flat := tf_reshape h_pool2 [-1; para_cnt self] in
  let h_fc1 := dense_relu h_pool2_flat [para_cnt self; 1024] 1024 "W_fc1" "b_fc1" in
  (* dropout *)
  let h_fc1_drop := tf_dropout h_fc1 keep_prob in
  (* readout *)
  let W_fc2 := weight [1024; class_count self] "W_fc2" in
  let b_fc2 := bias (class_count self) "b_fc2" in
  tf_add (tf_matmul h_fc1_drop W_fc2) b_fc2 (Some "logits"%string).

Definition _build_inference_graph_dcnn (self : ImgConvNets) (images keep_prob : tensor) : tensor :=
  let h := img_height self in
  let w := img_width self in
  (* conv1 *)
  let shaped_images := tf_reshape images [-1; h; w; 1] in
  let h_conv11 := conv_relu shaped_images [3; 3; 1; 32] 32 "W_conv11" "b_conv11" in
  let h_conv12 := conv_relu h_conv11 [1; 3; 32; 32] 32 "W_conv12" "b_conv12" in
  let h_conv13 := conv_relu h_conv12 [3; 1; 32; 32] 32 "W_conv13" "b_conv13" in
  let h_conv14 := conv_relu h_conv13 [3; 3; 32; 32] 32 "W_conv14" "b_conv14" in
  let h_pool1 := _max_pool_2x2 h_conv14 in
  (* conv2 *)
  let h_conv21 := conv_relu h_pool1 [3; 3; 32; 64] 64 "W_conv21" "b_conv21" in
  let h_conv22 := conv_relu h_conv21 [1; 3; 64; 64] 64 "W_conv22" "b_conv22" in
  let h_conv23 := conv_relu h_conv22 [3; 1; 64; 64] 64 "W_conv23" "b_conv23" in
  let h_conv24 := conv_relu h_conv23 [3; 3; 64; 64] 64 "W_conv24" "b_conv24" in
  let h_pool2 := _max_pool_2x2 h_conv24 in
  (* fully_connected *)
  let h_pool2_flat := tf_reshape h_pool2 [-1; para_cnt self] in
  let h_fc1 := dense_relu h_pool2_flat [para_cnt self; 1024] 1024 "W_fc1" "b_fc1" in
  let h_fc2 := dense_relu h_fc1 [1024; 1024] 1024 "W_fc2" "b_fc2" in
  (* dropout *)
  let h_fc2_drop := tf_dropout h_fc2 keep_prob in
  (* readout *)
  let W_fc3 := weight [1024; class_count self] "W_fc3" in
  let b_fc3 := bias (class_count self) "b_fc3" in
  tf_add (tf_matmul h_fc2_drop W_fc3) b_fc3 (Some "logits"%string).

Definition _build_inference_graph_basic (self : ImgConvNets) (images keep_prob : tensor) : tensor :=
  let h := img_height self in
  let w := img_width self in
  (* conv1 *)
  let shaped_images := tf_reshape images [-1; h; w; 1] in
  let h_conv11 := conv_relu shaped_images [3; 3; 1; 32] 32 "W_conv11" "b_conv11" in
  let h_conv12 := conv_relu h_conv11 [3; 3; 32; 32] 32 "W_conv12" "b_conv12" in
  let h_pool1 := _max_pool_2x2 h_conv12 in
  (* conv2 *)
  let h_conv21 := conv_relu h_pool1 [3; 3; 32; 64] 64 "W_conv21" "b_conv21" in
  let h_conv22 := conv_relu h_conv21 [3; 3; 64; 64] 64 "W_conv22" "b_conv22" in
  let h_pool2 := _max_pool_2x2 h_conv22 in
  (* fully_connected *)
  let h_pool2_flat := tf_reshape h_pool2 [-1; para_cnt self] in
  let h_fc1 := dense_relu h_pool2_flat [para_cnt self; 1024] 1024 "W_fc1" "b_fc1" in
  (* dropout *)
  let h_fc1_drop := tf_dropout h_fc1 keep_prob in
  (* readout *)
  let W_fc2 := weight [1024; class_count self] "W_fc2" in
  let b_fc2 := bias (class_count self) "b_fc2" in
  tf_add (tf_matmul h_fc1_drop W_fc2) b_fc2 (Some "logits"%string).

Definition _build_training_graph (logits labels learning_rate : tensor)
    : tensor * tensor * tensor :=
  let labels := tf_to_int64 labels in
  let cross_entropy := tf_sparse_softmax_cross_entropy_with_logits logits labels "xentropy" in
  let loss := tf_reduce_mean cross_entropy (Some "xentropy_mean"%string) in
  let train_op := tf_AdamOptimizer_minimize learning_rate loss in
  let correct_predict := tf_in_top_k logits labels 1 in
  let accuracy := tf_reduce_mean (tf_cast correct_predict tf_float32) None in
  (train_op, loss, accuracy).

(** The branch of [train] that picks the builder. *)
Definition build_inference_graph (self : ImgConvNets) (images keep_prob : tensor) : tensor :=
  if bool_decide (model self = "STCNN"%string)
  then _build_inference_graph_stcnn self images keep_prob
  else if bool_decide (model self = "DCNN"%string)
  then _build_inference_graph_dcnn self images keep_prob
  else _build_inference_graph_basic self images keep_prob.

(** *** Reading a built graph *)

(** Height and width of the kernel a convolution applies, from the
    dimensions its weight variable is created with. *)
Definition kernel_of (W : tensor) : option (Z * Z) :=
  match W with
  | tf_Variable (tf_truncated_normal (kh :: kw :: _) _) _ => Some (kh, kw)
  | _ => None
  end.

(** The layers on the data path from the input images to [t], from the
    input on: each entry names the layer and, for a convolution, its
    kernel. *)
Inductive layer : Set :=
| LReshape | LTransformer | LConv (kernel : option (Z * Z)) | LPool | LDense
| LDropout | LOther.

Fixpoint data_path (t : tensor) : list layer :=
  match t with
  | tf_reshape x _ => data_path x ++ [LReshape]
  | transformer U _ _ => data_path U ++ [LTransformer]
  | tf_conv2d X W _ _ => data_path X ++ [LConv (kernel_of W)]
  | tf_max_pool X _ _ _ => data_path X ++ [LPool]
  | tf_matmul a _ => data_path a ++ [LDense]
  | tf_dropout x _ => data_path x ++ [LDropout]
  | tf_add a _ _ => data_path a
  | tf_relu x | tf_tanh x => data_path x
  | tf_placeholder _ _ _ => []
  | _ => [LOther]
  end.

Definition conv_kernels (t : tensor) : list (option (Z * Z)) :=
  omap (fun l => match l with LConv k => Some k | _ => None end) (data_path t).

(** The convolutional blocks: the runs of convolution kernels between
    pooling layers. *)
Fixpoint conv_blocks (p : list layer) (cur : list (option (Z * Z)))
    : list (list (option (Z * Z))) :=
  match p with
  | [] => []
  | LConv k :: rest => conv_blocks rest (cur ++ [k])
  | LPool :: rest => cur :: conv_blocks rest []
  | _ :: rest => conv_blocks rest cur
  end.

(** The transformer module on the data path of [t], if any, as
    (its input, its transform parameters, its output size). *)
Fixpoint find_transformer (t : tensor) : option (tensor * tensor * (Z * Z)) :=
  match t with
  | transformer U theta out_size => Some (U, theta, out_size)
  | tf_reshape x _ | tf_relu x | tf_tanh x | tf_max_pool x _ _ _ => find_transformer x
  | tf_conv2d a _ _ _ | tf_matmul a _ | tf_dropout a _ | tf_add a _ _ => find_transformer a
  | _ => None
  end.

(** The tensor the first convolution of the data path is applied to. *)
Fixpoint first_conv_input (t : tensor) : option tensor :=
  match t with
  | tf_conv2d X _ _ _ =>
      match first_conv_input X with
      | Some x => Some x
      | None => Some X
      end
  | tf_reshape x _ | tf_relu x | tf_tanh x | tf_max_pool x _ _ _ => first_conv_input x
  | transformer a _ _ | tf_matmul a _ | tf_dropout a _ | tf_add a _ _ => first_conv_input a
  | _ => None
  end.

(** The start value of the bias added last in the computation of the
    transform parameters. *)
Definition transform_bias_init (theta : tensor) : option initializer :=
  match theta with
  | tf_tanh (tf_add _ (tf_Variable i _) _) => Some i
  | _ => None
  end.

(** ** Collections of a graph *)

(** A graph is read through its collections: lists of tensors under string
    keys, in the order they were added. *)
Abbreviation graph := (gmap string (list tensor)).

Definition tf_add_to_collection (name : string) (value : tensor) (g : graph) : graph :=
  <[name := default [] (g !! name) ++ [value]]> g.

Definition tf_get_collection (name : string) (g : graph) : list tensor :=
  default [] (g !! name).

(** The keys under which the framework itself files what a graph holds
    (its [GraphKeys]). *)
Definition graph_keys : list string :=
  [ "variables"; "local_variables"; "metric_variables"; "model_variables";
    "trainable_variables"; "summaries"; "queue_runners"; "table_initializer";
    "asset_filepaths"; "moving_average_variables"; "regularization_losses";
    "concatenated_variables"; "savers"; "weights"; "biases"; "activations";
    "update_ops"; "losses"; "saveable_objects"; "resources"; "local_resources";
    "trainable_resource_variables"; "init_op"; "local_init_op"; "ready_op";
    "ready_for_local_init_op"; "summary_op"; "global_step"; "eval_step";
    "train_op"; "cond_context"; "while_context"; "_SUMMARY_V2";
    "streaming_model_ports" ]%string.

Fixpoint ends_with (suffix s : string) : bool :=
  bool_decide (s = suffix) ||
  match s with
  | EmptyString => false
  | String _ rest => ends_with suffix rest
  end.

(** ** The framework *)

Inductive feed_value : Type :=
| FeedArray (a : ndarray)
| FeedScalar (x : float).

Abbreviation feed_dict := (list (tensor * feed_value)).

(** What the code takes from the tensor framework and from numpy's scalar
    arithmetic, whose results it only passes on or compares. *)
Class Engine : Type := {
  (** the state of a session: the current values of the variables *)
  Sess : Type;
  (** an array fetched from a session *)
  Fetched : Type;
  (** the collections the framework fills by itself while the given
      tensors are built, all under keys of its own *)
  engine_collections : list tensor -> graph;
  engine_collections_keys :
    forall ts k, is_Some (engine_collections ts !! k) -> k ∈ graph_keys;
  (** [sess.run(tf.global_variables_initializer())] *)
  global_variables_initializer : graph -> Sess;
  (** [sess.run([train_op, loss, accuracy], feed_dict)]: the new state and
      the fetched loss and accuracy *)
  run_train : Sess -> list tensor -> feed_dict -> Sess * float * float;
  (** [sess.run(eval_op, feed_dict)] for an [eval_op] with two outputs *)
  run_pair : Sess -> tensor -> feed_dict -> Fetched * Fetched;
  (** [sum(l)*100/len(l)] on a non-empty list of fetched accuracies *)
  percent_mean : list float -> float
}.

(** ** Paths and files *)

Definition starts_with_sep (s : string) : bool :=
  match s with
  | String c _ => bool_decide (c = "/"%char)
  | _ => false
  end.

(** [os.path.join(a, b)] *)
Definition os_path_join (a b : string) : string :=
  if starts_with_sep b then b
  else if bool_decide (a = ""%string) || ends_with "/" a then a +:+ b
  else a +:+ "/" +:+ b.

(** What a checkpoint leaves on disk: the graph in the [.meta] file and the
    values of the variables in the file of the plain name. *)
Inductive file `{Engine} : Type :=
| MetaGraph (g : graph)
| VariableValues (s : Sess).

(** ** Training *)

Definition images_placeholder : tensor :=
  tf_placeholder tf_float32 None (Some "images_placeholder"%string).
Definition labels_placeholder : tensor :=
  tf_placeholder tf_int32 None None.
Definition keep_prob_placeholder : tensor :=
  tf_placeholder tf_float32 None (Some "keep_prob_placeholder"%string).
Definition learning_rate_placeholder : tensor :=
  tf_placeholder tf_float32 (Some []) None.

(** What [train] does and can be seen from outside, in order.  [Saved]
    records the epoch at whose end [saver.save] is called, besides its
    arguments. *)
Inductive event : Type :=
| GraphBuilt (g : graph)
| SessionOpened
| Step (epoch step : Z) (images_feed labels_feed : ndarray) (lr_feed keep : float)
| Saved (epoch : Z) (save_file : string) (global_step : option Z)
| Printed (epoch : Z) (lr_feed mean_accu : float).

Definition is_step (e : event) : bool :=
  match e with Step _ _ _ _ _ _ => true | _ => false end.

Definition is_saved (e : event) : bool :=
  match e with Saved _ _ _ => true | _ => false end.

Definition steps_of (epoch : Z) (e : event) : bool :=
  match e with Step ep _ _ _ _ _ => bool_decide (ep = epoch) | _ => false end.

Section Train.
Context `{E : Engine}.

(** The logits of the model of [self], on the placeholders of [train]. *)
Definition train_logits (self : ImgConvNets) : tensor :=
  build_inference_graph self images_placeholder keep_prob_placeholder.

Definition train_ops (self : ImgConvNets) : tensor * tensor * tensor :=
  _build_training_graph (train_logits self) labels_placeholder learning_rate_placeholder.

(** [def_graph] once the first [with] block of [train] is left. *)
Definition train_graph (self : ImgConvNets) : graph :=
  let logits := train_logits self in
  let '(train_op, loss, accuracy) := train_ops self in
  let g := engine_collections [logits; train_op; loss; accuracy] in
  let g := tf_add_to_collection (model_scope self +:+ "images") images_placeholder g in
  let g := tf_add_to_collection (model_scope self +:+ "keep_prob") keep_prob_placeholder g in
  tf_add_to_collection (model_scope self +:+ "logits") logits g.

(** [batch_data[:, :cols]] and [batch_data[:, cols:].reshape(-1)] *)
Definition images_of (ncols : nat) (cols : Z) (batch_data : list (list float)) : ndarray :=
  Mat (Z.to_nat (slice_bound (Z.of_nat ncols) cols))
      ((fun r => py_slice r None (Some cols)) <$> batch_data).

Definition labels_of (cols : Z) (batch_data : list (list float)) : ndarray :=
  Vec (concat ((fun r => py_slice r (Some cols) None) <$> batch_data)).

(** [sum(accu_list)*100/len(accu_list)]: on an empty list this is the
    integer division [0/0]. *)
Definition mean_percent (accu_list : list float) : result float :=
  match accu_list with
  | [] => Raise ZeroDivisionError
  | _ :: _ => Ok (percent_mean accu_list)
  end.

(** The inner [for step in range(epoch_steps)] loop. *)
Fixpoint step_loop (self : ImgConvNets) (ncols : nat) (train_set : list (list float))
    (cols epoch : Z) (lr_feed : float) (steps : list Z)
    (sess : Sess) (loss_list accu_list : list float)
    : list event * result (Sess * list float * list float) :=
  match steps with
  | [] => ([], Ok (sess, loss_list, accu_list))
  | step :: rest =>
      match _get_next_batch self train_set (step * batch_size self) with
      | Raise e => ([], Raise e)
      | Ok batch_data =>
          let images_feed := images_of ncols cols batch_data in
          let labels_feed := labels_of cols batch_data in
          let '(train_op, loss, accuracy) := train_ops self in
          let '(sess, loss_val, accu_val) :=
            run_train sess [train_op; loss; accuracy]
              [ (images_placeholder, FeedArray images_feed);
                (labels_placeholder, FeedArray labels_feed);
                (learning_rate_placeholder, FeedScalar lr_feed);
                (keep_prob_placeholder, FeedScalar (keep_prob self)) ] in
          let '(evs, r) :=
            step_loop self ncols train_set cols epoch lr_feed rest sess
              (loss_list ++ [loss_val]) (accu_list ++ [accu_val]) in
          (Step epoch step images_feed labels_feed lr_feed (keep_prob self) :: evs, r)
      end
  end.

(** The checkpoint decision at the end of an epoch. *)
Definition save_events (self : ImgConvNets) (save_file : string) (epoch : Z)
    (mean_accu last_accu : float) : list event :=
  if fge mean_accu 99.68 && fgt mean_accu last_accu
  then [Saved epoch save_file (Some epoch)]
  else if bool_decide (epoch = num_epoches self - 1)
  then [Saved epoch save_file None]
  else [].

(** The outer [for epoch in range(1, num_epoches+1)] loop. *)
Fixpoint epoch_loop (self : ImgConvNets) (ncols : nat) (train_set : list (list float))
    (cols epoch_steps : Z) (save_file : string) (epochs : list Z)
    (sess : Sess) (last_accu : float) : list event * result unit :=
  match epochs with
  | [] => ([], Ok ())
  | epoch :: rest =>
      let lr_feed := _get_learning_rate self last_accu in
      match step_loop self ncols train_set cols epoch lr_feed
              (py_range 0 epoch_steps) sess [] [] with
      | (evs, Raise e) => (evs, Raise e)
      | (evs, Ok (sess, loss_list, accu_list)) =>
          match mean_percent accu_list with
          | Raise e => (evs, Raise e)
          | Ok mean_accu =>
              let evs := evs ++ save_events self save_file epoch mean_accu last_accu
                             ++ [Printed epoch lr_feed mean_accu] in
              if fge mean_accu 99.99 then (evs, Ok ())
              else
                let '(evs', r) :=
                  epoch_loop self ncols train_set cols epoch_steps save_file rest
                    sess mean_accu in
                (evs ++ evs', r)
          end
      end
  end.

(** [train]: [sigma] is the order drawn by [np.random.permutation]. *)
Definition train (self : ImgConvNets) (img_features true_labels : ndarray)
    (train_dir result_file : string) (sigma : list nat) : list event * result unit :=
  match unpack2 (shape img_features) with
  | Raise e => ([], Raise e)
  | Ok (rows, cols) =>
      if negb (cols =? img_height self * img_width self) then ([], Raise ValueError)
      else
        match np_append_axis1 img_features true_labels with
        | Raise e => ([], Raise e)
        | Ok (ncols, appended) =>
            let train_set := np_random_permutation sigma appended in
            let def_graph := train_graph self in
            let sess := global_variables_initializer def_graph in
            let save_file := os_path_join train_dir result_file in
            let setup := [GraphBuilt def_graph; SessionOpened] in
            match py_ceil_div (Z.of_nat (length train_set)) (batch_size self) with
            | Raise e => (setup, Raise e)
            | Ok epoch_steps =>
                let '(evs, r) :=
                  epoch_loop self ncols train_set cols epoch_steps save_file
                    (py_range 1 (num_epoches self + 1)) sess 0%float in
                (setup ++ evs, r)
            end
        end
  end.

(** ** Prediction *)

(** [tf.train.import_meta_graph(path)]: the graph on file; [IOError] when
    there is no such graph file. *)
Definition tf_import_meta_graph (fs : gmap string file) (path : string) : result graph :=
  match fs !! path with
  | Some (MetaGraph g) => Ok g
  | _ => Raise IOError
  end.

(** [saver.restore(sess, path)]: the session with the values on file;
    [ValueError] when [path] is no checkpoint. *)
Definition saver_restore (fs : gmap string file) (path : string) : result Sess :=
  match fs !! path with
  | Some (VariableValues s) => Ok s
  | _ => Raise ValueError
  end.

Definition predict (fs : gmap string file) (model_scope result_dir result_file : string)
    (img_features : ndarray) (k : Z) : result (Fetched * Fetched) :=
  g ← tf_import_meta_graph fs (os_path_join result_dir (result_file +:+ ".meta"));
  sess ← saver_restore fs (os_path_join result_dir result_file);
  logits ← py_first (tf_get_collection (model_scope +:+ "logits") g);
  images_placeholder ← py_first (tf_get_collection (model_scope +:+ "images") g);
  keep_prob_placeholder ← py_first (tf_get_collection (model_scope +:+ "keep_prob") g);
  let eval_op := tf_top_k (tf_softmax logits) k in
  Ok (run_pair sess eval_op
        [ (images_placeholder, FeedArray img_features);
          (keep_prob_placeholder, FeedScalar 1.0) ]).

End Train.

(** ** Reading a run *)

(** The rows of a matrix and the items of a vector. *)
Definition mat_rows (a : ndarray) : list (list float) :=
  match a with
  | Mat _ rows => rows
  | Vec _ => []
  end.

Definition vec_items (a : ndarray) : list float :=
  match a with
  | Vec v => v
  | Mat _ _ => []
  end.

(** A row of the training set read back as (features, label columns). *)
Definition split_row (c : nat) (row : list float) : list float * list float :=
  (take c row, drop c row).

Definition count_steps (evs : list event) : nat := length (filter is_step evs).

Definition saves (evs : list event) : list event := filter is_saved evs.

(** Was a checkpoint written at the end of epoch [e]? *)
Definition saved_at (e : Z) (evs : list event) : bool :=
  existsb (fun ev => match ev with Saved e' _ _ => bool_decide (e' = e) | _ => false end) evs.

(** The epochs that ran to their end, with their mean accuracy, in order. *)
Definition printed (evs : list event) : list (Z * float) :=
  omap (fun ev => match ev with Printed e _ m => Some (e, m) | _ => None end) evs.

(** The value of [last_accu] during the [i]-th completed epoch of a loop
    entered with [last_accu = first]: [first], then the mean accuracy of the
    epoch before.  [train] enters its loop with 0.0. *)
Definition last_accu_at (first : float) (i : nat) (history : list (Z * float)) : float :=
  match i with
  | O => first
  | S j => from_option snd first (history !! j)
  end.

(** The condition under which the source calls [saver.save] at the end of
    epoch [e]. *)
Definition save_rule (self : ImgConvNets) (e : Z) (mean_accu last_accu : float) : bool :=
  (fge mean_accu 99.68 && fgt mean_accu last_accu)
  || bool_decide (e = num_epoches self - 1).

(** The events of a run of the epoch loop over the epochs [epochs], entered
    with [last_accu = last], when every epoch has [steps] steps: whole epochs
    (their steps, the checkpoint decision, the report) up to the end of the
    range or to the first epoch whose mean accuracy reaches 99.99, or up to
    an epoch in which a division by zero is raised. *)
Inductive epochs_trace (self : ImgConvNets) (save_file : string) (steps : nat)
    : float -> list Z -> list event -> result unit -> Prop :=
| trace_exhausted last :
    epochs_trace self save_file steps last [] [] (Ok ())
| trace_break last e rest step_evs mean :
    length step_evs = steps ->
    Forall (fun ev => steps_of e ev = true) step_evs ->
    fge mean 99.99 = true ->
    epochs_trace self save_file steps last (e :: rest)
      (step_evs ++ save_events self save_file e mean last
         ++ [Printed e (_get_learning_rate self last) mean])
      (Ok ())
| trace_continue last e rest step_evs mean evs r :
    length step_evs = steps ->
    Forall (fun ev => steps_of e ev = true) step_evs ->
    fge mean 99.99 = false ->
    epochs_trace self save_file steps mean rest evs r ->
    epochs_trace self save_file steps last (e :: rest)
      ((step_evs ++ save_events self save_file e mean last
          ++ [Printed e (_get_learning_rate self last) mean]) ++ evs)
      r
| trace_raised last e rest step_evs :
    (length step_evs <= steps)%nat ->
    Forall (fun ev => steps_of e ev = true) step_evs ->
    epochs_trace self save_file steps last (e :: rest) step_evs (Raise ZeroDivisionError).

(** ** The run as a function of the epoch means

    What the engine computes reaches the run only through the mean accuracy
    of each epoch: the batches, the rates and the checkpoints follow from
    the training set and these means. *)

(** The batch of step [step]; empty where [_get_next_batch] raises. *)
Definition batch_at (self : ImgConvNets) (train_set : list (list float)) (step : Z)
    : list (list float) :=
  match _get_next_batch self train_set (step * batch_size self) with
  | Ok batch_data => batch_data
  | Raise _ => []
  end.

Definition step_event (self : ImgConvNets) (ncols : nat) (train_set : list (list float))
    (cols epoch : Z) (lr_feed : float) (step : Z) : event :=
  Step epoch step (images_of ncols cols (batch_at self train_set step))
    (labels_of cols (batch_at self train_set step)) lr_feed (keep_prob self).

(** The events of one whole epoch entered with [last_accu] and ending with
    the mean accuracy [mean_accu]. *)
Definition epoch_events (self : ImgConvNets) (ncols : nat) (train_set : list (list float))
    (cols epoch_steps : Z) (save_file : string) (epoch : Z)
    (last_accu mean_accu : float) : list event :=
  (step_event self ncols train_set cols epoch (_get_learning_rate self last_accu)
     <$> py_range 0 epoch_steps)
  ++ save_events self save_file epoch mean_accu last_accu
  ++ [Printed epoch (_get_learning_rate self last_accu) mean_accu].

(** The events of the epochs that ended with the means [means], in order. *)
Fixpoint run_events (self : ImgConvNets) (ncols : nat) (train_set : list (list float))
    (cols epoch_steps : Z) (save_file : string) (epochs : list Z)
    (last_accu : float) (means : list float) : list event :=
  match epochs, means with
  | epoch :: epochs, mean_accu :: means =>
      epoch_events self ncols train_set cols epoch_steps save_file epoch
        last_accu mean_accu
      ++ run_events self ncols train_set cols epoch_steps save_file epochs
           mean_accu means
  | _, _ => []
  end.

(** The means [means] are those of a loop over [n] epochs that stops at the
    first mean of 99.99 or more. *)
Definition stops_at_target (n : nat) (means : list float) : Prop :=
  (length means <= n)%nat
  /\ (forall (i : nat) (m : float),
        means !! i = Some m -> fge m 99.99 = true -> S i = length means)
  /\ ((length means < n)%nat ->
      exists m, last means = Some m /\ fge m 99.99 = true).

(** Inputs [train] goes through with: [c]-column features with
    [c = img_height * img_width], a [cl]-column matrix of labels with as many
    rows, at least one sample, a positive batch size, and the order [sigma]
    drawn by the generator. *)
Definition trainable (self : ImgConvNets) (c cl : nat) (rows lrows : list (list float))
    (sigma : list nat) : Prop :=
  Forall (fun r => length r = c) rows
  /\ Forall (fun r => length r = cl) lrows
  /\ Z.of_nat c = img_height self * img_width self
  /\ length rows = length lrows
  /\ rows <> []
  /\ 1 <= batch_size self
  /\ sigma ≡ₚ seq 0 (length rows).

(** The checkpoints written at the end of epoch [e]: the file name and the
    global step handed to [saver.save]. *)
Definition save_kinds (e : Z) (evs : list event) : list (string * option Z) :=
  omap (fun ev =>
          match ev with
          | Saved e' f gs => if bool_decide (e' = e) then Some (f, gs) else None
          | _ => None
          end) evs.

(** What the checkpoint decision hands to [saver.save] at the end of epoch
    [e]: the global step [e] when the epoch improved at 99.68 or more, else
    no global step in epoch [num_epoches - 1], else nothing. *)
Definition save_choice (self : ImgConvNets) (f : string) (e : Z)
    (mean_accu last_accu : float) : list (string * option Z) :=
  if fge mean_accu 99.68 && fgt mean_accu last_accu then [(f, Some e)]
  else if bool_decide (e = num_epoches self - 1) then [(f, None)]
  else [].

(** [self] with another [learning_rate]. *)
Definition with_learning_rate (self : ImgConvNets) (rate : float) : ImgConvNets :=
  {| model := model self; model_scope := model_scope self;
     img_height := img_height self; img_width := img_width self;
     class_count := class_count self; keep_prob := keep_prob self;
     learning_rate := rate; lr_adaptive := lr_adaptive self;
     batch_size := batch_size self; num_epoches := num_epoches self |}.

(** [t] with the input of its first convolution replaced by [input]. *)
Fixpoint feed_first_conv (input t : tensor) : tensor :=
  match t with
  | tf_conv2d X W strides padding =>
      match first_conv_input X with
      | Some _ => tf_conv2d (feed_first_conv input X) W strides padding
      | None => tf_conv2d input W strides padding
      end
  | tf_reshape x dims => tf_reshape (feed_first_conv input x) dims
  | tf_relu x => tf_relu (feed_first_conv input x)
  | tf_tanh x => tf_tanh (feed_first_conv input x)
  | tf_max_pool x ksize strides padding =>
      tf_max_pool (feed_first_conv input x) ksize strides padding
  | transformer a theta out_size => transformer (feed_first_conv input a) theta out_size
  | tf_matmul a b => tf_matmul (feed_first_conv input a) b
  | tf_dropout a keep => tf_dropout (feed_first_conv input a) keep
  | tf_add a b name => tf_add (feed_first_conv input a) b name
  | _ => t
  end.

(** ** Declared sizes

    The sizes the builders declare for their variables, read off the graph. *)

(** The dimensions a variable is created with. *)
Definition var_dims (v : tensor) : option (list Z) :=
  match v with
  | tf_Variable (tf_zeros dims) _
  | tf_Variable (tf_random_normal dims _ _) _
  | tf_Variable (tf_truncated_normal dims _) _
  | tf_Variable (tf_constant _ dims) _ => Some dims
  | tf_Variable (np_array values) _ => Some [Z.of_nat (length values)]
  | _ => None
  end.

(** For a layer with weight [W] and bias [b]: the input width and the
    output width of the weight (its last two dimensions) and the width of
    the bias. *)
Definition layer_width (W b : tensor) : option (Z * Z * Z) :=
  match var_dims W, var_dims b with
  | Some [_; _; i; o], Some [n] => Some (i, o, n)
  | Some [i; o], Some [n] => Some (i, o, n)
  | _, _ => None
  end.

(** The widths of the convolutional and dense layers that lead to [t],
    from the input on. *)
Fixpoint layer_widths (t : tensor) : list (option (Z * Z * Z)) :=
  match t with
  | tf_add (tf_conv2d X W _ _) b _ => layer_widths X ++ [layer_width W b]
  | tf_add (tf_matmul a W) b _ => layer_widths a ++ [layer_width W b]
  | tf_relu x | tf_tanh x | tf_max_pool x _ _ _ | tf_reshape x _
  | tf_dropout x _ | transformer x _ _ => layer_widths x
  | _ => []
  end.

(** The size of a sample after the last reshape on the way to [t]. *)
Fixpoint flattened_size (t : tensor) : option Z :=
  match t with
  | tf_reshape _ [_; n] => Some n
  | tf_add a _ _ | tf_matmul a _ | tf_relu a | tf_tanh a | tf_dropout a _ =>
      flattened_size a
  | _ => None
  end.

(** ** A small engine to run the code on

    Its session state counts the steps run so far; the accuracy it reports
    at a step is read from [accu]; means are taken in binary64. *)

Definition float_of_nat (n : nat) : float :=
  PrimFloat.of_uint63 (Uint63.of_Z (Z.of_nat n)).

Definition binary64_percent_mean (l : list float) : float :=
  (fold_left PrimFloat.add l 0 * 100 / float_of_nat (length l))%float.

Definition toy_collections (ts : list tensor) : graph :=
  {[ "train_op"%string := take 1 (drop 1 ts) ]}.

Lemma toy_collections_keys (ts : list tensor) (k : string) :
  is_Some (toy_collections ts !! k) -> k ∈ graph_keys.
Proof.
  unfold toy_collections. intros [v Hv].
  apply lookup_singleton_Some in Hv as [<- _].
  unfold graph_keys. set_solver.
Qed.

Definition toy_engine (accu : nat -> float) : Engine :=
  {| Sess := nat;
     Fetched := nat * tensor * feed_dict;
     engine_collections := toy_collections;
     engine_collections_keys := toy_collections_keys;
     global_variables_initializer := fun _ => O;
     run_train := fun s _ _ => (S s, 1%float, accu s);
     run_pair := fun s t fd => ((s, t, fd), (s, t, fd));
     percent_mean := binary64_percent_mean |}.

Definition small_net (m : string) (epochs : Z) : ImgConvNets :=
  {| model := m; model_scope := "m"; img_height := 2; img_width := 2;
     class_count := 2; keep_prob := 0.5; learning_rate := 1e-4;
     lr_adaptive := true; batch_size := 2; num_epoches := epochs |}.

Definition adaptive_net : ImgConvNets := small_net "BASIC" 3.

Definition tiny_net (batch epochs : Z) : ImgConvNets :=
  {| model := "BASIC"; model_scope := "m"; img_height := 2; img_width := 2;
     class_count := 2; keep_prob := 0.5; learning_rate := 1e-4;
     lr_adaptive := false; batch_size := batch; num_epoches := epochs |}.

(** Three 2x2 images and their labels. *)
Definition three_rows : list (list float) :=
  [ [0; 0; 0; 1]; [0; 1; 0; 0]; [1; 1; 0; 0] ]%float.

Definition three_label_rows : list (list float) := [ [1]; [0]; [1] ]%float.

Definition three_images : ndarray := Mat 4 three_rows.

Definition three_labels : ndarray := Mat 1 three_label_rows.

(** An engine whose accuracy stays at one half. *)
Definition steady_engine : Engine := toy_engine (fun _ => 0.5%float).

(** The files of a checkpoint of [adaptive_net] under [d/f]. *)
Definition checkpoint_files : gmap string (@file steady_engine) :=
  <[ "d/f.meta"%string := MetaGraph (train_graph (E := steady_engine) adaptive_net) ]>
    (<[ "d/f"%string := VariableValues (4%nat : @Sess steady_engine) ]> ∅).

(** [f] and [l] are the features and the label of one sample of the input. *)
Definition paired (rows lrows : list (list float)) (f : list float) (l : float) : Prop :=
  exists j : nat, rows !! j = Some f /\ lrows !! j = Some [l].

(** A row of the training set: features, then the label. *)
Definition glue (p : list float * float) : list float := p.1 ++ [p.2].

(** * Properties *)

(** ** Order on floats *)

Lemma SFleb_trans (a b c : spec_float) :
  SFleb a b = true -> SFleb b c = true -> SFleb a c = true.
Proof.
  unfold SFleb, SFcompare.
  destruct a as [sa|sa| |sa ma ea], b as [sb|sb| |sb mb eb], c as [sc|sc| |sc mc ec];
    repeat match goal with s : bool |- _ => destruct s end; simpl; try congruence.
  all: intros Hab Hbc.
  all: destruct (Z.compare_spec ea eb), (Z.compare_spec eb ec), (Z.compare_spec ea ec);
    try lia; try congruence; subst.
  all: rewrite ?Pos.compare_cont_spec in *; simpl in *.
  all: destruct (Pos.compare_spec ma mb), (Pos.compare_spec mb mc),
    (Pos.compare_spec ma mc); simpl in *; try lia; try congruence.
Qed.

Lemma leb_trans (a b c : float) :
  PrimFloat.leb a b = true -> PrimFloat.leb b c = true -> PrimFloat.leb a c = true.
Proof. rewrite !leb_spec. apply SFleb_trans. Qed.

Lemma fge_mono (t a b : float) :
  PrimFloat.leb a b = true -> fge a t = true -> fge b t = true.
Proof. unfold fge. intros Hab Hta. exact (leb_trans _ _ _ Hta Hab). Qed.

(** ** The learning-rate schedule *)

Example get_learning_rate_steps :
  _get_learning_rate adaptive_net 0 = 4e-4%float
  /\ _get_learning_rate adaptive_net 99.7 = 1.6e-4%float
  /\ _get_learning_rate adaptive_net 100 = 9.2e-5%float
  /\ _get_learning_rate adaptive_net nan = 4e-4%float.
Proof. repeat split; reflexivity. Qed.

(** C1: for every [last_accu], [_get_learning_rate] is the reference
    piecewise function: the configured rate when [lr_adaptive] is off, and
    otherwise the rate of the first threshold of the table 99.92, 99.84,
    99.76, 99.68, 99.60, 99.50, 99.00 that [last_accu] reaches, 4e-4 when it
    reaches none. *)
Theorem get_learning_rate_reference (self : ImgConvNets) (last_accu : float) :
  _get_learning_rate self last_accu
  = lr_reference (lr_adaptive self) (learning_rate self) last_accu.
Proof.
  unfold _get_learning_rate, lr_reference.
  destruct (lr_adaptive self); reflexivity.
Qed.

(** C7: with [lr_adaptive] on, the rate never grows with the accuracy, and
    it always lies between 9.2e-5 and 4e-4. *)
Theorem get_learning_rate_monotone_bounded (self : ImgConvNets) :
  lr_adaptive self = true ->
  (forall a b : float, PrimFloat.leb a b = true ->
     PrimFloat.leb (_get_learning_rate self b) (_get_learning_rate self a) = true)
  /\ (forall a : float,
        PrimFloat.leb 9.2e-5 (_get_learning_rate self a) = true
        /\ PrimFloat.leb (_get_learning_rate self a) 4e-4 = true).
Proof.
  intros Hadaptive. unfold _get_learning_rate. rewrite Hadaptive. simpl. split.
  - intros a b Hab.
    pose proof (fun t => fge_mono t a b Hab) as Hup.
    repeat match goal with
    | |- context [fge a ?t] =>
        let Ha := fresh "Ha" in
        destruct (fge a t) eqn:Ha; [ rewrite (Hup t Ha) | ]
    end;
    repeat match goal with
    | |- context [fge b ?t] => destruct (fge b t)
    end; vm_compute; reflexivity.
  - intros a.
    repeat match goal with
    | |- context [fge a ?t] => destruct (fge a t)
    end; split; vm_compute; reflexivity.
Qed.

Lemma get_learning_rate_monotone_bounded_witness :
  (forall a b : float, PrimFloat.leb a b = true ->
     PrimFloat.leb (_get_learning_rate adaptive_net b)
                   (_get_learning_rate adaptive_net a) = true)
  /\ (forall a : float,
        PrimFloat.leb 9.2e-5 (_get_learning_rate adaptive_net a) = true
        /\ PrimFloat.leb (_get_learning_rate adaptive_net a) 4e-4 = true).
Proof. apply (get_learning_rate_monotone_bounded adaptive_net). reflexivity. Defined.

(** ** Slices and batches *)

Example py_slice_clips :
  py_slice [1; 2; 3; 4] (Some (-2)) None = [3; 4]
  /\ py_slice [1; 2; 3; 4] (Some 1) (Some 10) = [2; 3; 4]
  /\ py_slice [1; 2; 3; 4] (Some 3) (Some 1) = []
  /\ py_slice [1; 2; 3; 4] None (Some (-1)) = [1; 2; 3].
Proof. repeat split; reflexivity. Qed.

Lemma py_slice_between {A} (l : list A) (lo hi : Z) :
  0 <= lo <= hi -> hi <= Z.of_nat (length l) ->
  py_slice l (Some lo) (Some hi) = take (Z.to_nat (hi - lo)) (drop (Z.to_nat lo) l).
Proof.
  intros Hlo Hhi. unfold py_slice, slice_bound. simpl.
  destruct (Z.ltb_spec lo 0), (Z.ltb_spec hi 0); try lia.
  rewrite !Z.min_l by lia. reflexivity.
Qed.

Lemma py_slice_from {A} (l : list A) (lo : Z) :
  0 <= lo <= Z.of_nat (length l) ->
  py_slice l (Some lo) None = drop (Z.to_nat lo) l.
Proof.
  intros Hlo. unfold py_slice, slice_bound. simpl.
  destruct (Z.ltb_spec lo 0); try lia.
  rewrite Z.min_l by lia. apply take_ge. rewrite length_drop. lia.
Qed.

Lemma py_slice_upto {A} (l : list A) (hi : Z) :
  0 <= hi <= Z.of_nat (length l) ->
  py_slice l None (Some hi) = take (Z.to_nat hi) l.
Proof.
  intros Hhi. unfold py_slice, slice_bound. simpl.
  destruct (Z.ltb_spec hi 0); try lia.
  rewrite Z.min_l by lia. rewrite Z.sub_0_r. reflexivity.
Qed.

(** C2: on a data set of [cnt >= 1] rows, with [1 <= batch_size <= cnt] and
    a start index that is not negative, [_get_next_batch] returns exactly
    [batch_size] rows: row [i] of the batch is row
    [(start_index mod cnt + i) mod cnt] of the data set, unchanged. *)
Theorem get_next_batch_cyclic {A} (self : ImgConvNets) (data_set : list A)
    (start_index : Z) :
  1 <= Z.of_nat (length data_set) ->
  1 <= batch_size self <= Z.of_nat (length data_set) ->
  0 <= start_index ->
  exists batch : list A,
    _get_next_batch self data_set start_index = Ok batch
    /\ Z.of_nat (length batch) = batch_size self
    /\ forall i : Z, 0 <= i < batch_size self ->
         is_Some (batch !! Z.to_nat i)
         /\ batch !! Z.to_nat i
            = data_set !! Z.to_nat
                ((start_index mod Z.of_nat (length data_set) + i)
                   mod Z.of_nat (length data_set)).
Proof.
  set (cnt := Z.of_nat (length data_set)). intros Hcnt Hbs Hstart.
  set (s := start_index mod cnt).
  assert (Hs : 0 <= s < cnt) by (apply Z.mod_pos_bound; lia).
  assert (Hstart_eq :
    (if cnt <=? start_index then py_mod start_index cnt else Ok start_index) = Ok s).
  { destruct (Z.leb_spec cnt start_index).
    - unfold py_mod. destruct (Z.eqb_spec cnt 0); [lia | reflexivity].
    - unfold s. rewrite Z.mod_small by lia. reflexivity. }
  unfold _get_next_batch. fold cnt. rewrite Hstart_eq. simpl.
  destruct (Z.ltb_spec (s + batch_size self) cnt) as [Hend | Hend].
  - eexists. split; [reflexivity |].
    rewrite py_slice_between by (fold cnt; lia).
    replace (s + batch_size self - s) with (batch_size self) by lia.
    assert (Hlen : length (take (Z.to_nat (batch_size self)) (drop (Z.to_nat s) data_set))
                   = Z.to_nat (batch_size self)).
    { rewrite length_take, length_drop. lia. }
    split; [lia |].
    intros i Hi.
    assert (Heq : take (Z.to_nat (batch_size self)) (drop (Z.to_nat s) data_set)
                    !! Z.to_nat i
                  = data_set !! Z.to_nat ((s + i) mod cnt)).
    { rewrite lookup_take_lt by lia. rewrite lookup_drop.
      rewrite Z.mod_small by lia. f_equal. lia. }
    split; [| exact Heq].
    apply lookup_lt_is_Some. lia.
  - unfold py_mod. destruct (Z.eqb_spec cnt 0); [lia |]. simpl.
    assert (Hwrap : (s + batch_size self) mod cnt = s + batch_size self - cnt).
    { symmetry. apply (Z.mod_unique _ _ 1); lia. }
    rewrite Hwrap. eexists. split; [reflexivity |].
    rewrite py_slice_from by (fold cnt; lia).
    rewrite py_slice_upto by (fold cnt; lia).
    assert (Hlen1 : length (drop (Z.to_nat s) data_set) = Z.to_nat (cnt - s)).
    { rewrite length_drop. lia. }
    assert (Hlen :
      length (drop (Z.to_nat s) data_set
              ++ take (Z.to_nat (s + batch_size self - cnt)) data_set)
      = Z.to_nat (batch_size self)).
    { rewrite length_app, Hlen1, length_take. lia. }
    split; [lia |].
    intros i Hi. split; [apply lookup_lt_is_Some; lia |].
    destruct (Z.lt_ge_cases (s + i) cnt) as [Hin | Hout].
    + rewrite lookup_app_l by lia. rewrite lookup_drop.
      rewrite Z.mod_small by lia. f_equal. lia.
    + rewrite lookup_app_r by lia. rewrite lookup_take_lt by lia.
      replace ((s + i) mod cnt) with (s + i - cnt)
        by (apply (Z.mod_unique _ _ 1); lia).
      f_equal. lia.
Qed.

Example get_next_batch_wraps :
  _get_next_batch adaptive_net [10; 20; 30]%nat 5 = Ok [30; 10]%nat.
Proof. reflexivity. Qed.

Lemma get_next_batch_cyclic_witness :
  exists batch : list nat,
    _get_next_batch adaptive_net [10; 20; 30]%nat 5 = Ok batch
    /\ Z.of_nat (length batch) = 2
    /\ forall i : Z, 0 <= i < 2 ->
         is_Some (batch !! Z.to_nat i)
         /\ batch !! Z.to_nat i = [10; 20; 30]%nat !! Z.to_nat ((5 mod 3 + i) mod 3).
Proof.
  apply (get_next_batch_cyclic adaptive_net [10; 20; 30]%nat 5); simpl; lia.
Defined.

(** ** The three models *)

Lemma elem_of_model_names (m : string) :
  m ∈ model_names <-> m = "BASIC"%string \/ m = "DCNN"%string \/ m = "STCNN"%string.
Proof. unfold model_names. rewrite !elem_of_cons, elem_of_nil. tauto. Qed.

Example init_cases :
  __init__ "DCNN" "m" 2 2 2 0.5 1e-4 true 2 3 = Ok (small_net "DCNN" 3)
  /\ __init__ "VGG" "m" 2 2 2 0.5 1e-4 true 2 3 = Raise AssertionError
  /\ __init__ "basic" "m" 2 2 2 0.5 1e-4 true 2 3 = Raise AssertionError.
Proof. repeat split; reflexivity. Qed.

(** ** The architectures *)

(** C8: the STCNN builder puts a spatial-transformer module, the bias of
    its transform started at the identity transform, on the reshaped images
    and feeds its output to the first convolution; the DCNN builder has no
    transformer and runs 3x3, 1x3, 3x1, 3x3 kernels in each of its two
    convolutional blocks; the basic builder has no transformer and only 3x3
    kernels. *)
Theorem builders_match_architectures (self : ImgConvNets) :
  let stcnn := _build_inference_graph_stcnn self images_placeholder keep_prob_placeholder in
  let dcnn := _build_inference_graph_dcnn self images_placeholder keep_prob_placeholder in
  let basic := _build_inference_graph_basic self images_placeholder keep_prob_placeholder in
  let k33 := Some (3, 3) in
  let k13 := Some (1, 3) in
  let k31 := Some (3, 1) in
  (exists theta : tensor,
      find_transformer stcnn
      = Some (tf_reshape images_placeholder [-1; img_height self; img_width self; 1],
              theta, (img_height self, img_width self))
      /\ transform_bias_init theta = Some (np_array identity_transform)
      /\ first_conv_input stcnn
         = Some (transformer
                   (tf_reshape images_placeholder [-1; img_height self; img_width self; 1])
                   theta (img_height self, img_width self))
      /\ take 3 (data_path stcnn) = [LReshape; LTransformer; LConv k33])
  /\ conv_blocks (data_path stcnn) [] = [[k33; k33]; [k33; k33]]
  /\ find_transformer dcnn = None
  /\ conv_blocks (data_path dcnn) [] = [[k33; k13; k31; k33]; [k33; k13; k31; k33]]
  /\ find_transformer basic = None
  /\ conv_blocks (data_path basic) [] = [[k33; k33]; [k33; k33]]
  /\ Forall (fun k => k = k33) (conv_kernels basic).
Proof.
  cbv zeta. split.
  - eexists. repeat split; reflexivity.
  - repeat (split; [reflexivity |]).
    unfold conv_kernels. simpl.
    repeat (apply Forall_cons; split; [reflexivity |]). apply Forall_nil_2.
Qed.

(** ** The training loop *)

Lemma length_py_range (lo hi : Z) : length (py_range lo hi) = Z.to_nat (hi - lo).
Proof. unfold py_range. rewrite length_fmap, length_seq. reflexivity. Qed.

Lemma get_next_batch_raises {A} (self : ImgConvNets) (data_set : list A)
    (start_index : Z) (x : exn) :
  _get_next_batch self data_set start_index = Raise x -> x = ZeroDivisionError.
Proof.
  unfold _get_next_batch, py_mod.
  repeat (case_match; simpl); congruence.
Qed.

Lemma get_next_batch_ok {A} (self : ImgConvNets) (data_set : list A) (start_index : Z) :
  data_set <> [] -> exists batch, _get_next_batch self data_set start_index = Ok batch.
Proof.
  intros Hne.
  assert (Hcnt : Z.of_nat (length data_set) <> 0) by (destruct data_set; simpl; [congruence | lia]).
  unfold _get_next_batch, py_mod. apply Z.eqb_neq in Hcnt. rewrite Hcnt.
  repeat (case_match; simpl); eauto.
Qed.

Section TrainLoop.
Context `{E : Engine}.
Variable self : ImgConvNets.
Variables (ncols : nat) (train_set : list (list float)) (cols : Z).

Lemma step_loop_trace (epoch : Z) (lr_feed : float) (steps : list Z) :
  forall (sess : Sess) (loss_list accu_list : list float),
    let run := step_loop self ncols train_set cols epoch lr_feed steps
                 sess loss_list accu_list in
    Forall (fun ev => steps_of epoch ev = true) run.1
    /\ match run.2 with
       | Ok (_, _, accu_list') =>
           length run.1 = length steps
           /\ length accu_list' = (length accu_list + length steps)%nat
       | Raise x => x = ZeroDivisionError /\ (length run.1 < length steps)%nat
       end.
Proof.
  induction steps as [| step rest IH]; intros sess loss_list accu_list; simpl.
  - split; [constructor | split; [reflexivity | lia]].
  - destruct (_get_next_batch self train_set (step * batch_size self))
      as [batch_data | x] eqn:Hbatch; simpl.
    + destruct (run_train _ _ _) as [[sess' loss_val] accu_val].
      specialize (IH sess' (loss_list ++ [loss_val]) (accu_list ++ [accu_val])).
      simpl in IH.
      destruct (step_loop _ _ _ _ _ _ rest _ _ _) as [evs r]. simpl in *.
      destruct IH as [Hall Hr]. split.
      * constructor; [| exact Hall]. simpl. apply bool_decide_eq_true. reflexivity.
      * destruct r as [[[sess'' loss_list'] accu_list'] | x].
        -- destruct Hr as [Hlen Haccu]. rewrite length_app in Haccu. simpl in Haccu.
           split; lia.
        -- destruct Hr as [-> Hlen]. split; [reflexivity | lia].
    + split; [constructor |].
      split; [exact (get_next_batch_raises _ _ _ _ Hbatch) | lia].
Qed.

Lemma epoch_loop_trace (epoch_steps : Z) (save_file : string) (epochs : list Z) :
  forall (sess : Sess) (last_accu : float),
    let run := epoch_loop self ncols train_set cols epoch_steps save_file epochs
                 sess last_accu in
    epochs_trace self save_file (Z.to_nat epoch_steps) last_accu epochs run.1 run.2.
Proof.
  induction epochs as [| epoch rest IH]; intros sess last_accu; simpl.
  - constructor.
  - pose proof (step_loop_trace epoch (_get_learning_rate self last_accu)
                  (py_range 0 epoch_steps) sess [] []) as Hsteps.
    simpl in Hsteps. rewrite length_py_range, Z.sub_0_r in Hsteps.
    destruct (step_loop _ _ _ _ _ _ _ _ _ _) as [evs r]. simpl in Hsteps.
    destruct Hsteps as [Hall Hr].
    destruct r as [[[sess' loss_list] accu_list] | x]; simpl.
    + destruct Hr as [Hlen Haccu].
      destruct accu_list as [| accu_val accu_list]; simpl.
      * simpl in Haccu. apply trace_raised; [lia | exact Hall].
      * set (mean_accu := percent_mean (accu_val :: accu_list)).
        destruct (fge mean_accu 99.99) eqn:Hbreak; simpl.
        -- apply trace_break; assumption.
        -- specialize (IH sess' mean_accu). simpl in IH.
           destruct (epoch_loop _ _ _ _ _ _ rest _ _) as [evs' r']. simpl in *.
           apply trace_continue; assumption.
    + destruct Hr as [-> Hlen]. apply trace_raised; [lia | exact Hall].
Qed.

Lemma step_loop_ok (epoch : Z) (lr_feed : float) (steps : list Z) :
  train_set <> [] ->
  forall (sess : Sess) (loss_list accu_list : list float),
    exists res, (step_loop self ncols train_set cols epoch lr_feed steps
                   sess loss_list accu_list).2 = Ok res.
Proof.
  intros Hne. induction steps as [| step rest IH]; intros sess loss_list accu_list; simpl.
  - eauto.
  - destruct (get_next_batch_ok self train_set (step * batch_size self) Hne)
      as [batch_data ->].
    destruct (run_train _ _ _) as [[sess' loss_val] accu_val].
    specialize (IH sess' (loss_list ++ [loss_val]) (accu_list ++ [accu_val])).
    destruct (step_loop _ _ _ _ _ _ rest _ _ _) as [evs r]. exact IH.
Qed.

(** On a training set that is not empty, with at least one step in an
    epoch, the loop raises nothing. *)
Lemma epoch_loop_ok (epoch_steps : Z) (save_file : string) (epochs : list Z) :
  train_set <> [] -> 0 < epoch_steps ->
  forall (sess : Sess) (last_accu : float),
    (epoch_loop self ncols train_set cols epoch_steps save_file epochs
       sess last_accu).2 = Ok ().
Proof.
  intros Hne Hsteps.
  induction epochs as [| epoch rest IH]; intros sess last_accu; simpl; [reflexivity |].
  pose proof (step_loop_trace epoch (_get_learning_rate self last_accu)
                (py_range 0 epoch_steps) sess [] []) as Htrace.
  destruct (step_loop_ok epoch (_get_learning_rate self last_accu)
              (py_range 0 epoch_steps) Hne sess [] []) as [res Hres].
  simpl in Htrace. rewrite length_py_range, Z.sub_0_r in Htrace.
  destruct (step_loop _ _ _ _ _ _ _ _ _ _) as [evs r]. simpl in Htrace, Hres.
  subst r. destruct res as [[sess' loss_list] accu_list].
  destruct Htrace as [_ [_ Haccu]].
  destruct accu_list as [| accu_val accu_list]; [simpl in Haccu; lia |].
  simpl. destruct (fge _ 99.99); [reflexivity |].
  specialize (IH sess' (percent_mean (accu_val :: accu_list))).
  destruct (epoch_loop _ _ _ _ _ _ rest _ _) as [evs' r']. exact IH.
Qed.

End TrainLoop.

(** ** The permutation of the training set *)

Lemma omap_lookup_cons {A} (a : A) (l : list A) (s : list nat) :
  omap (fun i => (a :: l) !! i) (S <$> s) = omap (fun i => l !! i) s.
Proof.
  induction s as [| i s IH]; [reflexivity |].
  rewrite fmap_cons. simpl. unfold omap in IH. rewrite IH. reflexivity.
Qed.

Lemma omap_lookup_seq {A} (l : list A) :
  omap (fun i => l !! i) (seq 0 (length l)) = l.
Proof.
  induction l as [| a l IH]; [reflexivity |].
  simpl length. rewrite <- cons_seq, <- fmap_S_seq.
  simpl. f_equal.
  rewrite <- IH at 2. apply omap_lookup_cons.
Qed.

Lemma np_random_permutation_perm {A} (sigma : list nat) (rows : list A) :
  sigma ≡ₚ seq 0 (length rows) -> np_random_permutation sigma rows ≡ₚ rows.
Proof.
  intros Hsigma. unfold np_random_permutation.
  rewrite Hsigma. rewrite omap_lookup_seq. reflexivity.
Qed.


(** ** Counting steps *)





Lemma ceil_div_bounds (a b : Z) :
  0 < b -> (- (- a / b) - 1) * b < a <= - (- a / b) * b.
Proof.
  intros Hb. pose proof (Z.div_mod (- a) b ltac:(lia)) as Hdm.
  pose proof (Z.mod_pos_bound (- a) b Hb) as Hmod. nia.
Qed.


Lemma np_append_axis1_raises (a b : ndarray) (x : exn) :
  np_append_axis1 a b = Raise x -> x = ValueError.
Proof.
  unfold np_append_axis1. repeat case_match; congruence.
Qed.

Section TrainRun.
Context `{E : Engine}.


End TrainRun.

(** ** Checkpoints *)

Lemma elem_of_py_range (lo hi e : Z) : e ∈ py_range lo hi <-> lo <= e < hi.
Proof.
  unfold py_range. rewrite list_elem_of_fmap. split.
  - intros (i & -> & Hi). apply elem_of_seq in Hi. lia.
  - intros He. exists (Z.to_nat (e - lo)). split; [lia |].
    apply elem_of_seq. lia.
Qed.

Lemma NoDup_py_range (lo hi : Z) : NoDup (py_range lo hi).
Proof.
  unfold py_range. apply NoDup_fmap_2; [| apply NoDup_seq].
  intros i j Hij. lia.
Qed.

Lemma saved_at_app (e : Z) (a b : list event) :
  saved_at e (a ++ b) = saved_at e a || saved_at e b.
Proof. unfold saved_at. apply existsb_app. Qed.

Lemma printed_app (a b : list event) : printed (a ++ b) = printed a ++ printed b.
Proof. unfold printed. apply omap_app. Qed.

Lemma saves_app (a b : list event) : saves (a ++ b) = saves a ++ saves b.
Proof. unfold saves. apply filter_app. Qed.

Lemma steps_only (e : Z) (evs : list event) :
  Forall (fun ev => steps_of e ev = true) evs ->
  printed evs = [] /\ saves evs = [] /\ forall e', saved_at e' evs = false.
Proof.
  induction 1 as [| ev evs Hev _ (IHp & IHs & IHa)]; [repeat split |].
  destruct ev; simpl in Hev; try discriminate.
  repeat split; simpl; auto.
Qed.

Lemma save_events_cases (self : ImgConvNets) (f : string) (e : Z) (m l : float) :
  (save_rule self e m l = true
   /\ exists gs, save_events self f e m l = [Saved e f gs]
                 /\ (gs = None -> e = num_epoches self - 1))
  \/ (save_rule self e m l = false /\ save_events self f e m l = []).
Proof.
  unfold save_events, save_rule.
  destruct (fge m 99.68 && fgt m l); simpl.
  - left. split; [reflexivity |]. eexists. split; [reflexivity | discriminate].
  - destruct (bool_decide (e = num_epoches self - 1)) eqn:Hlast.
    + left. split; [reflexivity |]. eexists. split; [reflexivity |].
      intros _. apply bool_decide_eq_true in Hlast. exact Hlast.
    + right. split; reflexivity.
Qed.

Lemma printed_save_events (self : ImgConvNets) (f : string) (e : Z) (m l : float) :
  printed (save_events self f e m l) = [].
Proof.
  destruct (save_events_cases self f e m l) as [(_ & gs & -> & _) | (_ & ->)];
    reflexivity.
Qed.

Lemma saved_at_save_events (self : ImgConvNets) (f : string) (e e' : Z) (m l : float) :
  saved_at e' (save_events self f e m l) = bool_decide (e = e') && save_rule self e m l.
Proof.
  destruct (save_events_cases self f e m l) as [(-> & gs & -> & _) | (-> & ->)]; simpl.
  - rewrite orb_false_r, andb_true_r. reflexivity.
  - rewrite andb_false_r. reflexivity.
Qed.

Lemma saves_save_events (self : ImgConvNets) (f : string) (e : Z) (m l : float) :
  saves (save_events self f e m l) = save_events self f e m l.
Proof.
  destruct (save_events_cases self f e m l) as [(_ & gs & -> & _) | (_ & ->)];
    reflexivity.
Qed.

Lemma elem_of_save_events (self : ImgConvNets) (f f' : string) (e e' : Z)
    (gs : option Z) (m l : float) :
  Saved e' f' gs ∈ save_events self f e m l ->
  e' = e /\ f' = f /\ (gs = None -> e = num_epoches self - 1).
Proof.
  destruct (save_events_cases self f e m l) as [(_ & gs' & -> & Hgs) | (_ & ->)].
  - intros Hin. apply list_elem_of_singleton in Hin. injection Hin as -> -> ->. auto.
  - intros Hin. apply elem_of_nil in Hin. contradiction.
Qed.

Lemma save_events_below_threshold (self : ImgConvNets) (f : string) (e : Z) (m l : float) :
  fge m 99.68 = false ->
  save_events self f e m l
  = if bool_decide (e = num_epoches self - 1) then [Saved e f None] else [].
Proof. unfold save_events. intros ->. reflexivity. Qed.

(** What one whole epoch leaves in the run. *)
Lemma epoch_part (self : ImgConvNets) (f : string) (e : Z) (lr m l : float)
    (step_evs : list event) :
  Forall (fun ev => steps_of e ev = true) step_evs ->
  let part := step_evs ++ save_events self f e m l ++ [Printed e lr m] in
  printed part = [(e, m)]
  /\ saves part = save_events self f e m l
  /\ forall e', saved_at e' part = bool_decide (e = e') && save_rule self e m l.
Proof.
  intros Hsteps part. subst part.
  destruct (steps_only e step_evs Hsteps) as (Hp & Hs & Ha).
  rewrite !printed_app, !saves_app, Hp, Hs, printed_save_events, saves_save_events.
  split; [reflexivity |]. split; [simpl; apply app_nil_r |].
  intros e'. rewrite !saved_at_app, Ha, saved_at_save_events. simpl.
  rewrite orb_false_r. reflexivity.
Qed.

Section TraceFacts.
Variables (self : ImgConvNets) (f : string) (steps : nat).

Lemma trace_saved_outside (last : float) (epochs : list Z) (evs : list event)
    (r : result unit) :
  epochs_trace self f steps last epochs evs r ->
  forall e', e' ∉ epochs -> saved_at e' evs = false.
Proof.
  induction 1 as [last | last e rest step_evs mean Hlen Hall Hbreak
                 | last e rest step_evs mean evs r Hlen Hall Hgo Hrest IH
                 | last e rest step_evs Hlen Hall]; intros e' Hout.
  - reflexivity.
  - destruct (epoch_part self f e (_get_learning_rate self last) mean last _ Hall)
      as (_ & _ & ->).
    rewrite bool_decide_eq_false_2; [reflexivity |]. intros ->. apply Hout. left.
  - rewrite saved_at_app.
    destruct (epoch_part self f e (_get_learning_rate self last) mean last _ Hall)
      as (_ & _ & ->).
    rewrite bool_decide_eq_false_2 by (intros ->; apply Hout; left). simpl.
    apply IH. intros Hin. apply Hout. right. exact Hin.
  - apply (steps_only e step_evs Hall).
Qed.

Lemma trace_printed_inside (last : float) (epochs : list Z) (evs : list event)
    (r : result unit) :
  epochs_trace self f steps last epochs evs r ->
  forall e' m, (e', m) ∈ printed evs -> e' ∈ epochs.
Proof.
  induction 1 as [last | last e rest step_evs mean Hlen Hall Hbreak
                 | last e rest step_evs mean evs r Hlen Hall Hgo Hrest IH
                 | last e rest step_evs Hlen Hall]; intros e' m Hin.
  - apply elem_of_nil in Hin. contradiction.
  - destruct (epoch_part self f e (_get_learning_rate self last) mean last _ Hall)
      as (Hp & _ & _). rewrite Hp in Hin.
    apply list_elem_of_singleton in Hin. injection Hin as -> _. left.
  - rewrite printed_app in Hin.
    destruct (epoch_part self f e (_get_learning_rate self last) mean last _ Hall)
      as (Hp & _ & _). rewrite Hp in Hin.
    apply elem_of_cons in Hin as [Hin | Hin].
    + injection Hin as -> _. left.
    + right. exact (IH _ _ Hin).
  - rewrite (proj1 (steps_only e step_evs Hall)) in Hin.
    apply elem_of_nil in Hin. contradiction.
Qed.

Lemma trace_unconditional_save (last : float) (epochs : list Z) (evs : list event)
    (r : result unit) :
  epochs_trace self f steps last epochs evs r ->
  forall e' f', Saved e' f' None ∈ saves evs -> e' = num_epoches self - 1.
Proof.
  induction 1 as [last | last e rest step_evs mean Hlen Hall Hbreak
                 | last e rest step_evs mean evs r Hlen Hall Hgo Hrest IH
                 | last e rest step_evs Hlen Hall]; intros e' f' Hin.
  - apply elem_of_nil in Hin. contradiction.
  - destruct (epoch_part self f e (_get_learning_rate self last) mean last _ Hall)
      as (_ & Hs & _). rewrite Hs in Hin.
    apply elem_of_save_events in Hin as (-> & _ & Hnone). auto.
  - rewrite saves_app in Hin.
    destruct (epoch_part self f e (_get_learning_rate self last) mean last _ Hall)
      as (_ & Hs & _). rewrite Hs in Hin.
    apply elem_of_app in Hin as [Hin | Hin].
    + apply elem_of_save_events in Hin as (-> & _ & Hnone). auto.
    + exact (IH _ _ Hin).
  - rewrite (proj1 (proj2 (steps_only e step_evs Hall))) in Hin.
    apply elem_of_nil in Hin. contradiction.
Qed.

(** At the end of every completed epoch a checkpoint is written exactly
    when [save_rule] holds of its mean accuracy and the one before. *)
Lemma trace_saved_at (last : float) (epochs : list Z) (evs : list event)
    (r : result unit) :
  epochs_trace self f steps last epochs evs r ->
  NoDup epochs ->
  forall i e m, printed evs !! i = Some (e, m) ->
    saved_at e evs = save_rule self e m (last_accu_at last i (printed evs)).
Proof.
  induction 1 as [last | last e rest step_evs mean Hlen Hall Hbreak
                 | last e rest step_evs mean evs r Hlen Hall Hgo Hrest IH
                 | last e rest step_evs Hlen Hall]; intros Hnd i e0 m0 Hi.
  - discriminate.
  - destruct (epoch_part self f e (_get_learning_rate self last) mean last _ Hall)
      as (Hp & _ & Ha). rewrite Hp in Hi |- *. rewrite Ha.
    destruct i as [| i]; [| discriminate]. injection Hi as <- <-.
    rewrite bool_decide_eq_true_2 by reflexivity. reflexivity.
  - apply NoDup_cons in Hnd as [Hfresh Hnd].
    rewrite printed_app in Hi |- *. rewrite saved_at_app.
    destruct (epoch_part self f e (_get_learning_rate self last) mean last _ Hall)
      as (Hp & _ & Ha). rewrite Hp in Hi |- *. rewrite Ha.
    destruct i as [| i].
    + injection Hi as <- <-.
      rewrite bool_decide_eq_true_2 by reflexivity.
      rewrite (trace_saved_outside _ _ _ _ Hrest e Hfresh).
      simpl. rewrite orb_false_r. reflexivity.
    + simpl in Hi.
      assert (He0 : e0 ∈ rest).
      { apply (trace_printed_inside _ _ _ _ Hrest e0 m0).
        apply list_elem_of_lookup. exists i. exact Hi. }
      rewrite bool_decide_eq_false_2 by (intros ->; contradiction). simpl.
      rewrite (IH Hnd i e0 m0 Hi). f_equal.
      destruct i as [| i]; [reflexivity |]. simpl.
      destruct (printed evs !! i) eqn:Hprev; [reflexivity |].
      apply lookup_ge_None in Hprev. apply lookup_lt_Some in Hi. lia.
  - rewrite (proj1 (steps_only e step_evs Hall)) in Hi. discriminate.
Qed.

(** A loop that ends without an exception and in which no epoch reaches
    99.68 writes the unconditional checkpoint of epoch [num_epoches - 1], if
    that epoch is in its range, and nothing else. *)
Lemma trace_saves_below_threshold (last : float) (epochs : list Z) (evs : list event) :
  epochs_trace self f steps last epochs evs (Ok ()) ->
  (forall e m, (e, m) ∈ printed evs -> fge m 99.68 = false) ->
  saves evs
  = omap (fun e => if bool_decide (e = num_epoches self - 1)
                   then Some (Saved e f None) else None) epochs.
Proof.
  intros Htrace. remember (Ok ()) as r eqn:Hr.
  induction Htrace as [last | last e rest step_evs mean Hlen Hall Hbreak
                 | last e rest step_evs mean evs r Hlen Hall Hgo Hrest IH
                 | last e rest step_evs Hlen Hall]; intros Hlow.
  - reflexivity.
  - exfalso.
    destruct (epoch_part self f e (_get_learning_rate self last) mean last _ Hall)
      as (Hp & _ & _).
    assert (Hm : fge mean 99.68 = false).
    { apply (Hlow e). rewrite Hp. left. }
    assert (Hm' : fge mean 99.68 = true).
    { unfold fge in *. apply (leb_trans _ 99.99%float); [reflexivity | exact Hbreak]. }
    congruence.
  - rewrite printed_app in Hlow. rewrite saves_app.
    destruct (epoch_part self f e (_get_learning_rate self last) mean last _ Hall)
      as (Hp & Hs & _). rewrite Hp in Hlow. rewrite Hs.
    rewrite save_events_below_threshold by (apply (Hlow e); left).
    rewrite IH; [| exact Hr | intros e' m' Hin; apply (Hlow e'); right; exact Hin].
    simpl. destruct (bool_decide (e = num_epoches self - 1)); reflexivity.
  - discriminate.
Qed.

End TraceFacts.

Lemma omap_single {A B} (x : A) (g : A -> B) `{EqDecision A} (l : list A) :
  NoDup l -> x ∈ l ->
  omap (fun e => if bool_decide (e = x) then Some (g e) else None) l = [g x].
Proof.
  induction 1 as [| a l Hfresh Hnd IH]; intros Hin.
  - apply elem_of_nil in Hin. contradiction.
  - simpl. destruct (bool_decide (a = x)) eqn:Hax.
    + apply bool_decide_eq_true in Hax as ->. f_equal.
      clear IH Hin Hnd. induction l as [| b l IHl]; [reflexivity |].
      apply not_elem_of_cons in Hfresh as [Hne Hfresh]. simpl.
      rewrite bool_decide_eq_false_2 by congruence. exact (IHl Hfresh).
    + apply bool_decide_eq_false in Hax.
      apply elem_of_cons in Hin as [-> | Hin]; [contradiction |].
      exact (IH Hin).
Qed.

Section TrainFacts.
Context `{E : Engine}.

(** The three ways a call of [train] can go: the inputs are refused, the
    batch size is zero, or the epoch loop is entered. *)
Lemma train_shape (self : ImgConvNets) (img_features true_labels : ndarray)
    (train_dir result_file : string) (sigma : list nat) :
  let run := train self img_features true_labels train_dir result_file sigma in
  let setup := [GraphBuilt (train_graph self); SessionOpened] in
  run = ([], Raise ValueError)
  \/ run = (setup, Raise ZeroDivisionError)
  \/ exists (epoch_steps : nat) (evs : list event),
       run.1 = setup ++ evs
       /\ epochs_trace self (os_path_join train_dir result_file) epoch_steps 0%float
            (py_range 1 (num_epoches self + 1)) evs run.2.
Proof.
  unfold train.
  destruct (unpack2 (shape img_features)) as [[rows cols] | x] eqn:Hshape.
  2:{ left. destruct img_features; simpl in Hshape; congruence. }
  destruct (negb (cols =? img_height self * img_width self)); [left; reflexivity |].
  destruct (np_append_axis1 img_features true_labels) as [[nc appended] | x] eqn:Happ.
  2:{ left. apply np_append_axis1_raises in Happ as ->. reflexivity. }
  unfold py_ceil_div. destruct (batch_size self =? 0); [right; left; reflexivity |].
  right. right.
  set (epoch_steps := - (- Z.of_nat (length (np_random_permutation sigma appended))
                         / batch_size self)).
  pose proof (epoch_loop_trace self nc (np_random_permutation sigma appended) cols
                epoch_steps (os_path_join train_dir result_file)
                (py_range 1 (num_epoches self + 1))
                (global_variables_initializer (train_graph self)) 0%float) as Htrace.
  cbv zeta in Htrace.
  destruct (epoch_loop _ _ _ _ _ _ _ _ _) as [evs r].
  exists (Z.to_nat epoch_steps), evs. split; [reflexivity | exact Htrace].
Qed.

(** C5, as the code has it: at the end of every completed epoch [e] a
    checkpoint is written if and only if (a) the mean accuracy of the epoch
    is at least 99.68 and greater than [last_accu] (the mean accuracy of the
    epoch before, 0.0 in the first epoch) or (b) [e = num_epoches - 1]; the
    unconditional save is never that of epoch [num_epoches]; and when
    [num_epoches >= 2], a run that ends without an exception and never
    reaches 99.68 saves exactly once, at epoch [num_epoches - 1]. *)
Theorem checkpoint_rule (self : ImgConvNets) (img_features true_labels : ndarray)
    (train_dir result_file : string) (sigma : list nat) :
  let run := train self img_features true_labels train_dir result_file sigma in
  let history := printed run.1 in
  (forall (i : nat) (e : Z) (mean_accu : float),
      history !! i = Some (e, mean_accu) ->
      saved_at e run.1 = true
      <-> (fge mean_accu 99.68 = true
           /\ fgt mean_accu (last_accu_at 0%float i history) = true)
          \/ e = num_epoches self - 1)
  /\ (forall (e : Z) (f : string), Saved e f None ∈ saves run.1 -> e <> num_epoches self)
  /\ (2 <= num_epoches self ->
      run.2 = Ok () ->
      (forall e m, (e, m) ∈ history -> fge m 99.68 = false) ->
      saves run.1
      = [Saved (num_epoches self - 1) (os_path_join train_dir result_file) None]).
Proof.
  intros run history. subst history.
  destruct (train_shape self img_features true_labels train_dir result_file sigma)
    as [Hrun | [Hrun | (steps & evs & Hevs & Htrace)]]; fold run in Hrun || idtac.
  - rewrite Hrun. simpl. repeat split.
    + discriminate.
    + discriminate.
    + intros e f Hin. apply elem_of_nil in Hin. contradiction.
    + discriminate.
  - rewrite Hrun. simpl. repeat split.
    + discriminate.
    + discriminate.
    + intros e f Hin. apply elem_of_nil in Hin. contradiction.
    + discriminate.
  - fold run in Hevs, Htrace. rewrite Hevs.
    change (printed ([GraphBuilt (train_graph self); SessionOpened] ++ evs))
      with (printed evs).
    change (saves ([GraphBuilt (train_graph self); SessionOpened] ++ evs))
      with (saves evs).
    split; [| split].
    + intros i e mean_accu Hi.
      change (saved_at e ([GraphBuilt (train_graph self); SessionOpened] ++ evs))
        with (saved_at e evs).
      rewrite (trace_saved_at _ _ _ _ _ _ _ Htrace (NoDup_py_range _ _) i e mean_accu Hi).
      unfold save_rule. rewrite orb_true_iff, andb_true_iff, bool_decide_eq_true.
      reflexivity.
    + intros e f Hin.
      rewrite (trace_unconditional_save _ _ _ _ _ _ _ Htrace e f Hin). lia.
    + intros Hepochs Hok Hlow. rewrite Hok in Htrace.
      rewrite (trace_saves_below_threshold _ _ _ _ _ _ Htrace Hlow).
      apply (omap_single (num_epoches self - 1)
               (fun e => Saved e (os_path_join train_dir result_file) None)).
      * apply NoDup_py_range.
      * apply elem_of_py_range. lia.
Qed.

End TrainFacts.

(** ** Refused inputs *)

Lemma epochs_trace_result (self : ImgConvNets) (f : string) (steps : nat)
    (last : float) (epochs : list Z) (evs : list event) (r : result unit) :
  epochs_trace self f steps last epochs evs r ->
  r = Ok () \/ r = Raise ZeroDivisionError.
Proof. induction 1; auto. Qed.

Section TrainInputs.
Context `{E : Engine}.

(** C9, as the code has it: whenever [train] raises [ValueError] it has
    built no graph, opened no session and written no file; and on a matrix
    of features with a matrix of labels of as many rows, it raises
    [ValueError] if and only if the number of columns of the features is not
    [img_height * img_width]. *)
Theorem train_value_error (self : ImgConvNets) (img_features true_labels : ndarray)
    (train_dir result_file : string) (sigma : list nat) :
  let run := train self img_features true_labels train_dir result_file sigma in
  (run.2 = Raise ValueError -> run.1 = [])
  /\ (forall (c cl : nat) (rows lrows : list (list float)),
        img_features = Mat c rows ->
        true_labels = Mat cl lrows ->
        length rows = length lrows ->
        run.2 = Raise ValueError
        <-> Z.of_nat c <> img_height self * img_width self).
Proof.
  intros run.
  assert (Hquiet : run.2 = Raise ValueError -> run.1 = []).
  { destruct (train_shape self img_features true_labels train_dir result_file sigma)
      as [Hrun | [Hrun | (steps & evs & Hevs & Htrace)]]; fold run in Hrun || idtac.
    - rewrite Hrun. reflexivity.
    - rewrite Hrun. discriminate.
    - fold run in Htrace. intros Hraise. rewrite Hraise in Htrace.
      apply epochs_trace_result in Htrace as [? | ?]; discriminate. }
  split; [exact Hquiet |].
  intros c cl rows lrows -> -> Hlen. split.
  - intros Hraise. specialize (Hquiet Hraise). revert Hquiet.
    subst run. unfold train. cbn [shape unpack2].
    destruct (Z.eqb_spec (Z.of_nat c) (img_height self * img_width self)) as [Heq | Hne];
      [| intros _; exact Hne].
    cbn [negb]. unfold np_append_axis1.
    destruct (decide (length rows = length lrows)); [| contradiction].
    destruct (py_ceil_div _ _); [| discriminate].
    destruct (epoch_loop _ _ _ _ _ _ _ _ _). discriminate.
  - intros Hne. subst run. unfold train. cbn [shape unpack2].
    destruct (Z.eqb_spec (Z.of_nat c) (img_height self * img_width self)); [contradiction |].
    reflexivity.
Qed.

End TrainInputs.

(** ** Collections and prediction *)

Lemma string_app_inv_head (s a b : string) : s +:+ a = s +:+ b -> a = b.
Proof.
  induction s as [| c s IH]; simpl; [auto |].
  intros [= H]. exact (IH H).
Qed.

Example os_path_join_cases :
  os_path_join "d" "f" = "d/f"%string
  /\ os_path_join "d/" "f" = "d/f"%string
  /\ os_path_join "" "f" = "f"%string
  /\ os_path_join "d" "/f" = "/f"%string.
Proof. repeat split; reflexivity. Qed.

Lemma string_app_assoc (a b c : string) : a +:+ (b +:+ c) = (a +:+ b) +:+ c.
Proof.
  induction a as [| x a IH]; [reflexivity |].
  change (String x (a +:+ (b +:+ c)) = String x ((a +:+ b) +:+ c)).
  rewrite IH. reflexivity.
Qed.

(** [predict] looks for the graph in the file that lies next to the values,
    under the same name with [.meta] added. *)
Lemma os_path_join_meta (dir name : string) :
  os_path_join dir (name +:+ ".meta") = os_path_join dir name +:+ ".meta".
Proof.
  unfold os_path_join.
  assert (Hsep : starts_with_sep (name +:+ ".meta") = starts_with_sep name).
  { destruct name as [| c name]; [reflexivity |]. reflexivity. }
  rewrite Hsep. destruct (starts_with_sep name); [reflexivity |].
  destruct (bool_decide (dir = ""%string) || ends_with "/" dir).
  - apply string_app_assoc.
  - rewrite <- !string_app_assoc. reflexivity.
Qed.

Lemma ends_with_unfold (suffix s : string) :
  ends_with suffix s
  = bool_decide (s = suffix)
    || match s with
       | EmptyString => false
       | String _ rest => ends_with suffix rest
       end.
Proof. destruct s; reflexivity. Qed.

Lemma ends_with_app (suffix s : string) : ends_with suffix (s +:+ suffix) = true.
Proof.
  induction s as [| c s IH]; rewrite ends_with_unfold.
  - simpl. rewrite bool_decide_eq_true_2 by reflexivity. reflexivity.
  - simpl. rewrite IH. apply orb_true_r.
Qed.

(** No key of the framework ends like one of the three keys of [train]. *)
Lemma graph_keys_apart (suffix : string) :
  suffix ∈ ["images"; "keep_prob"; "logits"]%string ->
  forall k, k ∈ graph_keys -> ends_with suffix k = false.
Proof.
  intros Hsuffix.
  assert (Hall : Forall (fun k => ends_with suffix k = false) graph_keys).
  { rewrite !elem_of_cons, elem_of_nil in Hsuffix.
    destruct Hsuffix as [-> | [-> | [-> | []]]];
      unfold graph_keys; repeat (apply Forall_cons; split; [vm_compute; reflexivity |]);
      apply Forall_nil_2. }
  intros k Hk. rewrite Forall_forall in Hall. exact (Hall k Hk).
Qed.

Lemma get_add_to_collection_same (k : string) (v : tensor) (g : graph) :
  tf_get_collection k (tf_add_to_collection k v g) = tf_get_collection k g ++ [v].
Proof.
  unfold tf_get_collection, tf_add_to_collection.
  rewrite lookup_insert_eq. reflexivity.
Qed.

Lemma get_add_to_collection_other (scope a b : string) (v : tensor) (g : graph) :
  a <> b ->
  tf_get_collection (scope +:+ b) (tf_add_to_collection (scope +:+ a) v g)
  = tf_get_collection (scope +:+ b) g.
Proof.
  intros Hne. unfold tf_get_collection, tf_add_to_collection.
  rewrite lookup_insert_ne; [reflexivity |].
  intros Heq. apply string_app_inv_head in Heq. contradiction.
Qed.

Section Predict.
Context `{E : Engine}.

Lemma engine_collection_empty (ts : list tensor) (scope suffix : string) :
  suffix ∈ ["images"; "keep_prob"; "logits"]%string ->
  tf_get_collection (scope +:+ suffix) (engine_collections ts) = [].
Proof.
  intros Hsuffix. unfold tf_get_collection.
  destruct (engine_collections ts !! (scope +:+ suffix)) as [l |] eqn:Hk; [| reflexivity].
  assert (Hkey : scope +:+ suffix ∈ graph_keys).
  { apply (engine_collections_keys ts). rewrite Hk. eauto. }
  apply (graph_keys_apart suffix Hsuffix) in Hkey.
  rewrite ends_with_app in Hkey. discriminate.
Qed.

(** Each of the three collections of [train] holds the one tensor [train]
    put there. *)
Lemma train_graph_collections (self : ImgConvNets) :
  tf_get_collection (model_scope self +:+ "logits") (train_graph self)
  = [train_logits self]
  /\ tf_get_collection (model_scope self +:+ "images") (train_graph self)
     = [images_placeholder]
  /\ tf_get_collection (model_scope self +:+ "keep_prob") (train_graph self)
     = [keep_prob_placeholder].
Proof.
  unfold train_graph. destruct (train_ops self) as [[train_op loss] accuracy].
  repeat split.
  - rewrite get_add_to_collection_same.
    rewrite !get_add_to_collection_other by discriminate.
    rewrite engine_collection_empty by (rewrite !elem_of_cons; auto).
    reflexivity.
  - rewrite !get_add_to_collection_other by discriminate.
    rewrite get_add_to_collection_same.
    rewrite engine_collection_empty by (rewrite !elem_of_cons; auto).
    reflexivity.
  - rewrite get_add_to_collection_other by discriminate.
    rewrite get_add_to_collection_same.
    rewrite get_add_to_collection_other by discriminate.
    rewrite engine_collection_empty by (rewrite !elem_of_cons; auto).
    reflexivity.
Qed.

(** C6: on the files of a checkpoint of the graph [train] built for
    [self], [predict], called with the scope of [self], takes the first
    element of the collections keyed scope+logits, scope+images and
    scope+keep_prob, which are the tensors [train] put under these keys, and
    returns the pair fetched for [top_k] with the given [k] of the softmax of
    the logits, the images fed with the features and the keep probability
    with 1.0. *)
Theorem predict_reads_train_collections (self : ImgConvNets)
    (fs : gmap string file) (result_dir result_file : string) (sess : Sess)
    (img_features : ndarray) (k : Z) :
  fs !! os_path_join result_dir (result_file +:+ ".meta")
    = Some (MetaGraph (train_graph self)) ->
  fs !! os_path_join result_dir result_file = Some (VariableValues sess) ->
  py_first (tf_get_collection (model_scope self +:+ "logits") (train_graph self))
    = Ok (train_logits self)
  /\ py_first (tf_get_collection (model_scope self +:+ "images") (train_graph self))
     = Ok images_placeholder
  /\ py_first (tf_get_collection (model_scope self +:+ "keep_prob") (train_graph self))
     = Ok keep_prob_placeholder
  /\ predict fs (model_scope self) result_dir result_file img_features k
     = Ok (run_pair sess (tf_top_k (tf_softmax (train_logits self)) k)
             [ (images_placeholder, FeedArray img_features);
               (keep_prob_placeholder, FeedScalar 1) ]).
Proof.
  intros Hmeta Hvalues.
  destruct (train_graph_collections self) as (Hlogits & Himages & Hkeep).
  unfold predict, tf_import_meta_graph, saver_restore.
  rewrite Hmeta, Hvalues. simpl.
  rewrite Hlogits, Himages, Hkeep. simpl. repeat split; reflexivity.
Qed.

End Predict.

(** ** The graph [train] builds *)

Section TrainBuilds.
Context `{E : Engine}.

(** On accepted inputs, the run of [train] starts with the graph it built
    and the session it opened, and the logits collection of that graph holds
    the output of the builder the dispatch chose. *)
Lemma train_builds_dispatched (self : ImgConvNets) (c cl : nat)
    (rows lrows : list (list float)) (train_dir result_file : string)
    (sigma : list nat) :
  Z.of_nat c = img_height self * img_width self ->
  length rows = length lrows ->
  (exists evs : list event,
     (train self (Mat c rows) (Mat cl lrows) train_dir result_file sigma).1
     = GraphBuilt (train_graph self) :: SessionOpened :: evs)
  /\ tf_get_collection (model_scope self +:+ "logits") (train_graph self)
     = [build_inference_graph self images_placeholder keep_prob_placeholder].
Proof.
  intros Hcols Hlen. split; [| exact (proj1 (train_graph_collections self))].
  unfold train. cbn [shape unpack2].
  rewrite (proj2 (Z.eqb_eq _ _) Hcols). cbn [negb].
  unfold np_append_axis1. rewrite decide_True by exact Hlen.
  cbv zeta. destruct (py_ceil_div _ _) as [epoch_steps | x].
  - destruct (epoch_loop _ _ _ _ _ _ _ _ _) as [evs r]. exists evs. reflexivity.
  - exists []. reflexivity.
Qed.

(** C3: the constructor accepts the model names BASIC, DCNN and STCNN and
    fails with an assertion error on every other one; for an object it
    returned, a run of [train] on inputs it accepts starts with the graph
    it built, and the logits collection of that graph holds the output of
    the STCNN builder for STCNN, of the DCNN builder for DCNN, and of the
    basic builder otherwise, which is then the BASIC case. *)
Theorem init_accepts_three_models_train_builds
    (m scope : string) (h w classes : Z) (keep rate : float) (adaptive : bool)
    (batch epochs : Z) :
  match __init__ m scope h w classes keep rate adaptive batch epochs with
  | Ok self =>
      m ∈ model_names /\ model self = m
      /\ forall (c cl : nat) (rows lrows : list (list float))
           (train_dir result_file : string) (sigma : list nat),
           Z.of_nat c = img_height self * img_width self ->
           length rows = length lrows ->
           exists (g : graph) (evs : list event),
             (train self (Mat c rows) (Mat cl lrows) train_dir result_file sigma).1
             = GraphBuilt g :: evs
             /\ g = train_graph self
             /\ (m = "STCNN"%string ->
                   tf_get_collection (model_scope self +:+ "logits") g
                   = [_build_inference_graph_stcnn self images_placeholder
                        keep_prob_placeholder])
             /\ (m = "DCNN"%string ->
                   tf_get_collection (model_scope self +:+ "logits") g
                   = [_build_inference_graph_dcnn self images_placeholder
                        keep_prob_placeholder])
             /\ (m <> "STCNN"%string -> m <> "DCNN"%string ->
                   m = "BASIC"%string
                   /\ tf_get_collection (model_scope self +:+ "logits") g
                      = [_build_inference_graph_basic self images_placeholder
                           keep_prob_placeholder])
  | Raise e => e = AssertionError /\ m ∉ model_names
  end.
Proof.
  unfold __init__.
  destruct (bool_decide (m = "BASIC"%string) || bool_decide (m = "DCNN"%string)
            || bool_decide (m = "STCNN"%string)) eqn:Hm.
  - split; [| split; [reflexivity |]].
    { apply elem_of_model_names.
      apply orb_true_iff in Hm as [Hm | Hm];
        [apply orb_true_iff in Hm as [Hm | Hm] |]; apply bool_decide_eq_true in Hm; auto. }
    intros c cl rows lrows train_dir result_file sigma Hcols Hlen.
    destruct (train_builds_dispatched _ c cl rows lrows train_dir result_file sigma
                Hcols Hlen) as [[evs Hevs] Hlogits].
    eexists _, (SessionOpened :: evs). split; [exact Hevs |].
    split; [reflexivity |]. rewrite Hlogits. clear Hevs Hlogits.
    unfold build_inference_graph. cbn [model].
    apply orb_true_iff in Hm as [Hm | Hm];
      [apply orb_true_iff in Hm as [Hm | Hm] |]; apply bool_decide_eq_true in Hm;
      subst m; repeat split; try congruence; reflexivity.
  - apply orb_false_iff in Hm as [Hm Hs]. apply orb_false_iff in Hm as [Hb Hd].
    apply bool_decide_eq_false in Hb, Hd, Hs.
    split; [reflexivity |]. rewrite elem_of_model_names. tauto.
Qed.

End TrainBuilds.

(** ** Features and labels stay paired *)

Lemma py_slice_subseteq {A} (l : list A) (lo hi : option Z) : py_slice l lo hi ⊆ l.
Proof.
  unfold py_slice. etransitivity; [apply subseteq_take | apply subseteq_drop].
Qed.

Lemma get_next_batch_subseteq {A} (self : ImgConvNets) (data_set batch : list A)
    (start_index : Z) :
  _get_next_batch self data_set start_index = Ok batch -> batch ⊆ data_set.
Proof.
  unfold _get_next_batch.
  destruct (if Z.of_nat (length data_set) <=? start_index
            then py_mod start_index (Z.of_nat (length data_set))
            else Ok start_index) as [start | x]; simpl; [| discriminate].
  destruct (start + batch_size self <? Z.of_nat (length data_set)).
  - intros [= <-]. apply py_slice_subseteq.
  - destruct (py_mod _ _) as [end_ | x]; simpl; [| discriminate].
    intros [= <-]. intros x Hx.
    apply elem_of_app in Hx as [Hx | Hx]; exact (py_slice_subseteq _ _ _ _ Hx).
Qed.

Lemma np_random_permutation_subseteq {A} (sigma : list nat) (rows : list A) :
  np_random_permutation sigma rows ⊆ rows.
Proof.
  intros x Hx. unfold np_random_permutation in Hx.
  apply list_elem_of_omap in Hx as (i & _ & Hi).
  apply list_elem_of_lookup. eauto.
Qed.

Lemma py_slice_features (f lbl : list float) :
  py_slice (f ++ lbl) None (Some (Z.of_nat (length f))) = f.
Proof.
  rewrite py_slice_upto by (rewrite length_app; lia).
  rewrite Nat2Z.id. apply take_app_length.
Qed.

Lemma py_slice_labels (f lbl : list float) :
  py_slice (f ++ lbl) (Some (Z.of_nat (length f))) None = lbl.
Proof.
  rewrite py_slice_from by (rewrite length_app; lia).
  rewrite Nat2Z.id. apply drop_app_length.
Qed.

Lemma split_appended (c : nat) (rows lrows : list (list float)) :
  Forall (fun r => length r = c) rows ->
  split_row c <$> zip_with app rows lrows = zip rows lrows.
Proof.
  intros Hrows. revert lrows.
  induction Hrows as [| f rows Hf _ IH]; intros [| lbl lrows]; try reflexivity.
  simpl. rewrite IH. unfold split_row. subst c.
  rewrite take_app_length, drop_app_length. reflexivity.
Qed.

Lemma elem_of_appended (rows lrows : list (list float)) (row : list float) :
  Forall (fun r => length r = 1%nat) lrows ->
  row ∈ zip_with app rows lrows ->
  exists f l, row = f ++ [l] /\ paired rows lrows f l.
Proof.
  intros Hone Hrow. apply list_elem_of_lookup in Hrow as [j Hj].
  apply lookup_zip_with_Some in Hj as (f & lbl & -> & Hf & Hl).
  rewrite Forall_forall in Hone.
  assert (Hlen : length lbl = 1%nat).
  { apply Hone. apply list_elem_of_lookup. eauto. }
  destruct lbl as [| l [| ? ?]]; try discriminate.
  exists f, l. split; [reflexivity |]. exists j. auto.
Qed.

Lemma batch_rows_glued (c : nat) (rows lrows batch : list (list float)) :
  Forall (fun r => length r = c) rows ->
  Forall (fun row => exists f l, row = f ++ [l] /\ paired rows lrows f l) batch ->
  exists fl : list (list float * float),
    batch = glue <$> fl
    /\ Forall (fun p => length p.1 = c /\ paired rows lrows p.1 p.2) fl.
Proof.
  intros Hrows. rewrite Forall_forall in Hrows.
  induction 1 as [| row batch (f & l & -> & Hpair) _ (fl & -> & Hfl)].
  - exists []. split; [reflexivity | constructor].
  - exists ((f, l) :: fl). split; [reflexivity |].
    constructor; [| exact Hfl]. split; [| exact Hpair].
    destruct Hpair as (j & Hf & _). apply Hrows.
    apply list_elem_of_lookup. eauto.
Qed.

Lemma feeds_of_glued (c : nat) (fl : list (list float * float)) :
  Forall (fun p => length p.1 = c) fl ->
  mat_rows (images_of (c + 1) (Z.of_nat c) (glue <$> fl)) = fst <$> fl
  /\ vec_items (labels_of (Z.of_nat c) (glue <$> fl)) = snd <$> fl.
Proof.
  unfold images_of, labels_of. cbn [mat_rows vec_items].
  induction 1 as [| [f l] fl Hf _ [IHi IHl]]; [split; reflexivity |].
  simpl in Hf. rewrite !fmap_cons, concat_cons, IHi, IHl.
  unfold glue at 1 2. cbn [fst snd]. subst c.
  rewrite py_slice_features, py_slice_labels. split; reflexivity.
Qed.

(** C10: for a matrix of features and a one-column matrix of labels with as
    many rows, the rows of the permuted training set, split at column
    [cols], are the (features, label) pairs of the input, each as often as
    there; and in every batch, row [i] of [images_feed] and item [i] of
    [labels_feed] are the features and the label of one and the same
    sample. *)
Theorem permutation_keeps_pairs (self : ImgConvNets) (c : nat)
    (rows lrows : list (list float)) (sigma : list nat) :
  Forall (fun r => length r = c) rows ->
  Forall (fun r => length r = 1%nat) lrows ->
  length rows = length lrows ->
  sigma ≡ₚ seq 0 (length rows) ->
  exists appended : list (list float),
    np_append_axis1 (Mat c rows) (Mat 1 lrows) = Ok ((c + 1)%nat, appended)
    /\ let train_set := np_random_permutation sigma appended in
       split_row c <$> train_set ≡ₚ zip rows lrows
       /\ forall (start_index : Z) (batch : list (list float)),
            _get_next_batch self train_set start_index = Ok batch ->
            let images_feed := mat_rows (images_of (c + 1) (Z.of_nat c) batch) in
            let labels_feed := vec_items (labels_of (Z.of_nat c) batch) in
            length images_feed = length batch
            /\ length labels_feed = length batch
            /\ forall i : nat, (i < length batch)%nat ->
                 exists f l, images_feed !! i = Some f
                             /\ labels_feed !! i = Some l
                             /\ paired rows lrows f l.
Proof.
  intros Hrows Hone Hlen Hsigma.
  exists (zip_with app rows lrows). split.
  { unfold np_append_axis1. rewrite decide_True by exact Hlen. reflexivity. }
  intros train_set. split.
  { subst train_set. rewrite np_random_permutation_perm.
    - rewrite split_appended by exact Hrows. reflexivity.
    - rewrite length_zip_with_l_eq by exact Hlen. exact Hsigma. }
  intros start_index batch Hbatch.
  assert (Hglued : Forall (fun row => exists f l, row = f ++ [l] /\ paired rows lrows f l)
                     batch).
  { apply Forall_forall. intros row Hrow.
    apply (elem_of_appended rows lrows row Hone).
    apply (np_random_permutation_subseteq sigma).
    exact (get_next_batch_subseteq _ _ _ _ Hbatch row Hrow). }
  destruct (batch_rows_glued c rows lrows batch Hrows Hglued) as (fl & -> & Hfl).
  destruct (feeds_of_glued c fl) as [Himages Hlabels].
  { eapply Forall_impl; [exact Hfl |]. intros p [Hp _]. exact Hp. }
  cbv zeta. rewrite Himages, Hlabels, !length_fmap.
  split; [reflexivity |]. split; [reflexivity |].
  intros i Hi.
  destruct (lookup_lt_is_Some_2 fl i Hi) as [[f l] Hp].
  exists f, l. rewrite !list_lookup_fmap, Hp. simpl.
  split; [reflexivity |]. split; [reflexivity |].
  rewrite Forall_forall in Hfl.
  apply (Hfl (f, l)). apply list_elem_of_lookup. eauto.
Qed.

(** ** The code run on the small engine *)

Example train_three_epochs :
  let run := train (E := steady_engine) adaptive_net three_images three_labels
               "d" "f" [2; 0; 1]%nat in
  run.2 = Ok ()
  /\ printed run.1 = [(1, 50%float); (2, 50%float); (3, 50%float)]
  /\ saves run.1 = [Saved 2 "d/f" None]
  /\ count_steps run.1 = 6%nat.
Proof. vm_compute. repeat split; reflexivity. Qed.

Lemma init_accepts_three_models_train_builds_witness :
  __init__ "STCNN" "m" 2 2 2 0.5 1e-4 true 2 3 = Ok (small_net "STCNN" 3)
  /\ exists (g : graph) (evs : list event),
       (train (E := steady_engine) (small_net "STCNN" 3) (Mat 4 three_rows)
          (Mat 1 three_label_rows) "d" "f" [2; 0; 1]%nat).1
       = GraphBuilt g :: evs
       /\ tf_get_collection ("m" +:+ "logits") g
          = [_build_inference_graph_stcnn (small_net "STCNN" 3) images_placeholder
               keep_prob_placeholder].
Proof.
  split; [reflexivity |].
  pose proof (init_accepts_three_models_train_builds (E := steady_engine)
                "STCNN" "m" 2 2 2 0.5 1e-4 true 2 3) as H.
  change (__init__ "STCNN" "m" 2 2 2 0.5 1e-4 true 2 3)
    with (Ok (small_net "STCNN" 3)) in H.
  cbv beta iota in H. destruct H as (_ & _ & H).
  destruct (H 4%nat 1%nat three_rows three_label_rows "d"%string "f"%string
              [2; 0; 1]%nat eq_refl eq_refl) as (g & evs & Hrun & _ & Hstcnn & _).
  exists g, evs. split; [exact Hrun | exact (Hstcnn eq_refl)].
Defined.



Lemma checkpoint_rule_witness :
  let run := train (E := steady_engine) adaptive_net three_images three_labels
               "d" "f" [2; 0; 1]%nat in
  (2 <= num_epoches adaptive_net
   /\ run.2 = Ok ()
   /\ forall e m, (e, m) ∈ printed run.1 -> fge m 99.68 = false)
  /\ saves run.1 = [Saved (num_epoches adaptive_net - 1) (os_path_join "d" "f") None].
Proof.
  intros run.
  assert (H1 : 2 <= num_epoches adaptive_net) by (simpl; lia).
  assert (H2 : run.2 = Ok ()) by (vm_compute; reflexivity).
  assert (H3 : forall e m, (e, m) ∈ printed run.1 -> fge m 99.68 = false).
  { assert (Hp : printed run.1 = [(1, 50%float); (2, 50%float); (3, 50%float)])
      by (vm_compute; reflexivity).
    rewrite Hp. intros e m Hin. rewrite !elem_of_cons, elem_of_nil in Hin.
    destruct Hin as [[= -> ->] | [[= -> ->] | [[= -> ->] | []]]]; reflexivity. }
  split; [auto |].
  exact (proj2 (proj2 (checkpoint_rule (E := steady_engine) adaptive_net three_images
                         three_labels "d" "f" [2; 0; 1]%nat)) H1 H2 H3).
Defined.

(** With a single epoch there is no epoch [num_epoches - 1]: the run below
    never reaches 99.68 and ends without any checkpoint. *)
Lemma single_epoch_run_never_saves :
  let run := train (E := steady_engine) (small_net "BASIC" 1) three_images three_labels
               "d" "f" [2; 0; 1]%nat in
  run.2 = Ok ()
  /\ printed run.1 = [(1, 50%float)]
  /\ fge 50 99.68 = false
  /\ saves run.1 = []
  /\ length (saves run.1) <> 1%nat.
Proof. vm_compute. repeat split; try reflexivity. discriminate. Qed.

Lemma train_value_error_witness :
  let run := train (E := steady_engine) adaptive_net three_images three_labels
               "d" "f" [2; 0; 1]%nat in
  (three_images = Mat 4 three_rows
   /\ three_labels = Mat 1 three_label_rows
   /\ length three_rows = length three_label_rows)
  /\ (run.2 = Raise ValueError
      <-> Z.of_nat 4 <> img_height adaptive_net * img_width adaptive_net).
Proof.
  intros run. split; [repeat split |].
  exact (proj2 (train_value_error (E := steady_engine) adaptive_net three_images
                  three_labels "d" "f" [2; 0; 1]%nat)
           4%nat 1%nat three_rows three_label_rows eq_refl eq_refl eq_refl).
Defined.

(** Labels given as a vector are refused by [np.append] although the
    features have [img_height * img_width] columns. *)
Lemma value_error_with_matching_columns :
  let run := train (E := steady_engine) adaptive_net three_images (Vec [1; 0; 1]%float)
               "d" "f" [2; 0; 1]%nat in
  unpack2 (shape three_images) = Ok (3, 4)
  /\ 4 = img_height adaptive_net * img_width adaptive_net
  /\ run = ([], Raise ValueError)
  /\ ~ (run.2 = Raise ValueError
        <-> 4 <> img_height adaptive_net * img_width adaptive_net).
Proof.
  cbv zeta. split; [reflexivity |]. split; [reflexivity |]. split; [reflexivity |].
  intros [Hraise _]. apply Hraise; reflexivity.
Qed.

(** So are labels with another number of rows. *)
Example value_error_on_missing_label :
  train (E := steady_engine) adaptive_net three_images (Mat 1 [ [1]; [0] ]%float)
    "d" "f" [2; 0; 1]%nat
  = ([], Raise ValueError).
Proof. reflexivity. Qed.

Lemma predict_reads_train_collections_witness :
  (checkpoint_files !! os_path_join "d" ("f" +:+ ".meta")
     = Some (MetaGraph (train_graph (E := steady_engine) adaptive_net))
   /\ checkpoint_files !! os_path_join "d" "f"
      = Some (VariableValues (4%nat : @Sess steady_engine)))
  /\ predict (E := steady_engine) checkpoint_files (model_scope adaptive_net)
       "d" "f" three_images 1
     = Ok (run_pair (Engine := steady_engine) 4%nat
             (tf_top_k (tf_softmax (train_logits adaptive_net)) 1)
             [ (images_placeholder, FeedArray three_images);
               (keep_prob_placeholder, FeedScalar 1) ]).
Proof.
  assert (H1 : checkpoint_files !! os_path_join "d" ("f" +:+ ".meta")
               = Some (MetaGraph (train_graph (E := steady_engine) adaptive_net)))
    by reflexivity.
  assert (H2 : checkpoint_files !! os_path_join "d" "f"
               = Some (VariableValues (4%nat : @Sess steady_engine)))
    by reflexivity.
  split; [auto |].
  exact (proj2 (proj2 (proj2
           (predict_reads_train_collections (E := steady_engine) adaptive_net
              checkpoint_files "d" "f" 4%nat three_images 1 H1 H2)))).
Defined.

Lemma permutation_keeps_pairs_witness :
  (Forall (fun r => length r = 4%nat) three_rows
   /\ Forall (fun r => length r = 1%nat) three_label_rows
   /\ length three_rows = length three_label_rows
   /\ [2; 0; 1]%nat ≡ₚ seq 0 (length three_rows))
  /\ exists appended : list (list float),
       np_append_axis1 (Mat 4 three_rows) (Mat 1 three_label_rows)
         = Ok ((4 + 1)%nat, appended)
       /\ let train_set := np_random_permutation [2; 0; 1]%nat appended in
          split_row 4 <$> train_set ≡ₚ zip three_rows three_label_rows
          /\ forall (start_index : Z) (batch : list (list float)),
               _get_next_batch adaptive_net train_set start_index = Ok batch ->
               let images_feed := mat_rows (images_of (4 + 1) (Z.of_nat 4) batch) in
               let labels_feed := vec_items (labels_of (Z.of_nat 4) batch) in
               length images_feed = length batch
               /\ length labels_feed = length batch
               /\ forall i : nat, (i < length batch)%nat ->
                    exists f l, images_feed !! i = Some f
                                /\ labels_feed !! i = Some l
                                /\ paired three_rows three_label_rows f l.
Proof.
  assert (H1 : Forall (fun r => length r = 4%nat) three_rows)
    by (repeat (apply Forall_cons; split; [reflexivity |]); apply Forall_nil_2).
  assert (H2 : Forall (fun r => length r = 1%nat) three_label_rows)
    by (repeat (apply Forall_cons; split; [reflexivity |]); apply Forall_nil_2).
  assert (H3 : length three_rows = length three_label_rows) by reflexivity.
  assert (H4 : [2; 0; 1]%nat ≡ₚ seq 0 (length three_rows))
    by (simpl; solve_Permutation).
  split; [auto |].
  exact (permutation_keeps_pairs adaptive_net 4 three_rows three_label_rows
           [2; 0; 1]%nat H1 H2 H3 H4).
Defined.

(** * Further properties *)

(** ** Batches at the edges *)

Example get_next_batch_short_and_long :
  _get_next_batch (small_net "BASIC" 3) [10; 20; 30]%nat 2 = Ok [30; 10]%nat
  /\ _get_next_batch (small_net "BASIC" 3) [10]%nat 0 = Ok [10]%nat
  /\ _get_next_batch (small_net "BASIC" 3) ([] : list nat) 0 = Raise ZeroDivisionError.
Proof. repeat split; reflexivity. Qed.

Lemma batch_length_bounds {A} (self : ImgConvNets) (data_set : list A)
    (start_index : Z) :
  data_set <> [] ->
  1 <= batch_size self ->
  0 <= start_index ->
  let cnt := Z.of_nat (length data_set) in
  let turns := (start_index mod cnt + batch_size self) / cnt in
  exists batch : list A,
    _get_next_batch self data_set start_index = Ok batch
    /\ batch ⊆ data_set
    /\ Z.of_nat (length batch) = batch_size self - Z.max 0 (turns - 1) * cnt
    /\ 1 <= Z.of_nat (length batch) <= batch_size self.
Proof.
  intros Hne Hbs Hstart cnt turns.
  assert (Hcnt : 1 <= cnt) by (subst cnt; destruct data_set; simpl; [congruence | lia]).
  destruct (get_next_batch_ok self data_set start_index Hne) as [batch Hbatch].
  exists batch. split; [exact Hbatch |].
  split; [exact (get_next_batch_subseteq _ _ _ _ Hbatch) |].
  set (s := start_index mod cnt) in *.
  assert (Hs : 0 <= s < cnt) by (apply Z.mod_pos_bound; lia).
  assert (Hlen : Z.of_nat (length batch) = batch_size self - Z.max 0 (turns - 1) * cnt).
  { revert Hbatch. unfold _get_next_batch. fold cnt.
    assert (Hstart_eq :
      (if cnt <=? start_index then py_mod start_index cnt else Ok start_index) = Ok s).
    { destruct (Z.leb_spec cnt start_index).
      - unfold py_mod. destruct (Z.eqb_spec cnt 0); [lia | reflexivity].
      - unfold s. rewrite Z.mod_small by lia. reflexivity. }
    rewrite Hstart_eq. simpl.
    destruct (Z.ltb_spec (s + batch_size self) cnt) as [Hend | Hend].
    - intros [= <-]. rewrite py_slice_between by (fold cnt; lia).
      rewrite length_take, length_drop.
      assert (turns = 0) by (apply Z.div_small; lia). lia.
    - unfold py_mod. destruct (Z.eqb_spec cnt 0); [lia |]. simpl.
      intros [= <-].
      pose proof (Z.mod_pos_bound (s + batch_size self) cnt ltac:(lia)) as Hr.
      pose proof (Z.div_mod (s + batch_size self) cnt ltac:(lia)) as Hdm.
      fold turns in Hdm.
      assert (1 <= turns) by (apply Z.div_le_lower_bound; lia).
      rewrite py_slice_from by (fold cnt; lia).
      rewrite py_slice_upto by (fold cnt; lia).
      rewrite length_app, length_drop, length_take. nia. }
  split; [exact Hlen |].
  assert (Hturns : 0 <= turns) by (apply Z.div_pos; lia).
  pose proof (Z.mod_pos_bound (s + batch_size self) cnt ltac:(lia)) as Hr.
  pose proof (Z.div_mod (s + batch_size self) cnt ltac:(lia)) as Hdm.
  fold turns in Hdm. nia.
Qed.

(** X1: on a data set that is not empty, with a positive batch size and a
    start index that is not negative, [_get_next_batch] returns a batch of
    rows of the data set that is never empty and never longer than
    [batch_size]; it is shorter exactly by the whole turns around the data
    set that the window makes beyond the first. *)
Theorem get_next_batch_length {A} (self : ImgConvNets) (data_set : list A)
    (start_index : Z) :
  data_set <> [] ->
  1 <= batch_size self ->
  0 <= start_index ->
  let cnt := Z.of_nat (length data_set) in
  let turns := (start_index mod cnt + batch_size self) / cnt in
  exists batch : list A,
    _get_next_batch self data_set start_index = Ok batch
    /\ batch ⊆ data_set
    /\ Z.of_nat (length batch) = batch_size self - Z.max 0 (turns - 1) * cnt
    /\ 1 <= Z.of_nat (length batch) <= batch_size self.
Proof. exact (batch_length_bounds self data_set start_index). Qed.

Lemma get_next_batch_length_witness :
  ([10; 20; 30]%nat <> [] /\ 1 <= batch_size (small_net "BASIC" 3) /\ 0 <= 5)
  /\ let cnt := Z.of_nat (length [10; 20; 30]%nat) in
     let turns := (5 mod cnt + batch_size (small_net "BASIC" 3)) / cnt in
     exists batch : list nat,
       _get_next_batch (small_net "BASIC" 3) [10; 20; 30]%nat 5 = Ok batch
       /\ batch ⊆ [10; 20; 30]%nat
       /\ Z.of_nat (length batch) = batch_size (small_net "BASIC" 3) - Z.max 0 (turns - 1) * cnt
       /\ 1 <= Z.of_nat (length batch) <= batch_size (small_net "BASIC" 3).
Proof.
  assert (H1 : [10; 20; 30]%nat <> []) by discriminate.
  assert (H2 : 1 <= batch_size (small_net "BASIC" 3)) by (simpl; lia).
  assert (H3 : 0 <= 5) by lia.
  split; [auto |].
  exact (get_next_batch_length (small_net "BASIC" 3) [10; 20; 30]%nat 5 H1 H2 H3).
Defined.

(** X2: on an empty data set, a start index that is not negative makes
    [_get_next_batch] divide by zero. *)
Theorem get_next_batch_empty {A} (self : ImgConvNets) (start_index : Z) :
  0 <= start_index ->
  _get_next_batch self ([] : list A) start_index = Raise ZeroDivisionError.
Proof.
  intros Hstart. unfold _get_next_batch. simpl length. change (Z.of_nat 0) with 0.
  destruct (Z.leb_spec 0 start_index); [reflexivity | lia].
Qed.

Lemma get_next_batch_empty_witness :
  0 <= 4
  /\ _get_next_batch adaptive_net ([] : list nat) 4 = Raise ZeroDivisionError.
Proof.
  split; [lia |]. apply (get_next_batch_empty adaptive_net 4). lia.
Defined.

Lemma batch_of_row {A} (self : ImgConvNets) (data_set : list A) (j : nat) :
  1 <= batch_size self ->
  (j < length data_set)%nat ->
  let step := Z.of_nat j / batch_size self in
  exists (epoch_steps : Z) (batch : list A),
    py_ceil_div (Z.of_nat (length data_set)) (batch_size self) = Ok epoch_steps
    /\ step ∈ py_range 0 epoch_steps
    /\ _get_next_batch self data_set (step * batch_size self) = Ok batch
    /\ batch !! Z.to_nat (Z.of_nat j mod batch_size self) = data_set !! j.
Proof.
  intros Hbs Hj step.
  set (cnt := Z.of_nat (length data_set)).
  set (bs := batch_size self) in *.
  pose proof (Z.div_mod (Z.of_nat j) bs ltac:(lia)) as Hdm. fold step in Hdm.
  pose proof (Z.mod_pos_bound (Z.of_nat j) bs ltac:(lia)) as Hmod.
  assert (Hstep : 0 <= step) by (apply Z.div_pos; lia).
  exists (- (- cnt / bs)). unfold py_ceil_div.
  destruct (Z.eqb_spec bs 0); [lia |].
  pose proof (ceil_div_bounds cnt bs ltac:(lia)) as Hceil.
  assert (Hin : step ∈ py_range 0 (- (- cnt / bs))).
  { apply elem_of_py_range. split; [exact Hstep |]. nia. }
  assert (Hs : 0 <= step * bs <= Z.of_nat j) by nia.
  unfold _get_next_batch. fold cnt bs.
  destruct (Z.leb_spec cnt (step * bs)); [lia |]. simpl.
  destruct (Z.ltb_spec (step * bs + bs) cnt) as [Hend | Hend].
  - eexists. split; [reflexivity |]. split; [exact Hin |]. split; [reflexivity |].
    rewrite py_slice_between by (fold cnt; lia).
    rewrite lookup_take_lt by lia. rewrite lookup_drop. f_equal. lia.
  - unfold py_mod. destruct (Z.eqb_spec cnt 0); [lia |]. simpl.
    eexists. split; [reflexivity |]. split; [exact Hin |]. split; [reflexivity |].
    rewrite py_slice_from by (fold cnt; lia).
    rewrite lookup_app_l by (rewrite length_drop; lia).
    rewrite lookup_drop. f_equal. lia.
Qed.



(** ** The run, epoch by epoch *)

Lemma last_accu_at_cons (first mean : float) (e : Z) (i : nat)
    (history : list (Z * float)) :
  is_Some (history !! i) ->
  last_accu_at first (S i) ((e, mean) :: history) = last_accu_at mean i history.
Proof.
  intros [p Hp]. destruct i as [| i]; [reflexivity |]. simpl.
  destruct (history !! i) eqn:Hprev; [reflexivity |].
  apply lookup_ge_None in Hprev. apply lookup_lt_Some in Hp. lia.
Qed.

Section RunEvents.
Context `{E : Engine}.
Variables (self : ImgConvNets) (ncols : nat) (train_set : list (list float)).
Variables (cols epoch_steps : Z) (save_file : string).

Lemma step_loop_events (epoch : Z) (lr_feed : float) (steps : list Z) :
  train_set <> [] ->
  forall (sess : Sess) (loss_list accu_list : list float),
    (step_loop self ncols train_set cols epoch lr_feed steps sess loss_list accu_list).1
    = step_event self ncols train_set cols epoch lr_feed <$> steps.
Proof.
  intros Hne. induction steps as [| step rest IH]; intros sess loss_list accu_list;
    [reflexivity |].
  simpl. unfold step_event at 1, batch_at.
  destruct (get_next_batch_ok self train_set (step * batch_size self) Hne)
    as [batch_data ->].
  destruct (run_train _ _ _) as [[sess' loss_val] accu_val].
  specialize (IH sess' (loss_list ++ [loss_val]) (accu_list ++ [accu_val])).
  destruct (step_loop _ _ _ _ _ _ rest _ _ _) as [evs r]. simpl in *.
  rewrite IH. reflexivity.
Qed.

Lemma step_events_steps_of (epoch : Z) (lr_feed : float) (steps : list Z) :
  Forall (fun ev => steps_of epoch ev = true)
    (step_event self ncols train_set cols epoch lr_feed <$> steps).
Proof.
  apply Forall_fmap, Forall_forall. intros step _. simpl.
  apply bool_decide_eq_true. reflexivity.
Qed.

(** On a training set that is not empty, with at least one step in an
    epoch, the events of the loop are those of whole epochs, and they stop
    at the first mean accuracy of 99.99 or more. *)
Lemma epoch_loop_events (epochs : list Z) :
  train_set <> [] -> 0 < epoch_steps ->
  forall (sess : Sess) (last_accu : float),
    exists means : list float,
      (epoch_loop self ncols train_set cols epoch_steps save_file epochs
         sess last_accu).1
      = run_events self ncols train_set cols epoch_steps save_file epochs
          last_accu means
      /\ stops_at_target (length epochs) means.
Proof.
  intros Hne Hsteps. unfold stops_at_target.
  induction epochs as [| epoch rest IH]; intros sess last_accu.
  { exists []. simpl. repeat split; [lia | discriminate | lia]. }
  simpl epoch_loop.
  pose proof (step_loop_trace self ncols train_set cols epoch
                (_get_learning_rate self last_accu)
                (py_range 0 epoch_steps) sess [] []) as Htrace.
  pose proof (step_loop_events epoch (_get_learning_rate self last_accu)
                (py_range 0 epoch_steps) Hne sess [] []) as Hevents.
  destruct (step_loop_ok self ncols train_set cols epoch
              (_get_learning_rate self last_accu)
              (py_range 0 epoch_steps) Hne sess [] []) as [res Hres].
  simpl in Htrace. rewrite length_py_range, Z.sub_0_r in Htrace.
  destruct (step_loop _ _ _ _ _ _ _ _ _ _) as [evs r]. simpl in Htrace, Hres, Hevents.
  subst r evs. destruct res as [[sess' loss_list] accu_list].
  destruct Htrace as [_ [_ Haccu]].
  destruct accu_list as [| accu_val accu_list]; [simpl in Haccu; lia |].
  cbn [mean_percent]. set (mean_accu := percent_mean (accu_val :: accu_list)).
  destruct (fge mean_accu 99.99) eqn:Hbreak.
  - exists [mean_accu]. simpl. split.
    + unfold epoch_events. destruct rest; rewrite app_nil_r; reflexivity.
    + repeat split; [lia | |].
      * intros [| i] m Hm _; [reflexivity | discriminate].
      * intros _. exists mean_accu. auto.
  - destruct (IH sess' mean_accu) as (means & Hrun & Hlen & Hstop & Hshort).
    destruct (epoch_loop _ _ _ _ _ _ rest _ _) as [evs' r']. simpl in Hrun. subst evs'.
    exists (mean_accu :: means). simpl. split; [reflexivity |].
    repeat split; [lia | |].
    + intros [| i] m Hm Hfge.
      * injection Hm as <-. congruence.
      * simpl in Hm. f_equal. exact (Hstop i m Hm Hfge).
    + intros Hlt. destruct Hshort as (m & Hlast & Hfge); [lia |].
      exists m. split; [| exact Hfge].
      destruct means as [| m0 means]; [discriminate |]. exact Hlast.
Qed.

Lemma printed_epoch_events (epoch : Z) (last_accu mean_accu : float) :
  printed (epoch_events self ncols train_set cols epoch_steps save_file epoch
             last_accu mean_accu)
  = [(epoch, mean_accu)].
Proof.
  unfold epoch_events.
  apply (epoch_part self save_file epoch (_get_learning_rate self last_accu)
           mean_accu last_accu _ (step_events_steps_of _ _ _)).
Qed.

Lemma printed_run_events (epochs : list Z) :
  forall (last_accu : float) (means : list float),
    printed (run_events self ncols train_set cols epoch_steps save_file epochs
               last_accu means)
    = zip epochs means.
Proof.
  induction epochs as [| epoch rest IH]; intros last_accu [| mean_accu means];
    try reflexivity.
  simpl. rewrite printed_app, printed_epoch_events, IH. reflexivity.
Qed.

(** Every step of the run belongs to a completed epoch and is fed as that
    epoch prescribes. *)
Lemma step_of_run_events (epochs : list Z) :
  forall (last_accu : float) (means : list float)
         (e s : Z) (imgs labs : ndarray) (lr kp : float),
    Step e s imgs labs lr kp
      ∈ run_events self ncols train_set cols epoch_steps save_file epochs
          last_accu means ->
    s ∈ py_range 0 epoch_steps
    /\ exists (i : nat) (m : float),
         zip epochs means !! i = Some (e, m)
         /\ Step e s imgs labs lr kp
            = step_event self ncols train_set cols e
                (_get_learning_rate self (last_accu_at last_accu i (zip epochs means))) s.
Proof.
  induction epochs as [| epoch rest IH]; intros last_accu [| mean_accu means]
    e s imgs labs lr kp Hin; try (apply elem_of_nil in Hin; contradiction).
  simpl in Hin. apply elem_of_app in Hin as [Hin | Hin].
  - unfold epoch_events in Hin. apply elem_of_app in Hin as [Hin | Hin].
    + apply list_elem_of_fmap in Hin as (step & Heq & Hstep).
      assert (Hes : e = epoch /\ s = step) by (unfold step_event in Heq; split; congruence).
      destruct Hes as [-> ->].
      split; [exact Hstep |]. exists O, mean_accu. split; [reflexivity | exact Heq].
    + exfalso. apply elem_of_app in Hin as [Hin | Hin].
      * destruct (save_events_cases self save_file epoch mean_accu last_accu)
          as [(_ & gs & Hs & _) | (_ & Hs)]; rewrite Hs in Hin.
        -- apply list_elem_of_singleton in Hin. discriminate.
        -- apply elem_of_nil in Hin. contradiction.
      * apply list_elem_of_singleton in Hin. discriminate.
  - destruct (IH _ _ _ _ _ _ _ _ Hin) as (Hstep & i & m & Hi & Heq).
    split; [exact Hstep |]. exists (S i), m. split; [exact Hi |].
    rewrite Heq. f_equal. f_equal. symmetry. simpl zip.
    apply last_accu_at_cons. rewrite Hi. eauto.
Qed.

(** Every completed epoch has all its steps in the run. *)
Lemma run_events_steps (epochs : list Z) :
  forall (last_accu : float) (means : list float) (i : nat) (e : Z) (m : float) (s : Z),
    zip epochs means !! i = Some (e, m) ->
    s ∈ py_range 0 epoch_steps ->
    step_event self ncols train_set cols e
      (_get_learning_rate self (last_accu_at last_accu i (zip epochs means))) s
      ∈ run_events self ncols train_set cols epoch_steps save_file epochs
          last_accu means.
Proof.
  induction epochs as [| epoch rest IH]; intros last_accu [| mean_accu means]
    i e m s Hi Hs; try discriminate.
  simpl. apply elem_of_app. destruct i as [| i].
  - injection Hi as <- <-. left. unfold epoch_events. apply elem_of_app. left.
    apply list_elem_of_fmap. exists s. split; [reflexivity | exact Hs].
  - right. simpl in Hi. simpl zip.
    rewrite last_accu_at_cons by (rewrite Hi; eauto).
    exact (IH _ _ _ _ _ _ Hi Hs).
Qed.

(** Every completed epoch has its report in the run. *)
Lemma run_events_report (epochs : list Z) :
  forall (last_accu : float) (means : list float) (i : nat) (e : Z) (m : float),
    zip epochs means !! i = Some (e, m) ->
    Printed e (_get_learning_rate self (last_accu_at last_accu i (zip epochs means))) m
      ∈ run_events self ncols train_set cols epoch_steps save_file epochs
          last_accu means.
Proof.
  induction epochs as [| epoch rest IH]; intros last_accu [| mean_accu means]
    i e m Hi; try discriminate.
  simpl. apply elem_of_app. destruct i as [| i].
  - injection Hi as <- <-. left. unfold epoch_events.
    rewrite !elem_of_app. right. right. apply list_elem_of_singleton. reflexivity.
  - right. simpl in Hi. simpl zip.
    rewrite last_accu_at_cons by (rewrite Hi; eauto).
    exact (IH _ _ _ _ _ Hi).
Qed.

End RunEvents.

Lemma trainable_train_set (self : ImgConvNets) (c cl : nat)
    (rows lrows : list (list float)) (sigma : list nat) :
  trainable self c cl rows lrows sigma ->
  let train_set := np_random_permutation sigma (zip_with app rows lrows) in
  train_set ≡ₚ zip_with app rows lrows
  /\ length train_set = length rows
  /\ train_set <> []
  /\ 0 < - (- Z.of_nat (length rows) / batch_size self).
Proof.
  intros (_ & _ & _ & Hlen & Hne & Hbs & Hsigma) train_set.
  assert (Hperm : train_set ≡ₚ zip_with app rows lrows).
  { apply np_random_permutation_perm.
    rewrite length_zip_with_l_eq by exact Hlen. exact Hsigma. }
  assert (Hts : length train_set = length rows).
  { rewrite Hperm. apply length_zip_with_l_eq. exact Hlen. }
  split; [exact Hperm |]. split; [exact Hts |]. split.
  - intros Hnil. rewrite Hnil in Hts. destruct rows; [congruence | discriminate].
  - pose proof (ceil_div_bounds (Z.of_nat (length rows)) (batch_size self) ltac:(lia))
      as Hceil.
    assert (1 <= Z.of_nat (length rows)) by (destruct rows; simpl; [congruence | lia]).
    destruct (Z.lt_ge_cases 0 (- (- Z.of_nat (length rows) / batch_size self)))
      as [| Hle]; [assumption |].
    assert (- (- Z.of_nat (length rows) / batch_size self) * batch_size self <= 0) by nia.
    lia.
Qed.

Section TrainableRun.
Context `{E : Engine}.

(** On inputs it goes through with, [train] raises nothing and its run is
    given by the means of the epochs. *)
Lemma train_run_events (self : ImgConvNets) (c cl : nat)
    (rows lrows : list (list float)) (train_dir result_file : string)
    (sigma : list nat) :
  trainable self c cl rows lrows sigma ->
  let train_set := np_random_permutation sigma (zip_with app rows lrows) in
  let epoch_steps := - (- Z.of_nat (length rows) / batch_size self) in
  exists means : list float,
    train self (Mat c rows) (Mat cl lrows) train_dir result_file sigma
    = ([GraphBuilt (train_graph self); SessionOpened]
       ++ run_events self (c + cl) train_set (Z.of_nat c) epoch_steps
            (os_path_join train_dir result_file)
            (py_range 1 (num_epoches self + 1)) 0%float means,
       Ok ())
    /\ stops_at_target (Z.to_nat (num_epoches self)) means.
Proof.
  intros Hok train_set epoch_steps.
  destruct (trainable_train_set self c cl rows lrows sigma Hok)
    as (_ & Hts & Hne & Hsteps). fold train_set in Hts, Hne. fold epoch_steps in Hsteps.
  destruct Hok as (_ & _ & Hcols & Hlen & _ & Hbs & _).
  unfold train. cbn [shape unpack2].
  rewrite (proj2 (Z.eqb_eq _ _) Hcols). cbn [negb].
  unfold np_append_axis1. rewrite decide_True by exact Hlen.
  fold train_set. rewrite Hts. unfold py_ceil_div.
  destruct (Z.eqb_spec (batch_size self) 0); [lia |]. fold epoch_steps.
  destruct (epoch_loop_events self (c + cl) train_set (Z.of_nat c) epoch_steps
              (os_path_join train_dir result_file)
              (py_range 1 (num_epoches self + 1)) Hne Hsteps
              (global_variables_initializer (train_graph self)) 0%float)
    as (means & Hevents & Hstops).
  pose proof (epoch_loop_ok self (c + cl) train_set (Z.of_nat c) epoch_steps
                (os_path_join train_dir result_file)
                (py_range 1 (num_epoches self + 1)) Hne Hsteps
                (global_variables_initializer (train_graph self)) 0%float) as Hres.
  destruct (epoch_loop _ _ _ _ _ _ _ _ _) as [evs r]. simpl in Hevents, Hres.
  subst evs r. exists means. split; [reflexivity |].
  rewrite length_py_range in Hstops.
  replace (num_epoches self + 1 - 1) with (num_epoches self) in Hstops by lia.
  exact Hstops.
Qed.

End TrainableRun.

Lemma three_samples_trainable (m : string) (epochs : Z) :
  trainable (small_net m epochs) 4 1 three_rows three_label_rows [2; 0; 1]%nat.
Proof.
  unfold trainable. repeat split.
  - repeat (apply Forall_cons; split; [reflexivity |]). apply Forall_nil_2.
  - repeat (apply Forall_cons; split; [reflexivity |]). apply Forall_nil_2.
  - discriminate.
  - simpl. lia.
  - simpl. solve_Permutation.
Qed.

(** ** Reports, rates and feeds of a run *)

Lemma lookup_py_range (lo hi : Z) (i : nat) (e : Z) :
  py_range lo hi !! i = Some e <-> e = lo + Z.of_nat i /\ (i < Z.to_nat (hi - lo))%nat.
Proof.
  unfold py_range. rewrite list_lookup_fmap, fmap_Some. split.
  - intros (j & Hj & ->). apply lookup_seq in Hj as [-> Hlt]. auto.
  - intros [-> Hlt]. exists i. split; [| reflexivity]. apply lookup_seq. auto.
Qed.

Lemma take_py_range (lo hi : Z) (k : nat) :
  (k <= Z.to_nat (hi - lo))%nat ->
  take k (py_range lo hi) = py_range lo (lo + Z.of_nat k).
Proof.
  intros Hk. unfold py_range. rewrite <- fmap_take, take_seq.
  replace (k `min` Z.to_nat (hi - lo))%nat with k by lia.
  replace (Z.to_nat (lo + Z.of_nat k - lo)) with k by lia. reflexivity.
Qed.

Lemma fst_zip_take {A B} (l : list A) (k : list B) : (zip l k).*1 = take (length k) l.
Proof.
  revert k. induction l as [| a l IH]; intros [| b k]; try reflexivity.
  simpl. f_equal. apply IH.
Qed.

Lemma lookup_zip_Some {A B} (l : list A) (k : list B) (i : nat) (a : A) (b : B) :
  zip l k !! i = Some (a, b) <-> l !! i = Some a /\ k !! i = Some b.
Proof.
  rewrite lookup_zip_with_Some. split.
  - intros (x & y & [= -> ->] & Hx & Hy). auto.
  - intros [Hx Hy]. eauto.
Qed.

(** The reports of a loop over the epochs [1 .. n] that ended with the
    means [means]. *)
Lemma history_of_means (n : Z) (means : list float) :
  stops_at_target (Z.to_nat n) means ->
  let history := zip (py_range 1 (n + 1)) means in
  length history = length means
  /\ history.*1 = py_range 1 (Z.of_nat (length history) + 1)
  /\ Z.of_nat (length history) <= Z.max 0 n
  /\ (forall i e m, history !! i = Some (e, m) ->
        e = Z.of_nat i + 1 /\ means !! i = Some m)
  /\ (forall i e m, history !! i = Some (e, m) -> fge m 99.99 = true ->
        S i = length history)
  /\ (Z.of_nat (length history) < n ->
      exists e m, last history = Some (e, m) /\ fge m 99.99 = true).
Proof.
  intros (Hlen & Hstop & Hshort) history.
  assert (Hrange : length (py_range 1 (n + 1)) = Z.to_nat n).
  { rewrite length_py_range. f_equal. lia. }
  assert (Hhist : length history = length means).
  { subst history. rewrite length_zip, Hrange. lia. }
  assert (Hlook : forall i e m, history !! i = Some (e, m) ->
                    e = Z.of_nat i + 1 /\ means !! i = Some m).
  { intros i e m Hi. apply lookup_zip_Some in Hi as [He Hm].
    apply lookup_py_range in He as [-> _]. split; [lia | exact Hm]. }
  split; [exact Hhist |]. split.
  { subst history. rewrite fst_zip_take, length_zip, Hrange.
    replace (Z.to_nat n `min` length means)%nat with (length means) by lia.
    rewrite take_py_range; [f_equal; lia |].
    replace (n + 1 - 1) with n by lia. exact Hlen. }
  split; [lia |]. split; [exact Hlook |]. split.
  { intros i e m Hi Hfge. rewrite Hhist.
    exact (Hstop i m (proj2 (Hlook i e m Hi)) Hfge). }
  intros Hlt. destruct Hshort as (m & Hlast & Hfge); [lia |].
  rewrite last_lookup in Hlast.
  assert (Hsome : is_Some (history !! pred (length means))).
  { apply lookup_lt_is_Some. rewrite Hhist.
    apply lookup_lt_Some in Hlast. exact Hlast. }
  destruct Hsome as [[e m'] He].
  destruct (Hlook _ _ _ He) as [_ Hm'].
  assert (m' = m) by congruence. subst m'.
  exists e, m. split; [| exact Hfge].
  rewrite last_lookup, Hhist. exact He.
Qed.

Section TrainableFacts.
Context `{E : Engine}.



End TrainableFacts.



Lemma get_learning_rate_mono (self : ImgConvNets) (a b : float) :
  lr_adaptive self = true ->
  PrimFloat.leb a b = true ->
  PrimFloat.leb (_get_learning_rate self b) (_get_learning_rate self a) = true.
Proof.
  intros Hadaptive Hab. unfold _get_learning_rate. rewrite Hadaptive. simpl.
  pose proof (fun t => fge_mono t a b Hab) as Hup.
  repeat match goal with
  | |- context [fge a ?t] =>
      let Ha := fresh "Ha" in
      destruct (fge a t) eqn:Ha; [ rewrite (Hup t Ha) | ]
  end;
  repeat match goal with
  | |- context [fge b ?t] => destruct (fge b t)
  end; vm_compute; reflexivity.
Qed.

Lemma images_of_appended (c cl : nat) (cols : Z) (batch : list (list float)) :
  cols = Z.of_nat c ->
  images_of (c + cl) cols batch
  = Mat c ((fun r => py_slice r None (Some cols)) <$> batch).
Proof.
  intros ->. unfold images_of. f_equal. unfold slice_bound.
  destruct (Z.ltb_spec (Z.of_nat c) 0); lia.
Qed.

Section TrainableFeeds.
Context `{E : Engine}.
Variables (self : ImgConvNets) (c cl : nat) (rows lrows : list (list float)).
Variables (train_dir result_file : string) (sigma : list nat).
Hypothesis Hok : trainable self c cl rows lrows sigma.

(** A step of the run belongs to a reported epoch, and is the step the
    code runs there. *)
Lemma train_step_in_history (e s : Z) (imgs labs : ndarray) (lr kp : float) :
  let run := train self (Mat c rows) (Mat cl lrows) train_dir result_file sigma in
  let history := printed run.1 in
  let train_set := np_random_permutation sigma (zip_with app rows lrows) in
  Step e s imgs labs lr kp ∈ run.1 ->
  0 <= s < - (- Z.of_nat (length rows) / batch_size self)
  /\ exists (i : nat) (m : float),
       history !! i = Some (e, m)
       /\ e = Z.of_nat i + 1
       /\ Printed e (_get_learning_rate self (last_accu_at 0%float i history)) m ∈ run.1
       /\ Step e s imgs labs lr kp
          = step_event self (c + cl) train_set (Z.of_nat c) e
              (_get_learning_rate self (last_accu_at 0%float i history)) s.
Proof.
  intros run history train_set Hin.
  destruct (train_run_events self c cl rows lrows train_dir result_file sigma Hok)
    as (means & Hrun & Hstops). fold run in Hrun.
  assert (Hhist : history = zip (py_range 1 (num_epoches self + 1)) means).
  { subst history. rewrite Hrun. cbn [fst].
    rewrite printed_app, printed_run_events. reflexivity. }
  rewrite Hhist. rewrite Hrun in Hin |- *. cbn [fst] in Hin |- *.
  apply elem_of_app in Hin as [Hin | Hin].
  { rewrite !elem_of_cons, elem_of_nil in Hin.
    destruct Hin as [Hin | [Hin | []]]; discriminate. }
  apply step_of_run_events in Hin as (Hs & i & m & Hi & Heq).
  apply elem_of_py_range in Hs. split; [lia |].
  exists i, m. split; [exact Hi |].
  destruct (history_of_means (num_epoches self) means Hstops)
    as (_ & _ & _ & Hlook & _).
  split; [exact (proj1 (Hlook i e m Hi)) |]. split; [| exact Heq].
  apply elem_of_app. right. apply run_events_report. exact Hi.
Qed.

(** Every reported epoch has run each of its steps. *)
Lemma train_history_steps (i : nat) (e : Z) (m : float) (s : Z) :
  let run := train self (Mat c rows) (Mat cl lrows) train_dir result_file sigma in
  let history := printed run.1 in
  let train_set := np_random_permutation sigma (zip_with app rows lrows) in
  history !! i = Some (e, m) ->
  s ∈ py_range 0 (- (- Z.of_nat (length rows) / batch_size self)) ->
  step_event self (c + cl) train_set (Z.of_nat c) e
    (_get_learning_rate self (last_accu_at 0%float i history)) s ∈ run.1.
Proof.
  intros run history train_set Hi Hs.
  destruct (train_run_events self c cl rows lrows train_dir result_file sigma Hok)
    as (means & Hrun & Hstops). fold run in Hrun.
  assert (Hhist : history = zip (py_range 1 (num_epoches self + 1)) means).
  { subst history. rewrite Hrun. cbn [fst].
    rewrite printed_app, printed_run_events. reflexivity. }
  rewrite Hhist in Hi |- *. rewrite Hrun. cbn [fst].
  apply elem_of_app. right. exact (run_events_steps _ _ _ _ _ _ _ _ _ _ _ _ _ Hi Hs).
Qed.

End TrainableFeeds.

Section TrainableSteps.
Context `{E : Engine}.

(** X6: on inputs [train] goes through with, every step of the run feeds
    the configured keep probability and the rate of its epoch: the rate
    [_get_learning_rate] gives for [last_accu], the mean accuracy reported
    for the epoch before (0.0 in the first epoch), which is also the rate in
    the report of the epoch; the epoch is the [i+1]-th, and the step is one
    of [0 .. ceil(rows/batch_size) - 1]. *)
Theorem train_step_rates (self : ImgConvNets) (c cl : nat)
    (rows lrows : list (list float)) (train_dir result_file : string)
    (sigma : list nat) :
  trainable self c cl rows lrows sigma ->
  let run := train self (Mat c rows) (Mat cl lrows) train_dir result_file sigma in
  let history := printed run.1 in
  forall (e s : Z) (imgs labs : ndarray) (lr kp : float),
    Step e s imgs labs lr kp ∈ run.1 ->
    kp = keep_prob self
    /\ 0 <= s < - (- Z.of_nat (length rows) / batch_size self)
    /\ exists (i : nat) (m : float),
         history !! i = Some (e, m)
         /\ e = Z.of_nat i + 1
         /\ lr = _get_learning_rate self (last_accu_at 0%float i history)
         /\ Printed e lr m ∈ run.1.
Proof.
  intros Hok run history e s imgs labs lr kp Hin.
  destruct (train_step_in_history self c cl rows lrows train_dir result_file sigma
              Hok e s imgs labs lr kp Hin)
    as (Hs & i & m & Hi & He & Hreport & Heq).
  unfold step_event in Heq. injection Heq as _ _ Hlr Hkp.
  split; [exact Hkp |]. split; [exact Hs |].
  exists i, m. fold run history in Hi, Hreport |- *. rewrite Hlr. auto.
Qed.

(** X7: with [lr_adaptive] on, as long as the mean accuracy of an epoch is
    not below the one before it, the rate fed in the next epoch is not above
    the rate fed in this one. *)
Theorem train_rates_follow_accuracy (self : ImgConvNets) (c cl : nat)
    (rows lrows : list (list float)) (train_dir result_file : string)
    (sigma : list nat) :
  trainable self c cl rows lrows sigma ->
  lr_adaptive self = true ->
  let run := train self (Mat c rows) (Mat cl lrows) train_dir result_file sigma in
  let history := printed run.1 in
  forall (i : nat) (e e' : Z) (m m' : float)
         (s s' : Z) (imgs labs imgs' labs' : ndarray) (lr lr' kp kp' : float),
    history !! i = Some (e, m) ->
    history !! S i = Some (e', m') ->
    PrimFloat.leb (last_accu_at 0%float i history) m = true ->
    Step e s imgs labs lr kp ∈ run.1 ->
    Step e' s' imgs' labs' lr' kp' ∈ run.1 ->
    PrimFloat.leb lr' lr = true.
Proof.
  intros Hok Hadaptive run history i e e' m m' s s' imgs labs imgs' labs' lr lr' kp kp'
    Hi Hi' Hup Hin Hin'.
  destruct (train_step_in_history self c cl rows lrows train_dir result_file sigma
              Hok e s imgs labs lr kp Hin)
    as (_ & i0 & m0 & Hi0 & He0 & _ & Heq).
  destruct (train_step_in_history self c cl rows lrows train_dir result_file sigma
              Hok e' s' imgs' labs' lr' kp' Hin')
    as (_ & i1 & m1 & Hi1 & He1 & _ & Heq').
  fold run history in Hi0, Hi1, Heq, Heq'.
  assert (Hepochs : history.*1 !! i = Some e /\ history.*1 !! S i = Some e').
  { rewrite !list_lookup_fmap, Hi, Hi'. auto. }
  destruct (train_run_events self c cl rows lrows train_dir result_file sigma Hok)
    as (means & Hrun & Hstops). fold run in Hrun.
  assert (Hhist : history = zip (py_range 1 (num_epoches self + 1)) means).
  { subst history. rewrite Hrun. cbn [fst].
    rewrite printed_app, printed_run_events. reflexivity. }
  destruct (history_of_means (num_epoches self) means Hstops)
    as (_ & _ & _ & Hlook & _). rewrite <- Hhist in Hlook.
  assert (i0 = i) by (pose proof (proj1 (Hlook _ _ _ Hi)); lia).
  assert (i1 = S i) by (pose proof (proj1 (Hlook _ _ _ Hi')); lia).
  subst i0 i1.
  unfold step_event in Heq, Heq'.
  injection Heq as _ _ -> _. injection Heq' as _ _ -> _.
  cbn [last_accu_at]. rewrite Hi. cbn [from_option snd].
  exact (get_learning_rate_mono self _ _ Hadaptive Hup).
Qed.

End TrainableSteps.

Lemma appended_rows (c cl : nat) (rows lrows : list (list float)) (row : list float) :
  Forall (fun r => length r = c) rows ->
  Forall (fun r => length r = cl) lrows ->
  row ∈ zip_with app rows lrows ->
  exists (j : nat) (f lbl : list float),
    rows !! j = Some f /\ lrows !! j = Some lbl /\ row = f ++ lbl
    /\ length f = c /\ length lbl = cl.
Proof.
  intros Hrows Hlrows Hrow. apply list_elem_of_lookup in Hrow as [j Hj].
  apply lookup_zip_with_Some in Hj as (f & lbl & -> & Hf & Hl).
  rewrite Forall_forall in Hrows, Hlrows.
  exists j, f, lbl. repeat split; try assumption.
  - apply Hrows, list_elem_of_lookup. eauto.
  - apply Hlrows, list_elem_of_lookup. eauto.
Qed.

Section TrainableSamples.
Context `{E : Engine}.

(** X8: with one label per sample, every step of a run of [train] feeds
    between 1 and [batch_size] images of [img_height * img_width] values
    each, and as many labels; image [k] and label [k] of the feed are the
    features and the label of one and the same sample of the input. *)
Theorem train_feeds_paired_samples (self : ImgConvNets) (c : nat)
    (rows lrows : list (list float)) (train_dir result_file : string)
    (sigma : list nat) :
  trainable self c 1 rows lrows sigma ->
  let run := train self (Mat c rows) (Mat 1 lrows) train_dir result_file sigma in
  forall (e s : Z) (imgs labs : ndarray) (lr kp : float),
    Step e s imgs labs lr kp ∈ run.1 ->
    exists (feed_rows : list (list float)) (feed_labels : list float),
      imgs = Mat c feed_rows
      /\ labs = Vec feed_labels
      /\ 1 <= Z.of_nat (length feed_rows) <= batch_size self
      /\ length feed_labels = length feed_rows
      /\ forall k : nat, (k < length feed_rows)%nat ->
           exists f l, feed_rows !! k = Some f
                       /\ feed_labels !! k = Some l
                       /\ paired rows lrows f l
                       /\ Z.of_nat (length f) = img_height self * img_width self.
Proof.
  intros Hok run e s imgs labs lr kp Hin.
  destruct (train_step_in_history self c 1 rows lrows train_dir result_file sigma
              Hok e s imgs labs lr kp Hin)
    as (Hs & i & m & _ & _ & _ & Heq).
  destruct (trainable_train_set self c 1 rows lrows sigma Hok)
    as (Hperm & _ & Hne & _).
  destruct Hok as (Hrows & Hlrows & Hcols & Hlen & _ & Hbs & _).
  set (train_set := np_random_permutation sigma (zip_with app rows lrows)) in *.
  destruct (batch_length_bounds self train_set (s * batch_size self) Hne Hbs
              ltac:(nia))
    as (batch & Hbatch & Hsub & _ & Hbounds).
  unfold step_event, batch_at in Heq. rewrite Hbatch in Heq.
  injection Heq as -> -> _ _.
  assert (Hglued : Forall (fun row => exists f l, row = f ++ [l] /\ paired rows lrows f l)
                     batch).
  { apply Forall_forall. intros row Hrow.
    apply (elem_of_appended rows lrows row Hlrows).
    rewrite <- Hperm. exact (Hsub row Hrow). }
  destruct (batch_rows_glued c rows lrows batch Hrows Hglued) as (fl & -> & Hfl).
  destruct (feeds_of_glued c fl) as [Himages Hlabels].
  { eapply Forall_impl; [exact Hfl |]. intros p [Hp _]. exact Hp. }
  rewrite images_of_appended in Himages |- * by reflexivity.
  cbn [mat_rows] in Himages. unfold labels_of in Hlabels |- *.
  cbn [vec_items] in Hlabels.
  rewrite Himages, Hlabels.
  exists (fst <$> fl), (snd <$> fl).
  rewrite !length_fmap in *.
  split; [reflexivity |]. split; [reflexivity |]. split; [exact Hbounds |].
  split; [reflexivity |].
  intros k Hk. destruct (lookup_lt_is_Some_2 fl k Hk) as [[f l] Hp].
  exists f, l. rewrite !list_lookup_fmap, Hp. simpl.
  split; [reflexivity |]. split; [reflexivity |].
  rewrite Forall_forall in Hfl.
  destruct (Hfl (f, l)) as [Hf Hpair]; [apply list_elem_of_lookup; eauto |].
  simpl in Hf. split; [exact Hpair | lia].
Qed.

(** X9: every epoch that [train] reports has fed every sample of the input
    in one of its steps. *)
Theorem train_epoch_feeds_every_sample (self : ImgConvNets) (c cl : nat)
    (rows lrows : list (list float)) (train_dir result_file : string)
    (sigma : list nat) :
  trainable self c cl rows lrows sigma ->
  let run := train self (Mat c rows) (Mat cl lrows) train_dir result_file sigma in
  forall (i : nat) (e : Z) (m : float) (j : nat) (f : list float),
    printed run.1 !! i = Some (e, m) ->
    rows !! j = Some f ->
    exists (s : Z) (imgs labs : ndarray) (lr kp : float),
      Step e s imgs labs lr kp ∈ run.1 /\ f ∈ mat_rows imgs.
Proof.
  intros Hok run i e m j f Hi Hf.
  destruct (trainable_train_set self c cl rows lrows sigma Hok)
    as (Hperm & Hts & Hne & _).
  pose proof Hok as (Hrows & _ & _ & Hlen & _ & Hbs & _).
  set (train_set := np_random_permutation sigma (zip_with app rows lrows)) in *.
  destruct (lookup_lt_is_Some_2 lrows j) as [lbl Hlbl].
  { rewrite <- Hlen. apply lookup_lt_Some in Hf. exact Hf. }
  assert (Hrow : f ++ lbl ∈ train_set).
  { rewrite Hperm. apply list_elem_of_lookup. exists j.
    apply lookup_zip_with_Some. eauto 6. }
  apply list_elem_of_lookup in Hrow as [j' Hj'].
  destruct (batch_of_row self train_set j' Hbs (lookup_lt_Some _ _ _ Hj'))
    as (epoch_steps & batch & Hceil & Hstep & Hbatch & Hat).
  assert (Hsteps : epoch_steps = - (- Z.of_nat (length rows) / batch_size self)).
  { unfold py_ceil_div in Hceil. destruct (batch_size self =? 0); [discriminate |].
    injection Hceil as <-. rewrite Hts. reflexivity. }
  subst epoch_steps.
  pose proof (train_history_steps self c cl rows lrows train_dir result_file sigma
                Hok i e m _ Hi Hstep) as Hin.
  fold run train_set in Hin. unfold step_event in Hin.
  eexists _, _, _, _, _. split; [exact Hin |].
  unfold batch_at. rewrite Hbatch.
  rewrite images_of_appended by reflexivity. cbn [mat_rows].
  apply list_elem_of_fmap. exists (f ++ lbl). split.
  - rewrite Forall_forall in Hrows.
    rewrite <- (Hrows f) by (apply list_elem_of_lookup; eauto).
    symmetry. apply py_slice_features.
  - apply list_elem_of_lookup. eexists. rewrite Hat. exact Hj'.
Qed.

End TrainableSamples.

(** ** Which checkpoint an epoch writes *)

Lemma save_kinds_app (e : Z) (a b : list event) :
  save_kinds e (a ++ b) = save_kinds e a ++ save_kinds e b.
Proof. unfold save_kinds. apply omap_app. Qed.

Lemma save_kinds_steps (e e' : Z) (evs : list event) :
  Forall (fun ev => steps_of e ev = true) evs -> save_kinds e' evs = [].
Proof.
  induction 1 as [| ev evs Hev _ IH]; [reflexivity |].
  destruct ev; simpl in Hev; try discriminate. exact IH.
Qed.

Lemma save_kinds_save_events (self : ImgConvNets) (f : string) (e e' : Z) (m l : float) :
  save_kinds e' (save_events self f e m l)
  = if bool_decide (e = e') then save_choice self f e m l else [].
Proof.
  unfold save_events, save_choice.
  destruct (fge m 99.68 && fgt m l); [| destruct (bool_decide (e = num_epoches self - 1))];
    simpl; destruct (bool_decide (e = e')); reflexivity.
Qed.

Lemma save_kinds_epoch_part (self : ImgConvNets) (f : string) (e e' : Z) (lr m l : float)
    (step_evs : list event) :
  Forall (fun ev => steps_of e ev = true) step_evs ->
  save_kinds e' (step_evs ++ save_events self f e m l ++ [Printed e lr m])
  = if bool_decide (e = e') then save_choice self f e m l else [].
Proof.
  intros Hsteps.
  rewrite !save_kinds_app, (save_kinds_steps e e' _ Hsteps), save_kinds_save_events.
  simpl. apply app_nil_r.
Qed.

Lemma trace_save_kinds_outside (self : ImgConvNets) (f : string) (steps : nat)
    (last : float) (epochs : list Z) (evs : list event) (r : result unit) :
  epochs_trace self f steps last epochs evs r ->
  forall e', e' ∉ epochs -> save_kinds e' evs = [].
Proof.
  induction 1 as [last | last e rest step_evs mean Hlen Hall Hbreak
                 | last e rest step_evs mean evs r Hlen Hall Hgo Hrest IH
                 | last e rest step_evs Hlen Hall]; intros e' Hout.
  - reflexivity.
  - rewrite save_kinds_epoch_part by exact Hall.
    rewrite bool_decide_eq_false_2; [reflexivity |]. intros ->. apply Hout. left.
  - rewrite save_kinds_app, save_kinds_epoch_part by exact Hall.
    rewrite bool_decide_eq_false_2 by (intros ->; apply Hout; left). simpl.
    apply IH. intros Hin. apply Hout. right. exact Hin.
  - exact (save_kinds_steps e e' _ Hall).
Qed.

Lemma trace_save_kinds (self : ImgConvNets) (f : string) (steps : nat)
    (last : float) (epochs : list Z) (evs : list event) (r : result unit) :
  epochs_trace self f steps last epochs evs r ->
  NoDup epochs ->
  forall i e m, printed evs !! i = Some (e, m) ->
    save_kinds e evs = save_choice self f e m (last_accu_at last i (printed evs)).
Proof.
  induction 1 as [last | last e rest step_evs mean Hlen Hall Hbreak
                 | last e rest step_evs mean evs r Hlen Hall Hgo Hrest IH
                 | last e rest step_evs Hlen Hall]; intros Hnd i e0 m0 Hi.
  - discriminate.
  - destruct (epoch_part self f e (_get_learning_rate self last) mean last _ Hall)
      as (Hp & _ & _). rewrite Hp in Hi |- *.
    rewrite save_kinds_epoch_part by exact Hall.
    destruct i as [| i]; [| discriminate]. injection Hi as <- <-.
    rewrite bool_decide_eq_true_2 by reflexivity. reflexivity.
  - apply NoDup_cons in Hnd as [Hfresh Hnd].
    rewrite printed_app in Hi |- *.
    rewrite save_kinds_app, save_kinds_epoch_part by exact Hall.
    destruct (epoch_part self f e (_get_learning_rate self last) mean last _ Hall)
      as (Hp & _ & _). rewrite Hp in Hi |- *.
    destruct i as [| i].
    + injection Hi as <- <-.
      rewrite bool_decide_eq_true_2 by reflexivity.
      rewrite (trace_save_kinds_outside _ _ _ _ _ _ _ Hrest e Hfresh).
      apply app_nil_r.
    + simpl in Hi.
      assert (He0 : e0 ∈ rest).
      { apply (trace_printed_inside _ _ _ _ _ _ _ Hrest e0 m0).
        apply list_elem_of_lookup. exists i. exact Hi. }
      rewrite bool_decide_eq_false_2 by (intros ->; contradiction). simpl.
      rewrite (IH Hnd i e0 m0 Hi). f_equal.
      change ([(e, mean)] ++ printed evs) with ((e, mean) :: printed evs).
      symmetry. apply last_accu_at_cons. rewrite Hi. eauto.
  - rewrite (proj1 (steps_only e step_evs Hall)) in Hi. discriminate.
Qed.

Section Checkpoints.
Context `{E : Engine}.

(** X10: [train] writes at most one checkpoint at the end of an epoch, always
    under [os.path.join(train_dir, result_file)]: with the epoch as global
    step when the mean accuracy is at least 99.68 and above [last_accu], and
    otherwise, in epoch [num_epoches - 1] only, without a global step.  So
    the checkpoint of the plain name is written only if epoch
    [num_epoches - 1] is reached and does not qualify for the other one. *)
Theorem train_checkpoint_kinds (self : ImgConvNets) (img_features true_labels : ndarray)
    (train_dir result_file : string) (sigma : list nat)
    (i : nat) (e : Z) (mean_accu : float) :
  let run := train self img_features true_labels train_dir result_file sigma in
  let history := printed run.1 in
  let save_file := os_path_join train_dir result_file in
  history !! i = Some (e, mean_accu) ->
  save_kinds e run.1
  = if fge mean_accu 99.68 && fgt mean_accu (last_accu_at 0%float i history)
    then [(save_file, Some e)]
    else if bool_decide (e = num_epoches self - 1) then [(save_file, None)]
    else [].
Proof.
  intros run history save_file Hi.
  change (save_kinds e run.1
          = save_choice self save_file e mean_accu (last_accu_at 0%float i history)).
  destruct (train_shape self img_features true_labels train_dir result_file sigma)
    as [Hrun | [Hrun | (steps & evs & Hevs & Htrace)]]; fold run in Hrun || idtac.
  - subst history. rewrite Hrun in Hi. discriminate.
  - subst history. rewrite Hrun in Hi. discriminate.
  - fold run in Hevs, Htrace. subst history. rewrite Hevs in Hi |- *.
    change (printed ([GraphBuilt (train_graph self); SessionOpened] ++ evs))
      with (printed evs) in *.
    change (save_kinds e ([GraphBuilt (train_graph self); SessionOpened] ++ evs))
      with (save_kinds e evs).
    exact (trace_save_kinds _ _ _ _ _ _ _ Htrace (NoDup_py_range _ _) i e mean_accu Hi).
Qed.

End Checkpoints.

Lemma train_checkpoint_kinds_witness :
  let run := train (E := steady_engine) adaptive_net three_images three_labels
               "d" "f" [2; 0; 1]%nat in
  let history := printed run.1 in
  history !! 1%nat = Some (2, 50%float)
  /\ save_kinds 2 run.1
     = if fge 50 99.68 && fgt 50 (last_accu_at 0%float 1 history)
       then [(os_path_join "d" "f", Some 2)]
       else if bool_decide (2 = num_epoches adaptive_net - 1)
       then [(os_path_join "d" "f", None)]
       else [].
Proof.
  intros run history.
  assert (H1 : history !! 1%nat = Some (2, 50%float)) by (vm_compute; reflexivity).
  split; [exact H1 |].
  exact (train_checkpoint_kinds (E := steady_engine) adaptive_net three_images
           three_labels "d" "f" [2; 0; 1]%nat 1 2 50%float H1).
Defined.

(** ** Runs that train nothing *)

Lemma py_range_nil (lo hi : Z) : hi <= lo -> py_range lo hi = [].
Proof.
  intros Hle. unfold py_range. replace (Z.to_nat (hi - lo)) with O by lia. reflexivity.
Qed.

Lemma py_range_cons (lo hi : Z) : lo < hi -> py_range lo hi = lo :: py_range (lo + 1) hi.
Proof.
  intros Hlt. unfold py_range.
  replace (Z.to_nat (hi - lo)) with (S (Z.to_nat (hi - (lo + 1)))) by lia.
  rewrite <- cons_seq, fmap_cons, <- fmap_S_seq, <- list_fmap_compose.
  f_equal; [lia |]. apply list_fmap_ext. intros _ i _. simpl. lia.
Qed.

Section IdleRuns.
Context `{E : Engine}.
Variables (self : ImgConvNets) (c cl : nat) (rows lrows : list (list float)).
Variables (train_dir result_file : string) (sigma : list nat).

(** Once the inputs are accepted, [train] builds its graph, opens its
    session, and enters the loop unless the batch size is zero. *)
Lemma train_enters_loop :
  Z.of_nat c = img_height self * img_width self ->
  length rows = length lrows ->
  let train_set := np_random_permutation sigma (zip_with app rows lrows) in
  let setup := [GraphBuilt (train_graph self); SessionOpened] in
  train self (Mat c rows) (Mat cl lrows) train_dir result_file sigma
  = match py_ceil_div (Z.of_nat (length train_set)) (batch_size self) with
    | Raise x => (setup, Raise x)
    | Ok epoch_steps =>
        let '(evs, r) :=
          epoch_loop self (c + cl) train_set (Z.of_nat c) epoch_steps
            (os_path_join train_dir result_file)
            (py_range 1 (num_epoches self + 1))
            (global_variables_initializer (train_graph self)) 0%float in
        (setup ++ evs, r)
    end.
Proof.
  intros Hcols Hlen train_set setup. unfold train. cbn [shape unpack2].
  rewrite (proj2 (Z.eqb_eq _ _) Hcols). cbn [negb].
  unfold np_append_axis1. rewrite decide_True by exact Hlen. reflexivity.
Qed.

(** An epoch without steps ends in the division [0/0] of its mean. *)
Lemma epoch_loop_without_steps (ncols : nat) (train_set : list (list float))
    (cols epoch_steps : Z) (save_file : string) (epochs : list Z)
    (sess : Sess) (last_accu : float) :
  epoch_steps <= 0 -> epochs <> [] ->
  epoch_loop self ncols train_set cols epoch_steps save_file epochs sess last_accu
  = ([], Raise ZeroDivisionError).
Proof.
  intros Hsteps Hne. destruct epochs as [| epoch rest]; [congruence |].
  simpl. rewrite py_range_nil by lia. reflexivity.
Qed.

End IdleRuns.

Section IdleRunTheorems.
Context `{E : Engine}.

(** X11: with [batch_size = 0], on accepted inputs, [train] builds the graph
    and opens the session, then raises [ZeroDivisionError] before any step
    or checkpoint. *)
Theorem train_zero_batch_size (self : ImgConvNets) (c cl : nat)
    (rows lrows : list (list float)) (train_dir result_file : string)
    (sigma : list nat) :
  Z.of_nat c = img_height self * img_width self ->
  length rows = length lrows ->
  batch_size self = 0 ->
  train self (Mat c rows) (Mat cl lrows) train_dir result_file sigma
  = ([GraphBuilt (train_graph self); SessionOpened], Raise ZeroDivisionError).
Proof.
  intros Hcols Hlen Hbs.
  rewrite (train_enters_loop self c cl rows lrows train_dir result_file sigma Hcols Hlen).
  unfold py_ceil_div. rewrite Hbs. reflexivity.
Qed.

(** X12: with [num_epoches <= 0] and a batch size other than zero, on
    accepted inputs, [train] builds the graph and opens the session, runs
    no step, writes no checkpoint, and returns without an exception. *)
Theorem train_without_epochs (self : ImgConvNets) (c cl : nat)
    (rows lrows : list (list float)) (train_dir result_file : string)
    (sigma : list nat) :
  Z.of_nat c = img_height self * img_width self ->
  length rows = length lrows ->
  batch_size self <> 0 ->
  num_epoches self <= 0 ->
  train self (Mat c rows) (Mat cl lrows) train_dir result_file sigma
  = ([GraphBuilt (train_graph self); SessionOpened], Ok ()).
Proof.
  intros Hcols Hlen Hbs Hepochs.
  rewrite (train_enters_loop self c cl rows lrows train_dir result_file sigma Hcols Hlen).
  unfold py_ceil_div. destruct (Z.eqb_spec (batch_size self) 0); [contradiction |].
  rewrite py_range_nil by lia. reflexivity.
Qed.

(** X13: with at least one epoch asked for, on accepted inputs that hold no
    sample, or with a negative batch size, [train] builds the graph and
    opens the session, runs no step, and raises [ZeroDivisionError] when it
    takes the mean accuracy of the first epoch. *)
Theorem train_on_nothing (self : ImgConvNets) (c cl : nat)
    (rows lrows : list (list float)) (train_dir result_file : string)
    (sigma : list nat) :
  Z.of_nat c = img_height self * img_width self ->
  length rows = length lrows ->
  1 <= num_epoches self ->
  (rows = [] /\ batch_size self <> 0) \/ batch_size self < 0 ->
  train self (Mat c rows) (Mat cl lrows) train_dir result_file sigma
  = ([GraphBuilt (train_graph self); SessionOpened], Raise ZeroDivisionError).
Proof.
  intros Hcols Hlen Hepochs Hidle.
  rewrite (train_enters_loop self c cl rows lrows train_dir result_file sigma Hcols Hlen).
  set (train_set := np_random_permutation sigma (zip_with app rows lrows)).
  unfold py_ceil_div.
  destruct (Z.eqb_spec (batch_size self) 0) as [Hz | Hnz]; [lia |].
  rewrite epoch_loop_without_steps; [reflexivity | |].
  - destruct Hidle as [[-> _] | Hneg].
    + subst train_set. unfold np_random_permutation.
      assert (Hnil : omap (fun i : nat => zip_with app [] lrows !! i) sigma
                     = ([] : list (list float))).
      { induction sigma as [| i s IH]; [reflexivity | exact IH]. }
      rewrite Hnil. simpl length. change (- Z.of_nat 0) with 0.
      rewrite Z.div_0_l by exact Hnz. lia.
    + assert (0 <= - Z.of_nat (length train_set) / batch_size self).
      { rewrite <- (Z.opp_involutive (batch_size self)).
        rewrite Z.div_opp_opp by lia. apply Z.div_pos; lia. }
      lia.
  - rewrite py_range_cons by lia. discriminate.
Qed.

End IdleRunTheorems.

Lemma train_zero_batch_size_witness :
  (Z.of_nat 4 = img_height (tiny_net 0 3) * img_width (tiny_net 0 3)
   /\ length three_rows = length three_label_rows
   /\ batch_size (tiny_net 0 3) = 0)
  /\ train (E := steady_engine) (tiny_net 0 3) (Mat 4 three_rows) (Mat 1 three_label_rows)
       "d" "f" [2; 0; 1]%nat
     = ([GraphBuilt (train_graph (E := steady_engine) (tiny_net 0 3)); SessionOpened],
        Raise ZeroDivisionError).
Proof.
  split; [repeat split |].
  exact (train_zero_batch_size (E := steady_engine) (tiny_net 0 3) 4 1 three_rows
           three_label_rows "d" "f" [2; 0; 1]%nat eq_refl eq_refl eq_refl).
Defined.

Lemma train_without_epochs_witness :
  (Z.of_nat 4 = img_height (tiny_net 2 0) * img_width (tiny_net 2 0)
   /\ length three_rows = length three_label_rows
   /\ batch_size (tiny_net 2 0) <> 0
   /\ num_epoches (tiny_net 2 0) <= 0)
  /\ train (E := steady_engine) (tiny_net 2 0) (Mat 4 three_rows) (Mat 1 three_label_rows)
       "d" "f" [2; 0; 1]%nat
     = ([GraphBuilt (train_graph (E := steady_engine) (tiny_net 2 0)); SessionOpened],
        Ok ()).
Proof.
  assert (H3 : batch_size (tiny_net 2 0) <> 0) by (simpl; lia).
  assert (H4 : num_epoches (tiny_net 2 0) <= 0) by (simpl; lia).
  split; [repeat split; assumption |].
  exact (train_without_epochs (E := steady_engine) (tiny_net 2 0) 4 1 three_rows
           three_label_rows "d" "f" [2; 0; 1]%nat eq_refl eq_refl H3 H4).
Defined.

Lemma train_on_nothing_witness :
  (Z.of_nat 4 = img_height (tiny_net 2 3) * img_width (tiny_net 2 3)
   /\ length ([] : list (list float)) = length ([] : list (list float))
   /\ 1 <= num_epoches (tiny_net 2 3)
   /\ ((([] : list (list float)) = [] /\ batch_size (tiny_net 2 3) <> 0)
       \/ batch_size (tiny_net 2 3) < 0))
  /\ train (E := steady_engine) (tiny_net 2 3) (Mat 4 []) (Mat 1 []) "d" "f" []
     = ([GraphBuilt (train_graph (E := steady_engine) (tiny_net 2 3)); SessionOpened],
        Raise ZeroDivisionError).
Proof.
  assert (H3 : 1 <= num_epoches (tiny_net 2 3)) by (simpl; lia).
  assert (H4 : (([] : list (list float)) = [] /\ batch_size (tiny_net 2 3) <> 0)
               \/ batch_size (tiny_net 2 3) < 0)
    by (left; split; [reflexivity | simpl; lia]).
  split; [repeat split; assumption |].
  exact (train_on_nothing (E := steady_engine) (tiny_net 2 3) 4 1 [] [] "d" "f" []
           eq_refl eq_refl H3 H4).
Defined.

Example train_negative_batch_size :
  train (E := steady_engine) (tiny_net (-2) 3) three_images three_labels
    "d" "f" [2; 0; 1]%nat
  = ([GraphBuilt (train_graph (E := steady_engine) (tiny_net (-2) 3)); SessionOpened],
     Raise ZeroDivisionError).
Proof. reflexivity. Qed.

(** ** Prediction under another scope *)

Lemma string_length_app (a b : string) :
  String.length (a +:+ b) = (String.length a + String.length b)%nat.
Proof.
  induction a as [| x a IH]; [reflexivity |].
  change (S (String.length (a +:+ b)) = S (String.length a + String.length b)).
  rewrite IH. reflexivity.
Qed.

Lemma string_app_inv_tail (a b x : string) : a +:+ x = b +:+ x -> a = b.
Proof.
  revert b. induction a as [| ca a IH]; intros [| cb b] Heq.
  - reflexivity.
  - apply (f_equal String.length) in Heq.
    rewrite !string_length_app in Heq. simpl in Heq. lia.
  - apply (f_equal String.length) in Heq.
    rewrite !string_length_app in Heq. simpl in Heq. lia.
  - change (String ca (a +:+ x) = String cb (b +:+ x)) in Heq.
    injection Heq as -> Heq. f_equal. exact (IH b Heq).
Qed.

Lemma ends_with_app_longer (suffix s t : string) :
  (String.length suffix <= String.length t)%nat ->
  ends_with suffix (s +:+ t) = ends_with suffix t.
Proof.
  intros Hlen. induction s as [| c s IH]; [reflexivity |].
  rewrite ends_with_unfold.
  change (String c s +:+ t) with (String c (s +:+ t)).
  rewrite bool_decide_eq_false_2; [exact IH |].
  intros Heq. apply (f_equal String.length) in Heq.
  simpl in Heq. rewrite string_length_app in Heq. lia.
Qed.

Lemma get_add_to_collection_ne (k k' : string) (v : tensor) (g : graph) :
  k <> k' ->
  tf_get_collection k' (tf_add_to_collection k v g) = tf_get_collection k' g.
Proof.
  intros Hne. unfold tf_get_collection, tf_add_to_collection.
  rewrite lookup_insert_ne by exact Hne. reflexivity.
Qed.

Lemma scope_keys_apart (scope scope' a b : string) :
  (String.length b <= String.length a)%nat ->
  ends_with b a = false ->
  scope +:+ a <> scope' +:+ b.
Proof.
  intros Hlen Hends Heq.
  pose proof (ends_with_app b scope') as Htrue. rewrite <- Heq in Htrue.
  rewrite ends_with_app_longer in Htrue by exact Hlen. congruence.
Qed.

Section PredictScope.
Context `{E : Engine}.

(** X14: [predict] called with a scope other than the one the model was
    trained under finds the logits collection of that scope empty and
    raises [IndexError]. *)
Theorem predict_other_scope (self : ImgConvNets) (fs : gmap string file)
    (scope result_dir result_file : string) (sess : Sess)
    (img_features : ndarray) (k : Z) :
  fs !! os_path_join result_dir (result_file +:+ ".meta")
    = Some (MetaGraph (train_graph self)) ->
  fs !! os_path_join result_dir result_file = Some (VariableValues sess) ->
  scope <> model_scope self ->
  tf_get_collection (scope +:+ "logits") (train_graph self) = []
  /\ predict fs scope result_dir result_file img_features k = Raise IndexError.
Proof.
  intros Hmeta Hvalues Hscope.
  assert (Hempty : tf_get_collection (scope +:+ "logits") (train_graph self) = []).
  { unfold train_graph. destruct (train_ops self) as [[train_op loss] accuracy].
    rewrite get_add_to_collection_ne.
    2:{ intros Heq. apply string_app_inv_tail in Heq. congruence. }
    rewrite get_add_to_collection_ne
      by (apply scope_keys_apart; [simpl; lia | reflexivity]).
    rewrite get_add_to_collection_ne
      by (apply scope_keys_apart; [simpl; lia | reflexivity]).
    apply engine_collection_empty. rewrite !elem_of_cons. auto. }
  split; [exact Hempty |].
  unfold predict, tf_import_meta_graph, saver_restore.
  rewrite Hmeta, Hvalues. simpl. rewrite Hempty. reflexivity.
Qed.

End PredictScope.

Lemma predict_other_scope_witness :
  (checkpoint_files !! os_path_join "d" ("f" +:+ ".meta")
     = Some (MetaGraph (train_graph (E := steady_engine) adaptive_net))
   /\ checkpoint_files !! os_path_join "d" "f"
      = Some (VariableValues (4%nat : @Sess steady_engine))
   /\ "other"%string <> model_scope adaptive_net)
  /\ tf_get_collection ("other" +:+ "logits") (train_graph (E := steady_engine) adaptive_net)
     = []
  /\ predict (E := steady_engine) checkpoint_files "other" "d" "f" three_images 1
     = Raise IndexError.
Proof.
  assert (H1 : checkpoint_files !! os_path_join "d" ("f" +:+ ".meta")
               = Some (MetaGraph (train_graph (E := steady_engine) adaptive_net)))
    by reflexivity.
  assert (H2 : checkpoint_files !! os_path_join "d" "f"
               = Some (VariableValues (4%nat : @Sess steady_engine)))
    by reflexivity.
  assert (H3 : "other"%string <> model_scope adaptive_net) by discriminate.
  split; [auto |].
  exact (predict_other_scope (E := steady_engine) adaptive_net checkpoint_files
           "other" "d" "f" 4%nat three_images 1 H1 H2 H3).
Defined.

(** ** The models against each other *)

(** X15: the STCNN graph is the basic graph with the output of the
    spatial transformer fed to its first convolution in place of the
    reshaped images: every layer after the transformer has the sizes, names
    and start values of the basic model. *)
Theorem stcnn_is_basic_on_transformer (self : ImgConvNets) :
  let stcnn := _build_inference_graph_stcnn self images_placeholder keep_prob_placeholder in
  let basic := _build_inference_graph_basic self images_placeholder keep_prob_placeholder in
  let shaped_images :=
    tf_reshape images_placeholder [-1; img_height self; img_width self; 1] in
  first_conv_input basic = Some shaped_images
  /\ exists theta : tensor,
       first_conv_input stcnn
       = Some (transformer shaped_images theta (img_height self, img_width self))
       /\ stcnn
          = feed_first_conv
              (transformer shaped_images theta (img_height self, img_width self)) basic
       /\ feed_first_conv shaped_images stcnn = basic.
Proof.
  cbv zeta. split; [reflexivity |].
  eexists. split; [reflexivity |]. split; reflexivity.
Qed.

(** ** The configured rate under the adaptive schedule *)

Lemma get_learning_rate_with_rate (self : ImgConvNets) (rate a : float) :
  lr_adaptive self = true ->
  _get_learning_rate (with_learning_rate self rate) a = _get_learning_rate self a.
Proof.
  intros Hadaptive. unfold _get_learning_rate.
  change (lr_adaptive (with_learning_rate self rate)) with (lr_adaptive self).
  rewrite Hadaptive. reflexivity.
Qed.

Section AdaptiveRate.
Context `{E : Engine}.
Variables (self : ImgConvNets) (rate : float).

Lemma step_loop_with_rate (ncols : nat) (train_set : list (list float))
    (cols epoch : Z) (lr_feed : float) (steps : list Z) :
  forall (sess : Sess) (loss_list accu_list : list float),
    step_loop (with_learning_rate self rate) ncols train_set cols epoch lr_feed steps
      sess loss_list accu_list
    = step_loop self ncols train_set cols epoch lr_feed steps sess loss_list accu_list.
Proof.
  induction steps as [| step rest IH]; intros sess loss_list accu_list; [reflexivity |].
  cbn [step_loop].
  change (_get_next_batch (with_learning_rate self rate) train_set
            (step * batch_size (with_learning_rate self rate)))
    with (_get_next_batch self train_set (step * batch_size self)).
  destruct (_get_next_batch self train_set (step * batch_size self)); [| reflexivity].
  change (train_ops (with_learning_rate self rate)) with (train_ops self).
  change (keep_prob (with_learning_rate self rate)) with (keep_prob self).
  destruct (train_ops self) as [[train_op loss] accuracy].
  destruct (run_train _ _ _) as [[sess' loss_val] accu_val].
  rewrite IH. reflexivity.
Qed.

Lemma epoch_loop_with_rate (ncols : nat) (train_set : list (list float))
    (cols epoch_steps : Z) (save_file : string) (epochs : list Z) :
  lr_adaptive self = true ->
  forall (sess : Sess) (last_accu : float),
    epoch_loop (with_learning_rate self rate) ncols train_set cols epoch_steps
      save_file epochs sess last_accu
    = epoch_loop self ncols train_set cols epoch_steps save_file epochs sess last_accu.
Proof.
  intros Hadaptive.
  induction epochs as [| epoch rest IH]; intros sess last_accu; [reflexivity |].
  cbn [epoch_loop].
  rewrite step_loop_with_rate, !get_learning_rate_with_rate by exact Hadaptive.
  destruct (step_loop _ _ _ _ _ _ _ _ _ _) as [evs [[[sess' loss_list] accu_list] | x]];
    [| reflexivity].
  destruct (mean_percent accu_list) as [mean_accu | x]; [| reflexivity].
  change (save_events (with_learning_rate self rate) save_file epoch mean_accu last_accu)
    with (save_events self save_file epoch mean_accu last_accu).
  destruct (fge mean_accu 99.99); [reflexivity |].
  rewrite IH. reflexivity.
Qed.

(** X16: with [lr_adaptive] on, the configured [learning_rate] is ignored:
    [train] builds the same graph and makes the same run whatever its
    value. *)
Theorem train_ignores_learning_rate (img_features true_labels : ndarray)
    (train_dir result_file : string) (sigma : list nat) :
  lr_adaptive self = true ->
  train (with_learning_rate self rate) img_features true_labels train_dir result_file sigma
  = train self img_features true_labels train_dir result_file sigma.
Proof.
  intros Hadaptive. unfold train.
  destruct (unpack2 (shape img_features)) as [[rows cols] | x]; [| reflexivity].
  change (img_height (with_learning_rate self rate)) with (img_height self).
  change (img_width (with_learning_rate self rate)) with (img_width self).
  destruct (negb (cols =? img_height self * img_width self)); [reflexivity |].
  destruct (np_append_axis1 img_features true_labels) as [[ncols appended] | x];
    [| reflexivity].
  change (train_graph (with_learning_rate self rate)) with (train_graph self).
  change (batch_size (with_learning_rate self rate)) with (batch_size self).
  change (num_epoches (with_learning_rate self rate)) with (num_epoches self).
  destruct (py_ceil_div _ _) as [epoch_steps | x]; [| reflexivity].
  rewrite epoch_loop_with_rate by exact Hadaptive. reflexivity.
Qed.

End AdaptiveRate.

Lemma train_ignores_learning_rate_witness :
  lr_adaptive adaptive_net = true
  /\ train (E := steady_engine) (with_learning_rate adaptive_net 1) three_images
       three_labels "d" "f" [2; 0; 1]%nat
     = train (E := steady_engine) adaptive_net three_images three_labels
         "d" "f" [2; 0; 1]%nat.
Proof.
  split; [reflexivity |].
  exact (train_ignores_learning_rate (E := steady_engine) adaptive_net 1 three_images
           three_labels "d" "f" [2; 0; 1]%nat eq_refl).
Defined.

(** ** The small run, step by step *)

Lemma train_step_rates_witness :
  let run := train (E := steady_engine) adaptive_net (Mat 4 three_rows)
               (Mat 1 three_label_rows) "d" "f" [2; 0; 1]%nat in
  let history := printed run.1 in
  let imgs := Mat 4 [ [1; 1; 0; 0]; [0; 0; 0; 1] ]%float in
  let labs := Vec [1; 1]%float in
  (trainable adaptive_net 4 1 three_rows three_label_rows [2; 0; 1]%nat
   /\ Step 1 0 imgs labs 4e-4 0.5 ∈ run.1)
  /\ (0.5%float = keep_prob adaptive_net
      /\ 0 <= 0 < - (- Z.of_nat (length three_rows) / batch_size adaptive_net)
      /\ exists (i : nat) (m : float),
           history !! i = Some (1, m)
           /\ 1 = Z.of_nat i + 1
           /\ 4e-4%float = _get_learning_rate adaptive_net (last_accu_at 0%float i history)
           /\ Printed 1 4e-4 m ∈ run.1).
Proof.
  intros run history imgs labs.
  assert (H1 : trainable adaptive_net 4 1 three_rows three_label_rows [2; 0; 1]%nat)
    by apply three_samples_trainable.
  assert (H2 : Step 1 0 imgs labs 4e-4 0.5 ∈ run.1).
  { apply list_elem_of_lookup. exists 2%nat. vm_compute. reflexivity. }
  split; [auto |].
  exact (train_step_rates (E := steady_engine) adaptive_net 4 1 three_rows
           three_label_rows "d" "f" [2; 0; 1]%nat H1 1 0 imgs labs 4e-4%float 0.5%float H2).
Defined.

Lemma train_rates_follow_accuracy_witness :
  let run := train (E := steady_engine) adaptive_net (Mat 4 three_rows)
               (Mat 1 three_label_rows) "d" "f" [2; 0; 1]%nat in
  let history := printed run.1 in
  let imgs := Mat 4 [ [1; 1; 0; 0]; [0; 0; 0; 1] ]%float in
  let labs := Vec [1; 1]%float in
  (trainable adaptive_net 4 1 three_rows three_label_rows [2; 0; 1]%nat
   /\ lr_adaptive adaptive_net = true
   /\ history !! 0%nat = Some (1, 50%float)
   /\ history !! 1%nat = Some (2, 50%float)
   /\ PrimFloat.leb (last_accu_at 0%float 0 history) 50 = true
   /\ Step 1 0 imgs labs 4e-4 0.5 ∈ run.1
   /\ Step 2 0 imgs labs 4e-4 0.5 ∈ run.1)
  /\ PrimFloat.leb 4e-4 4e-4 = true.
Proof.
  intros run history imgs labs.
  assert (H1 : trainable adaptive_net 4 1 three_rows three_label_rows [2; 0; 1]%nat)
    by apply three_samples_trainable.
  assert (H2 : lr_adaptive adaptive_net = true) by reflexivity.
  assert (H3 : history !! 0%nat = Some (1, 50%float)) by (vm_compute; reflexivity).
  assert (H4 : history !! 1%nat = Some (2, 50%float)) by (vm_compute; reflexivity).
  assert (H5 : PrimFloat.leb (last_accu_at 0%float 0 history) 50 = true)
    by (vm_compute; reflexivity).
  assert (H6 : Step 1 0 imgs labs 4e-4 0.5 ∈ run.1).
  { apply list_elem_of_lookup. exists 2%nat. vm_compute. reflexivity. }
  assert (H7 : Step 2 0 imgs labs 4e-4 0.5 ∈ run.1).
  { apply list_elem_of_lookup. exists 5%nat. vm_compute. reflexivity. }
  split; [exact (conj H1 (conj H2 (conj H3 (conj H4 (conj H5 (conj H6 H7)))))) |].
  exact (train_rates_follow_accuracy (E := steady_engine) adaptive_net 4 1 three_rows
           three_label_rows "d" "f" [2; 0; 1]%nat H1 H2 0%nat 1 2 50%float 50%float
           0 0 imgs labs imgs labs 4e-4%float 4e-4%float 0.5%float 0.5%float
           H3 H4 H5 H6 H7).
Defined.

Lemma train_feeds_paired_samples_witness :
  let run := train (E := steady_engine) adaptive_net (Mat 4 three_rows)
               (Mat 1 three_label_rows) "d" "f" [2; 0; 1]%nat in
  let imgs := Mat 4 [ [1; 1; 0; 0]; [0; 0; 0; 1] ]%float in
  let labs := Vec [1; 1]%float in
  (trainable adaptive_net 4 1 three_rows three_label_rows [2; 0; 1]%nat
   /\ Step 1 0 imgs labs 4e-4 0.5 ∈ run.1)
  /\ exists (feed_rows : list (list float)) (feed_labels : list float),
       imgs = Mat 4 feed_rows
       /\ labs = Vec feed_labels
       /\ 1 <= Z.of_nat (length feed_rows) <= batch_size adaptive_net
       /\ length feed_labels = length feed_rows
       /\ forall k : nat, (k < length feed_rows)%nat ->
            exists f l, feed_rows !! k = Some f
                        /\ feed_labels !! k = Some l
                        /\ paired three_rows three_label_rows f l
                        /\ Z.of_nat (length f)
                           = img_height adaptive_net * img_width adaptive_net.
Proof.
  intros run imgs labs.
  assert (H1 : trainable adaptive_net 4 1 three_rows three_label_rows [2; 0; 1]%nat)
    by apply three_samples_trainable.
  assert (H2 : Step 1 0 imgs labs 4e-4 0.5 ∈ run.1).
  { apply list_elem_of_lookup. exists 2%nat. vm_compute. reflexivity. }
  split; [auto |].
  exact (train_feeds_paired_samples (E := steady_engine) adaptive_net 4 three_rows
           three_label_rows "d" "f" [2; 0; 1]%nat H1 1 0 imgs labs 4e-4%float
           0.5%float H2).
Defined.

Lemma train_epoch_feeds_every_sample_witness :
  let run := train (E := steady_engine) adaptive_net (Mat 4 three_rows)
               (Mat 1 three_label_rows) "d" "f" [2; 0; 1]%nat in
  (trainable adaptive_net 4 1 three_rows three_label_rows [2; 0; 1]%nat
   /\ printed run.1 !! 0%nat = Some (1, 50%float)
   /\ three_rows !! 0%nat = Some [0; 0; 0; 1]%float)
  /\ exists (s : Z) (imgs labs : ndarray) (lr kp : float),
       Step 1 s imgs labs lr kp ∈ run.1 /\ [0; 0; 0; 1]%float ∈ mat_rows imgs.
Proof.
  intros run.
  assert (H1 : trainable adaptive_net 4 1 three_rows three_label_rows [2; 0; 1]%nat)
    by apply three_samples_trainable.
  assert (H2 : printed run.1 !! 0%nat = Some (1, 50%float)) by (vm_compute; reflexivity).
  assert (H3 : three_rows !! 0%nat = Some [0; 0; 0; 1]%float) by reflexivity.
  split; [auto |].
  exact (train_epoch_feeds_every_sample (E := steady_engine) adaptive_net 4 1
           three_rows three_label_rows "d" "f" [2; 0; 1]%nat H1 0%nat 1 50%float
           0%nat [0; 0; 0; 1]%float H2 H3).
Defined.

(** ** Where checkpoints go and where [predict] looks *)

Lemma trace_saved_file (self : ImgConvNets) (f : string) (steps : nat)
    (last : float) (epochs : list Z) (evs : list event) (r : result unit) :
  epochs_trace self f steps last epochs evs r ->
  forall e' f' gs, Saved e' f' gs ∈ evs -> f' = f.
Proof.
  assert (Hsteps : forall e step_evs e' f' gs,
            Forall (fun ev => steps_of e ev = true) step_evs ->
            Saved e' f' gs ∈ step_evs -> False).
  { intros e step_evs e' f' gs Hall Hin. rewrite Forall_forall in Hall.
    specialize (Hall _ Hin). discriminate. }
  assert (Hpart : forall e step_evs lr m l e' f' gs,
            Forall (fun ev => steps_of e ev = true) step_evs ->
            Saved e' f' gs ∈ step_evs ++ save_events self f e m l ++ [Printed e lr m] ->
            f' = f).
  { intros e step_evs lr m l e' f' gs Hall Hin.
    rewrite !elem_of_app in Hin. destruct Hin as [Hin | [Hin | Hin]].
    - destruct (Hsteps _ _ _ _ _ Hall Hin).
    - apply elem_of_save_events in Hin as (_ & -> & _). reflexivity.
    - apply list_elem_of_singleton in Hin. discriminate. }
  induction 1 as [last | last e rest step_evs mean Hlen Hall Hbreak
                 | last e rest step_evs mean evs r Hlen Hall Hgo Hrest IH
                 | last e rest step_evs Hlen Hall]; intros e' f' gs Hin.
  - apply elem_of_nil in Hin. contradiction.
  - exact (Hpart _ _ _ _ _ _ _ _ Hall Hin).
  - apply elem_of_app in Hin as [Hin | Hin].
    + exact (Hpart _ _ _ _ _ _ _ _ Hall Hin).
    + exact (IH _ _ _ Hin).
  - destruct (Hsteps _ _ _ _ _ Hall Hin).
Qed.

Section CheckpointPaths.
Context `{E : Engine}.

(** X17: the checkpoint [train] writes without a global step goes under
    [os.path.join(train_dir, result_file)]; when the graph [train] built is
    on file at that path with [.meta] added and the values are on file at
    that path, [predict], given the same directory, file name and scope,
    imports that graph, restores these values, and returns what the session
    fetches for [top_k] of the softmax of the logits of [train].  (A
    checkpoint written with [global_step] is not covered: [predict] reads
    the plain path only.) *)
Theorem predict_restores_plain_checkpoint (self : ImgConvNets)
    (img_features true_labels : ndarray) (train_dir result_file : string)
    (sigma : list nat) (e : Z) (f : string)
    (fs : gmap string file) (sess : Sess) (features : ndarray) (k : Z) :
  Saved e f None ∈ (train self img_features true_labels train_dir result_file sigma).1 ->
  fs !! (f +:+ ".meta") = Some (MetaGraph (train_graph self)) ->
  fs !! f = Some (VariableValues sess) ->
  f = os_path_join train_dir result_file
  /\ predict fs (model_scope self) train_dir result_file features k
     = Ok (run_pair sess (tf_top_k (tf_softmax (train_logits self)) k)
             [ (images_placeholder, FeedArray features);
               (keep_prob_placeholder, FeedScalar 1) ]).
Proof.
  intros Hin Hmeta Hvalues.
  assert (Hf : f = os_path_join train_dir result_file).
  { destruct (train_shape self img_features true_labels train_dir result_file sigma)
      as [Hrun | [Hrun | (steps & evs & Hevs & Htrace)]].
    - rewrite Hrun in Hin. apply elem_of_nil in Hin. contradiction.
    - rewrite Hrun in Hin. cbn [fst] in Hin. rewrite !elem_of_cons, elem_of_nil in Hin.
      destruct Hin as [Hin | [Hin | []]]; discriminate.
    - rewrite Hevs in Hin. apply elem_of_app in Hin as [Hin | Hin].
      + rewrite !elem_of_cons, elem_of_nil in Hin.
        destruct Hin as [Hin | [Hin | []]]; discriminate.
      + exact (trace_saved_file _ _ _ _ _ _ _ Htrace _ _ _ Hin). }
  split; [exact Hf |]. subst f.
  destruct (train_graph_collections self) as (Hlogits & Himages & Hkeep).
  unfold predict, tf_import_meta_graph, saver_restore.
  rewrite os_path_join_meta, Hmeta, Hvalues. simpl.
  rewrite Hlogits, Himages, Hkeep. reflexivity.
Qed.

End CheckpointPaths.

Lemma predict_restores_plain_checkpoint_witness :
  let run := train (E := steady_engine) adaptive_net three_images three_labels
               "d" "f" [2; 0; 1]%nat in
  (Saved 2 "d/f" None ∈ run.1
   /\ checkpoint_files !! ("d/f" +:+ ".meta")
      = Some (MetaGraph (train_graph (E := steady_engine) adaptive_net))
   /\ checkpoint_files !! "d/f"%string
      = Some (VariableValues (4%nat : @Sess steady_engine)))
  /\ "d/f"%string = os_path_join "d" "f"
  /\ predict (E := steady_engine) checkpoint_files (model_scope adaptive_net)
       "d" "f" three_images 1
     = Ok (run_pair (Engine := steady_engine) 4%nat
             (tf_top_k (tf_softmax (train_logits adaptive_net)) 1)
             [ (images_placeholder, FeedArray three_images);
               (keep_prob_placeholder, FeedScalar 1) ]).
Proof.
  intros run.
  assert (H1 : Saved 2 "d/f" None ∈ run.1).
  { apply list_elem_of_lookup. exists 7%nat. vm_compute. reflexivity. }
  assert (H2 : checkpoint_files !! ("d/f" +:+ ".meta")
               = Some (MetaGraph (train_graph (E := steady_engine) adaptive_net)))
    by reflexivity.
  assert (H3 : checkpoint_files !! "d/f"%string
               = Some (VariableValues (4%nat : @Sess steady_engine)))
    by reflexivity.
  split; [auto |].
  exact (predict_restores_plain_checkpoint (E := steady_engine) adaptive_net three_images
           three_labels "d" "f" [2; 0; 1]%nat 2 "d/f" checkpoint_files 4%nat
           three_images 1 H1 H2 H3).
Defined.

(** ** Sizes along the models *)

(** X18: in each model the declared sizes chain from one input channel to
    [class_count] logits: every layer takes as many inputs as the layer
    before it puts out, every bias has the output width of its layer, and
    the first dense layer takes the [para_cnt] values the pooled maps are
    flattened to.  The localisation net of the STCNN model goes from the
    [img_height * img_width] pixels over 64 units to the 6 parameters of the
    transform. *)
Theorem layer_sizes_chain (self : ImgConvNets) :
  let stcnn := _build_inference_graph_stcnn self images_placeholder keep_prob_placeholder in
  let dcnn := _build_inference_graph_dcnn self images_placeholder keep_prob_placeholder in
  let basic := _build_inference_graph_basic self images_placeholder keep_prob_placeholder in
  let two_blocks :=
    [Some (1, 32, 32); Some (32, 32, 32); Some (32, 64, 64); Some (64, 64, 64)] in
  let readout := [Some (1024, class_count self, class_count self)] in
  layer_widths basic
  = two_blocks ++ [Some (para_cnt self, 1024, 1024)] ++ readout
  /\ layer_widths stcnn = layer_widths basic
  /\ layer_widths dcnn
     = [Some (1, 32, 32); Some (32, 32, 32); Some (32, 32, 32); Some (32, 32, 32);
        Some (32, 64, 64); Some (64, 64, 64); Some (64, 64, 64); Some (64, 64, 64);
        Some (para_cnt self, 1024, 1024); Some (1024, 1024, 1024)] ++ readout
  /\ flattened_size basic = Some (para_cnt self)
  /\ flattened_size stcnn = Some (para_cnt self)
  /\ flattened_size dcnn = Some (para_cnt self)
  /\ exists U theta out_size,
       find_transformer stcnn = Some (U, theta, out_size)
       /\ layer_widths theta
          = [Some (img_height self * img_width self, 64, 64); Some (64, 6, 6)].
Proof.
  cbv zeta. repeat (split; [reflexivity |]).
  eexists _, _, _. split; reflexivity.
Qed.
